(** * image_labeler.py: input cell factories and the ImageLabeler state machine

    A shallow embedding of [src/image_labeler.py].  Python values are a small
    universe [PyVal]; lists are indexed the way Python indexes them (negative
    indices wrap, anything else out of range raises [IndexError]); the
    labeler's methods and the closures of [_render_single] / [_render_multi]
    run in a state-and-exception monad whose state survives a raise, as a
    mutated Python object does.

    The closures [cell_callback] are first-order data ([Closure]): the
    controls that hold them live in the labeler's state, and a control's call
    of its result callback is recorded as a [Call] that the labeler then
    runs.

    The program runs in a notebook kernel.  There the widget toolkit decides
    three things that the source relies on, and they are embedded as the
    toolkit has them: an exception raised under [with output:] is shown in
    that output as a traceback and goes no further; a selection widget
    refuses a value that is none of its options and keeps the option equal
    to the value; a bounded widget refuses [max < min] and keeps its value
    within its bounds.  [__repr__] reads the labels and changes nothing; it
    is left out, and so are PNG encoding, layout and style. *)

From Stdlib Require Import ZArith String Bool Lia DecimalString.
From stdpp Require Import base tactics option list.

Local Open Scope string_scope.
Local Open Scope list_scope.
Local Open Scope Z_scope.

(** ** Python values *)

(** The labels, classes and results that flow through the program:
    [None], booleans, integers, strings and
    [DetectorValidationInputCellFactory.ValResult(tp, fp, fn)]. *)
Inductive PyVal : Type :=
| VNone
| VBool (b : bool)
| VInt (z : Z)
| VStr (s : string)
| VValResult (tp fp fn : Z).

(** [bool] is a subclass of [int]: [True == 1] and [False == 0]. *)
Definition as_int (v : PyVal) : option Z :=
  match v with
  | VBool b => Some (Z.b2z b)
  | VInt z => Some z
  | _ => None
  end.

(** Python's [==]. *)
Definition py_eq (a b : PyVal) : bool :=
  match a, b with
  | VNone, VNone => true
  | VStr s, VStr t => String.eqb s t
  | VValResult a1 a2 a3, VValResult b1 b2 b3 =>
      (a1 =? b1) && (a2 =? b2) && (a3 =? b3)
  | _, _ =>
      match as_int a, as_int b with
      | Some x, Some y => x =? y
      | _, _ => false
      end
  end.

(** [x in l] for a list [l]. *)
Definition py_in (x : PyVal) (l : list PyVal) : bool := existsb (py_eq x) l.

(** [x is None]. *)
Definition is_None (x : PyVal) : bool :=
  match x with VNone => true | _ => false end.

(** Truth value of an object, as [if x] tests it; a [ValResult] is a
    three-element tuple, hence true. *)
Definition truthy (x : PyVal) : bool :=
  match x with
  | VNone => false
  | VBool b => b
  | VInt z => negb (z =? 0)
  | VStr s => negb (String.eqb s "")
  | VValResult _ _ _ => true
  end.

(** ** Exceptions and list indexing *)

Inductive PyErr : Type :=
| IndexError
| AttributeError
| AssertionError
| NotImplementedError
| TraitError.

Inductive Outcome (A : Type) : Type :=
| Ret (a : A)
| Raise (e : PyErr).
Arguments Ret {A} a.
Arguments Raise {A} e.

(** Position addressed by index [i] in a list of length [len]:
    [0 <= i < len] addresses [i], [-len <= i < 0] addresses [len + i]. *)
Definition py_index (len : nat) (i : Z) : option nat :=
  let n := Z.of_nat len in
  if (0 <=? i) && (i <? n) then Some (Z.to_nat i)
  else if (- n <=? i) && (i <? 0) then Some (Z.to_nat (n + i))
  else None.

(** [l[i]] *)
Definition getitem {A} (l : list A) (i : Z) : Outcome A :=
  match py_index (length l) i with
  | Some k => match l !! k with Some x => Ret x | None => Raise IndexError end
  | None => Raise IndexError
  end.

(** [l[i] = x] *)
Definition setitem {A} (l : list A) (i : Z) (x : A) : Outcome (list A) :=
  match py_index (length l) i with
  | Some k => Ret (<[k:=x]> l)
  | None => Raise IndexError
  end.

(** [range(n)] *)
Definition range (n : nat) : list Z := map Z.of_nat (seq 0 n).

(** [all(l)] *)
Definition all (l : list bool) : bool := forallb id l.

(** ** The widget toolkit

    Layout and style arguments ([layout=], [button_style=],
    [style.button_width]) are presentation only and are left out. *)

Module widgets.

(** The [change] dictionary handed to an observer; the source reads
    [change['new']]. *)
Record Change : Type := { change_old : PyVal; change_new : PyVal }.

Module ToggleButtons.
Record t (M : Type) : Type := mk {
  options : list PyVal;
  value : PyVal;
  observers : list (Change -> M)
}.
Arguments mk {M}.
Arguments options {M}.
Arguments value {M}.
Arguments observers {M}.

(** [ToggleButtons(options=..., value=...)].  The toolkit validates the
    selection: [None] is no selection; any other value must equal ([==])
    one of the options, and the first option equal to it is what the widget
    keeps; a value equal to no option is refused with a [TraitError]. *)
Definition new {M} (options : list PyVal) (value : PyVal)
  : Outcome (t M) :=
  if is_None value then Ret (mk options VNone [])
  else match List.find (fun o => py_eq o value) options with
       | Some o => Ret (mk options o [])
       | None => Raise TraitError
       end.

(** [w.observe(handler, names='value')] *)
Definition observe {M} (handler : Change -> M) (w : t M) : t M :=
  mk (options w) (value w) (observers w ++ [handler]).

(** The user presses the [k]-th button: [value] becomes [options[k]], and
    when that differs from the old value each observer is called with the
    change. Returns the widget and the handler calls, in order. *)
Definition press {M} (k : nat) (w : t M) : t M * list M :=
  match options w !! k with
  | None => (w, [])
  | Some c =>
      (mk (options w) c (observers w),
       if py_eq (value w) c then []
       else map (fun h => h {| change_old := value w; change_new := c |})
                (observers w))
  end.
End ToggleButtons.

Module BoundedIntText.
Record t : Type := mk {
  description : string;
  value : Z;
  min : Z;
  max : Z
}.

(** Modelled from the spec: the toolkit's bounded integer text box is not
    part of this repository; the spec has it as "bounds-checked integer
    entry".  The box holds an integer in [min, max]: whatever it is given,
    at construction or typed in, is brought to the nearest bound. *)
Definition bound (lo hi z : Z) : Z := Z.max lo (Z.min hi z).

(** [BoundedIntText(description=..., value=..., min=..., max=...)] *)
Definition new (description : string) (value min max : Z) : t :=
  mk description (bound min max value) min max.

(** The user types [z] into the box. *)
Definition enter (z : Z) (w : t) : t :=
  mk (description w) (bound (min w) (max w) z) (min w) (max w).
End BoundedIntText.

Module IntProgress.
(** [IntProgress(value=..., min=..., max=...)]: the toolkit refuses
    [max < min] with a [TraitError]; otherwise the bar starts at the value,
    brought within its bounds.  Returns that starting value. *)
Definition new (value min max : Z) : Outcome Z :=
  if max <? min then Raise TraitError
  else Ret (BoundedIntText.bound min max value).
End IntProgress.

Module Button.
(** [H] is the type of click handlers. *)
Record t (H : Type) : Type := mk {
  description : string;
  click_handlers : list H
}.
Arguments mk {H}.
Arguments description {H}.
Arguments click_handlers {H}.

(** [Button(description=...)] *)
Definition new {H} (description : string) : t H := mk description [].

(** [b.on_click(handler)] *)
Definition on_click {H} (handler : H) (b : t H) : t H :=
  mk (description b) (click_handlers b ++ [handler]).
End Button.

End widgets.
Import widgets.

(** ** Input cell factories *)

Section Factories.
(** [M] is what a call of the result callback amounts to. *)
Context {M : Type}.

(** The three counters that [on_submit] closes over.  They are mutable
    widgets, so the closure is given them when it is called rather than
    when it is made. *)
Definition SubmitHandler : Type :=
  BoundedIntText.t -> BoundedIntText.t -> BoundedIntText.t -> unit -> M.

(** [HBox([tp_widget, fp_widget, fn_widget, submit_btn])] *)
Record HBox : Type := mkHBox {
  tp_widget : BoundedIntText.t;
  fp_widget : BoundedIntText.t;
  fn_widget : BoundedIntText.t;
  submit_btn : Button.t SubmitHandler
}.

(** What [new] returns: the class selector or the counters box. *)
Inductive Control : Type :=
| SelectCtl (select_widget : ToggleButtons.t M)
| CountersCtl (box : HBox).

(** [MultiClassInputCellFactory]: "For labeling a fixed number of
    classes". *)
Record MultiClassInputCellFactory : Type := mkMultiClass {
  _classes : list PyVal;
  _default_class : PyVal
}.

(** [MultiClassInputCellFactory.__init__(classes, default=None)] *)
Definition MultiClass__init__ (classes : list PyVal) (default : PyVal)
  : Outcome MultiClassInputCellFactory :=
  if truthy default then Ret (mkMultiClass classes default)
  else match getitem classes 0 with
       | Ret c => Ret (mkMultiClass classes c)
       | Raise e => Raise e
       end.

(** [on_change] inside [MultiClassInputCellFactory.new] *)
Definition on_change (result_callback : PyVal -> M) (change : Change) : M :=
  result_callback (change_new change).

(** [MultiClassInputCellFactory.new(result_callback, value=None)] *)
Definition MultiClass_new (self : MultiClassInputCellFactory)
    (result_callback : PyVal -> M) (value : PyVal) : Outcome Control :=
  let value :=
    if is_None value || negb (py_in value (_classes self))
    then _default_class self else value in
  match ToggleButtons.new (_classes self) value with
  | Raise e => Raise e
  | Ret select_widget =>
      let select_widget :=
        ToggleButtons.observe (on_change result_callback) select_widget in
      Ret (SelectCtl select_widget)
  end.

(** [on_submit] inside [DetectorValidationInputCellFactory.new] *)
Definition on_submit (result_callback : PyVal -> M)
    (tp_widget fp_widget fn_widget : BoundedIntText.t) (unused : unit) : M :=
  result_callback (VValResult (BoundedIntText.value tp_widget)
                              (BoundedIntText.value fp_widget)
                              (BoundedIntText.value fn_widget)).

(** [DetectorValidationInputCellFactory.new(result_callback, value=None)];
    [value.tp] on anything but a [ValResult] raises [AttributeError]. *)
Definition DetectorValidation_new (result_callback : PyVal -> M)
    (value : PyVal) : Outcome Control :=
  match
    (if is_None value then Ret (0, 0, 0)
     else match value with
          | VValResult tp fp fn => Ret (tp, fp, fn)
          | _ => Raise AttributeError
          end)
  with
  | Raise e => Raise e
  | Ret (tp, fp, fn) =>
      let tp_widget := BoundedIntText.new "true (+)" tp 0 100 in
      let fp_widget := BoundedIntText.new "false (+)" fp 0 100 in
      let fn_widget := BoundedIntText.new "false (-)" fn 0 100 in
      let submit_btn := Button.new "Submit" in
      let submit_btn :=
        Button.on_click (on_submit result_callback) submit_btn in
      Ret (CountersCtl (mkHBox tp_widget fp_widget fn_widget submit_btn))
  end.

(** The class hierarchy: the abstract base and its two subclasses. *)
Inductive InputCellFactory : Type :=
| AbstractInputCellFactory
| MultiClass (self : MultiClassInputCellFactory)
| DetectorValidation.

(** [factory.new(result_callback, value)], by dynamic dispatch. *)
Definition new (factory : InputCellFactory) (result_callback : PyVal -> M)
    (value : PyVal) : Outcome Control :=
  match factory with
  | AbstractInputCellFactory => Raise NotImplementedError
  | MultiClass self => MultiClass_new self result_callback value
  | DetectorValidation => DetectorValidation_new result_callback value
  end.

(** *** What the user can do with a control *)

Inductive Counter : Type := TP | FP | FN.

Inductive CtlEvent : Type :=
| Press (k : nat)                 (* press the k-th toggle button *)
| Enter (c : Counter) (z : Z)     (* type an integer into a counter *)
| Submit.                         (* click the Submit button *)

(** One user action on a control: the control afterwards and the handler
    calls the toolkit makes, in order.  An action the control has no
    element for does nothing. *)
Definition fire (ctl : Control) (ev : CtlEvent) : Control * list M :=
  match ctl, ev with
  | SelectCtl w, Press k =>
      let '(w', calls) := ToggleButtons.press k w in (SelectCtl w', calls)
  | CountersCtl box, Enter c z =>
      let box' :=
        match c with
        | TP => mkHBox (BoundedIntText.enter z (tp_widget box))
                       (fp_widget box) (fn_widget box) (submit_btn box)
        | FP => mkHBox (tp_widget box)
                       (BoundedIntText.enter z (fp_widget box))
                       (fn_widget box) (submit_btn box)
        | FN => mkHBox (tp_widget box) (fp_widget box)
                       (BoundedIntText.enter z (fn_widget box))
                       (submit_btn box)
        end in
      (CountersCtl box', [])
  | CountersCtl box, Submit =>
      (ctl,
       map (fun h => h (tp_widget box) (fp_widget box) (fn_widget box) tt)
           (Button.click_handlers (submit_btn box)))
  | _, _ => (ctl, [])
  end.

(** A whole session on a control: the control afterwards and every handler
    call made, in order. *)
Fixpoint fire_all (ctl : Control) (evs : list CtlEvent)
  : Control * list M :=
  match evs with
  | [] => (ctl, [])
  | ev :: evs =>
      let '(ctl', calls) := fire ctl ev in
      let '(ctl'', calls') := fire_all ctl' evs in
      (ctl'', calls ++ calls')
  end.

End Factories.
Arguments Control : clear implicits.
Arguments HBox : clear implicits.
Arguments SubmitHandler : clear implicits.

(** ** The image labeler *)

(** [str(z)] for an integer. *)
Definition str (z : Z) : string := NilZero.string_of_int (Z.to_int z).

(** The two [cell_callback] closures, each with the [idx] of the
    [render_img(idx)] call that made it. *)
Inductive Closure : Type :=
| multi_cell_callback (idx : Z)
| single_cell_callback (idx : Z).

(** A call of a closure on one argument.  The controls built by the cell
    factory hold the closure as their result callback; the toolkit's call of
    it is recorded as a [Call] and run by [run_call] below. *)
Record Call : Type := mkCall { callee : Closure; arg : PyVal }.

Section Labeler.
(** The type of an image (a numpy array); turning it into PNG bytes is the
    imaging library's business, so the image stands for its own PNG. *)
Context {ndarray : Type}.

(** What one [render_img] call makes: the closure [cell_callback], the
    input cell that holds it as result callback, and the image widget. *)
Record Cell : Type := mkCell {
  cell_callback : Closure;
  cell_ctl : Control Call;
  img_widget : ndarray
}.

(** The object, the locals that the closures of [_render_single] share
    ([n], [idx] and the widgets they write), and what is on display. *)
Record ImageLabeler : Type := mkImageLabeler {
  _images : list ndarray;
  _cell_factory : InputCellFactory;
  _labels : list PyVal;
  _seen : list bool;
  (* the constructor's [multi_mode]: which layout was rendered *)
  multi_mode : bool;
  (* locals of [_render_single] *)
  n : Z;
  idx : Z;
  pbar_widget : Z;          (* pbar_widget.value *)
  label_widget : string;    (* label_widget.value *)
  auto_next_box : bool;     (* auto_next_box.value *)
  (* the cells now shown in the image output area(s), in display order *)
  img_output : list Cell;
  (* every [display(img_widget)] so far: the indices of the images shown *)
  displayed : list Z;
  (* every traceback shown so far under an output widget *)
  tracebacks : list PyErr
}.

Definition set__labels (x : list PyVal) (s : ImageLabeler) : ImageLabeler :=
  mkImageLabeler (_images s) (_cell_factory s) x (_seen s) (multi_mode s)
    (n s) (idx s) (pbar_widget s) (label_widget s) (auto_next_box s)
    (img_output s) (displayed s) (tracebacks s).

Definition set__seen (x : list bool) (s : ImageLabeler) : ImageLabeler :=
  mkImageLabeler (_images s) (_cell_factory s) (_labels s) x (multi_mode s)
    (n s) (idx s) (pbar_widget s) (label_widget s) (auto_next_box s)
    (img_output s) (displayed s) (tracebacks s).

Definition set_n (x : Z) (s : ImageLabeler) : ImageLabeler :=
  mkImageLabeler (_images s) (_cell_factory s) (_labels s) (_seen s)
    (multi_mode s) x (idx s) (pbar_widget s) (label_widget s)
    (auto_next_box s) (img_output s) (displayed s) (tracebacks s).

Definition set_idx (x : Z) (s : ImageLabeler) : ImageLabeler :=
  mkImageLabeler (_images s) (_cell_factory s) (_labels s) (_seen s)
    (multi_mode s) (n s) x (pbar_widget s) (label_widget s)
    (auto_next_box s) (img_output s) (displayed s) (tracebacks s).

Definition set_progress_widgets (p : Z) (l : string) (s : ImageLabeler)
  : ImageLabeler :=
  mkImageLabeler (_images s) (_cell_factory s) (_labels s) (_seen s)
    (multi_mode s) (n s) (idx s) p l (auto_next_box s)
    (img_output s) (displayed s) (tracebacks s).

Definition set_auto_next_box (x : bool) (s : ImageLabeler) : ImageLabeler :=
  mkImageLabeler (_images s) (_cell_factory s) (_labels s) (_seen s)
    (multi_mode s) (n s) (idx s) (pbar_widget s) (label_widget s) x
    (img_output s) (displayed s) (tracebacks s).

Definition set_img_output (x : list Cell) (s : ImageLabeler)
  : ImageLabeler :=
  mkImageLabeler (_images s) (_cell_factory s) (_labels s) (_seen s)
    (multi_mode s) (n s) (idx s) (pbar_widget s) (label_widget s)
    (auto_next_box s) x (displayed s) (tracebacks s).

Definition set_displayed (x : list Z) (s : ImageLabeler) : ImageLabeler :=
  mkImageLabeler (_images s) (_cell_factory s) (_labels s) (_seen s)
    (multi_mode s) (n s) (idx s) (pbar_widget s) (label_widget s)
    (auto_next_box s) (img_output s) x (tracebacks s).

Definition set_tracebacks (x : list PyErr) (s : ImageLabeler)
  : ImageLabeler :=
  mkImageLabeler (_images s) (_cell_factory s) (_labels s) (_seen s)
    (multi_mode s) (n s) (idx s) (pbar_widget s) (label_widget s)
    (auto_next_box s) (img_output s) (displayed s) x.

(** *** State and exceptions *)

(** A computation on the labeler: it returns or raises, and leaves a state
    behind either way. *)
Definition Py (A : Type) : Type := ImageLabeler -> Outcome A * ImageLabeler.

Definition ret {A} (a : A) : Py A := fun s => (Ret a, s).

Definition bind {A B} (m : Py A) (k : A -> Py B) : Py B :=
  fun s =>
    match m s with
    | (Ret a, s') => k a s'
    | (Raise e, s') => (Raise e, s')
    end.

Definition lift {A} (o : Outcome A) : Py A := fun s => (o, s).

Definition get {A} (field : ImageLabeler -> A) : Py A :=
  fun s => (Ret (field s), s).

Definition modify (f : ImageLabeler -> ImageLabeler) : Py unit :=
  fun s => (Ret tt, f s).

Notation "x <- m ;; k" := (bind m (fun x => k))
  (at level 20, m at level 99, k at level 200, only parsing).
Notation "m ;;; k" := (bind m (fun _ => k))
  (at level 100, k at level 200, only parsing, right associativity).

(** [with output: body] for an output widget, in a notebook kernel: an
    exception raised by the body is shown in the output as a traceback and
    suppressed, and the program goes on after the block. *)
Definition with_output (body : Py unit) : Py unit :=
  fun s =>
    match body s with
    | (Ret _, s') => (Ret tt, s')
    | (Raise e, s') => (Ret tt, set_tracebacks (tracebacks s' ++ [e]) s')
    end.

(** [for x in xs: body(x)] *)
Fixpoint for_each {A} (xs : list A) (body : A -> Py unit) : Py unit :=
  match xs with
  | [] => ret tt
  | x :: xs => body x ;;; for_each xs body
  end.

(** *** Methods *)

(** [_load_image(idx)]: [self._images[idx]], encoded. *)
Definition _load_image (idx : Z) : Py ndarray :=
  images <- get _images ;;
  lift (getitem images idx).

(** [all_seen] *)
Definition all_seen (self : ImageLabeler) : bool := all (_seen self).

(** [labels] *)
Definition labels (self : ImageLabeler) : list PyVal := _labels self.

(** [remove()]: [self._output.clear_output()].  Single mode displays
    everything inside [self._output]; multi mode displays the images
    outside it. *)
Definition remove : Py unit :=
  multi <- get multi_mode ;;
  if multi then ret tt else modify (set_img_output []).

(** Both [render_img] bodies from [with img_output:] on: under it, build
    the cell for [self._labels[idx]] with [cell_callback] as its result
    callback, display it and the image, and mark the image seen. *)
Definition show_cell (cell_callback : Closure) (img_data : ndarray)
    (idx : Z) : Py unit :=
  with_output (
    factory <- get _cell_factory ;;
    ls <- get _labels ;;
    value <- lift (getitem ls idx) ;;
    ctl <- lift (new factory (mkCall cell_callback) value) ;;
    modify (fun s =>
      set_img_output
        (img_output s ++ [mkCell cell_callback ctl img_data]) s) ;;;
    modify (fun s => set_displayed (displayed s ++ [idx]) s) ;;;
    seen <- get _seen ;;
    seen' <- lift (setitem seen idx true) ;;
    modify (set__seen seen')).

(** [render_img(idx)] of [_render_multi] *)
Definition multi_render_img (idx : Z) : Py unit :=
  img_data <- _load_image idx ;;
  show_cell (multi_cell_callback idx) img_data idx.

(** [_render_multi()] *)
Definition _render_multi : Py unit :=
  images <- get _images ;;
  for_each (range (length images)) multi_render_img.

(** [cell_callback(label)] of [_render_multi]'s [render_img(idx)] *)
Definition multi_cell_callback_body (idx : Z) (label : PyVal) : Py unit :=
  ls <- get _labels ;;
  ls' <- lift (setitem ls idx label) ;;
  modify (set__labels ls').

(** [set_progess()] *)
Definition set_progess : Py unit :=
  modify (fun s =>
    set_progress_widgets (idx s + 1)
      (str (idx s + 1) ++ " / " ++ str (n s))%string s).

(** [render_img(idx)] of [_render_single]; [img_output.clear_output()]
    empties the output area first. *)
Definition render_img (idx : Z) : Py unit :=
  img_data <- _load_image idx ;;
  modify (set_img_output []) ;;;
  show_cell (single_cell_callback idx) img_data idx.

(** [next_img(unused)] *)
Definition next_img (unused : unit) : Py unit :=
  i <- get idx ;;
  n <- get n ;;
  (if i <? n - 1 then
     modify (set_idx (i + 1)) ;;;
     i <- get idx ;;
     render_img i
   else ret tt) ;;;
  set_progess.

(** [prev_img(unused)] *)
Definition prev_img (unused : unit) : Py unit :=
  i <- get idx ;;
  (if i >? 0 then
     modify (set_idx (i - 1)) ;;;
     i <- get idx ;;
     render_img i
   else ret tt) ;;;
  set_progess.

(** [cell_callback(label)] of [_render_single]'s [render_img(idx)]; the
    [idx] here is [render_img]'s parameter, not the shared local. *)
Definition single_cell_callback_body (idx : Z) (label : PyVal) : Py unit :=
  ls <- get _labels ;;
  ls' <- lift (setitem ls idx label) ;;
  modify (set__labels ls') ;;;
  n <- get n ;;
  auto <- get auto_next_box ;;
  if (idx <? n - 1) && auto then next_img tt else ret tt.

(** [_render_single()]; the first [render_img] call is made under
    [with self._output:]. *)
Definition _render_single : Py unit :=
  images <- get _images ;;
  modify (set_n (Z.of_nat (length images))) ;;;
  modify (set_idx 0) ;;;
  n <- get n ;;
  pbar <- lift (IntProgress.new 1 1 n) ;;
  modify (set_progress_widgets pbar "") ;;;
  set_progess ;;;
  modify (set_auto_next_box true) ;;;
  modify (set_img_output []) ;;;
  with_output (i <- get idx ;; render_img i).

(** The assignments of [__init__] up to the rendering: the attributes of
    the new object.  The locals of [_render_single] do not exist yet and
    hold placeholders. *)
Definition init_attributes (images : list ndarray)
    (cell_factory : InputCellFactory)
    (default_labels : option (list PyVal)) (multi_mode : bool)
  : Outcome ImageLabeler :=
  let default_labels :=
    match default_labels with
    | None => replicate (length images) VNone
    | Some l => l
    end in
  if Nat.eqb (length default_labels) (length images) then
    Ret (mkImageLabeler images cell_factory default_labels
           (replicate (length images) false) multi_mode
           0 0 0 "" true [] [] [])
  else Raise AssertionError.

(** [ImageLabeler(images, cell_factory, default_labels=None,
    multi_mode=False)]: the object, unless the constructor raises. *)
Definition __init__ (images : list ndarray)
    (cell_factory : InputCellFactory)
    (default_labels : option (list PyVal)) (multi_mode : bool)
  : Outcome ImageLabeler :=
  match init_attributes images cell_factory default_labels multi_mode with
  | Raise e => Raise e
  | Ret self =>
      match (if multi_mode then _render_multi else _render_single) self with
      | (Ret _, self) => Ret self
      | (Raise e, _) => Raise e
      end
  end.

(** *** The user interface as a state machine *)

(** Run a recorded call of a closure. *)
Definition run_call (c : Call) : Py unit :=
  match callee c with
  | multi_cell_callback idx => multi_cell_callback_body idx (arg c)
  | single_cell_callback idx => single_cell_callback_body idx (arg c)
  end.

Inductive Event : Type :=
| ClickNext
| ClickPrevious
| SetAutoAdvance (b : bool)            (* tick or untick the checkbox *)
| CellEvent (k : nat) (ev : CtlEvent)  (* act on the k-th shown cell *)
| Remove.                              (* the notebook calls remove() *)

(** The reaction to one action.  The navigation bar exists in single mode
    only.  A control takes its new value before its handlers run.  Actions
    on widgets that [remove()] has taken off the screen are not excluded:
    the states reached are a superset of those a user can reach. *)
Definition handle (e : Event) : Py unit :=
  multi <- get multi_mode ;;
  match e with
  | ClickNext => if multi then ret tt else next_img tt
  | ClickPrevious => if multi then ret tt else prev_img tt
  | SetAutoAdvance b =>
      if multi then ret tt else modify (set_auto_next_box b)
  | CellEvent k ev =>
      cells <- get img_output ;;
      match cells !! k with
      | None => ret tt
      | Some cell =>
          let '(ctl', calls) := fire (cell_ctl cell) ev in
          modify (set_img_output
                    (<[k := mkCell (cell_callback cell) ctl'
                                   (img_widget cell)]> cells)) ;;;
          for_each calls run_call
      end
  | Remove => remove
  end.

(** The state after an action, whether its handler returned or raised. *)
Definition step (e : Event) (s : ImageLabeler) : ImageLabeler :=
  snd (handle e s).

(** States the labeler can be in: as constructed, and after any user
    action. *)
Inductive reachable : ImageLabeler -> Prop :=
| reachable_init images cell_factory default_labels multi_mode self :
    __init__ images cell_factory default_labels multi_mode = Ret self ->
    reachable self
| reachable_step e s :
    reachable s -> reachable (step e s).

End Labeler.
Arguments ImageLabeler : clear implicits.
Arguments Cell : clear implicits.
Arguments Py : clear implicits.

(** ** Notions the statements are written in *)

Section Wiring.
Context {M : Type}.

(** The control calls [result_callback], and nothing else, the way [new]
    wires it: as the one observer of the selector, or through [on_submit]
    as the one click handler of the Submit button. *)
Definition wired_to (result_callback : PyVal -> M) (ctl : Control M)
  : Prop :=
  match ctl with
  | SelectCtl w =>
      ToggleButtons.observers w = [on_change result_callback]
  | CountersCtl box =>
      Button.click_handlers (submit_btn box) = [on_submit result_callback]
  end.

(** The selected class of a class selector. *)
Definition selection (ctl : Control M) : option PyVal :=
  match ctl with
  | SelectCtl w => Some (ToggleButtons.value w)
  | CountersCtl _ => None
  end.

(** The three counters of a counters box, as the [ValResult] they make. *)
Definition counters (ctl : Control M) : option PyVal :=
  match ctl with
  | SelectCtl _ => None
  | CountersCtl box =>
      Some (VValResult (BoundedIntText.value (tp_widget box))
                       (BoundedIntText.value (fp_widget box))
                       (BoundedIntText.value (fn_widget box)))
  end.

(** The integer one counter of a counters box holds. *)
Definition counter_value (c : Counter) (ctl : Control M) : option Z :=
  match ctl with
  | SelectCtl _ => None
  | CountersCtl box =>
      Some (BoundedIntText.value
              match c with
              | TP => tp_widget box
              | FP => fp_widget box
              | FN => fn_widget box
              end)
  end.
End Wiring.

(** A counter widget as [new] sets it up and keeps it: bounds 0 and 100 and
    a value between them. *)
Definition counter_ok (w : BoundedIntText.t) : Prop :=
  BoundedIntText.min w = 0 /\ BoundedIntText.max w = 100 /\
  0 <= BoundedIntText.value w <= 100.

(** A counters box whose three counters are so. *)
Definition counters_ok {M} (ctl : Control M) : Prop :=
  match ctl with
  | SelectCtl _ => False
  | CountersCtl box =>
      counter_ok (tp_widget box) /\ counter_ok (fp_widget box) /\
      counter_ok (fn_widget box)
  end.

(** A [ValResult] whose three counts lie in [0, 100]. *)
Definition bounded_result (v : PyVal) : Prop :=
  exists tp fp fn, v = VValResult tp fp fn /\
    0 <= tp <= 100 /\ 0 <= fp <= 100 /\ 0 <= fn <= 100.

(** Whether [factory.new] builds a cell for [value] rather than raising; the
    result callback plays no part in that. *)
Definition accepts (factory : InputCellFactory) (value : PyVal) : bool :=
  match new (M := unit) factory (fun _ => tt) value with
  | Ret _ => true
  | Raise _ => false
  end.

(** The exception with which [factory.new] refuses [value], if it does. *)
Definition refusal (factory : InputCellFactory) (value : PyVal)
  : option PyErr :=
  match new (M := unit) factory (fun _ => tt) value with
  | Ret _ => None
  | Raise e => Some e
  end.

(** Whether the factory builds a cell for the label stored at position [i]
    of [labels]. *)
Definition accepted_at (factory : InputCellFactory) (labels : list PyVal)
    (i : Z) : bool :=
  match labels !! Z.to_nat i with
  | Some v => accepts factory v
  | None => false
  end.

(** The exception, if any, with which the factory refuses the label
    stored at position [i] of [labels]. *)
Definition refused_at (factory : InputCellFactory) (labels : list PyVal)
    (i : Z) : option PyErr :=
  labels !! Z.to_nat i ≫= refusal factory.

(** The flags [seen] after the images [displayed] have been marked, one
    after the other. *)
Definition mark_seen (seen : list bool) (displayed : list Z) : list bool :=
  fold_left (fun seen i => <[Z.to_nat i := true]> seen) displayed seen.

Section Invariants.
Context {ndarray : Type}.
Implicit Types (s : ImageLabeler ndarray) (cell : Cell ndarray).

(** The labels and the seen flags have one entry per image. *)
Definition sized s : Prop :=
  length (_labels s) = length (_images s) /\
  length (_seen s) = length (_images s).

(** The seen flags are exactly the images displayed so far. *)
Definition seen_displayed s : Prop :=
  forall i : Z,
    i ∈ displayed s <-> 0 <= i /\ _seen s !! Z.to_nat i = Some true.

(** A shown cell's control calls the closure made with it. *)
Definition cell_wired cell : Prop :=
  wired_to (mkCall (cell_callback cell)) (cell_ctl cell).

(** Single mode: the shared [n] is the number of images, [idx] is a valid
    position, and the output area holds at most one cell, the one made for
    the current image. *)
Definition single_inv s : Prop :=
  n s = Z.of_nat (length (_images s)) /\
  0 <= idx s < n s /\
  (length (img_output s) <= 1)%nat /\
  Forall (fun cell =>
            cell_callback cell = single_cell_callback (idx s) /\
            cell_wired cell)
         (img_output s).

(** Multi mode: every shown cell was made for a valid position. *)
Definition multi_inv s : Prop :=
  Forall (fun cell =>
            (exists i, 0 <= i < Z.of_nat (length (_images s)) /\
                       cell_callback cell = multi_cell_callback i) /\
            cell_wired cell)
         (img_output s).

Definition inv s : Prop :=
  sized s /\ seen_displayed s /\
  if multi_mode s then multi_inv s else single_inv s.

(** Nothing but the labels, the flags and the display changed from [s] to
    [s'], the arrays kept their lengths, and no flag went back to
    [False]. *)
Definition extends s s' : Prop :=
  _images s' = _images s /\
  _cell_factory s' = _cell_factory s /\
  multi_mode s' = multi_mode s /\
  length (_labels s') = length (_labels s) /\
  length (_seen s') = length (_seen s) /\
  (forall k : nat, _seen s !! k = Some true -> _seen s' !! k = Some true).

(** The state [show_cell] leaves when the factory builds the cell [ctl]:
    cell and image displayed, image marked seen. *)
Definition shown (c : Closure) (ctl : Control Call) (img : ndarray)
    (i : Z) s : ImageLabeler ndarray :=
  set__seen (<[Z.to_nat i := true]> (_seen s))
    (set_displayed (displayed s ++ [i])
       (set_img_output (img_output s ++ [mkCell c ctl img]) s)).

(** The state [show_cell] leaves when the factory raises [e]: the
    traceback shown, nothing displayed, no flag set. *)
Definition rejected (e : PyErr) s : ImageLabeler ndarray :=
  set_tracebacks (tracebacks s ++ [e]) s.

(** [cell] is what [render_img(i)] makes in state [s]: the closure [c i],
    the control that the factory builds around it for [labels[i]], and
    image [i]. *)
Definition made_for (c : Z -> Closure) s cell (i : Z) : Prop :=
  cell_callback cell = c i /\
  _images s !! Z.to_nat i = Some (img_widget cell) /\
  exists v, _labels s !! Z.to_nat i = Some v /\
            new (_cell_factory s) (mkCall (c i)) v = Ret (cell_ctl cell).

(** The state in which [_render_single] makes its first [render_img]
    call: the shared locals set up, nothing shown yet. *)
Definition single_start s : ImageLabeler ndarray :=
  let len := Z.of_nat (length (_images s)) in
  set_img_output []
    (set_auto_next_box true
       (set_progress_widgets 1 (str 1 ++ " / " ++ str len)%string
          (set_idx 0 (set_n len s)))).

(** The labels array that [__init__] starts from. *)
Definition initial_labels (images : list ndarray)
    (default_labels : option (list PyVal)) : list PyVal :=
  match default_labels with
  | None => replicate (length images) VNone
  | Some l => l
  end.

End Invariants.

(** ** Labelers to try things on *)

(** Three images (numbered, as their content does not matter) labelled
    cat or dog. *)
Definition pets : InputCellFactory :=
  MultiClass (mkMultiClass [VStr "cat"; VStr "dog"] (VStr "cat")).

Definition pets_single : Outcome (ImageLabeler nat) :=
  __init__ [10; 20; 30]%nat pets None false.

Definition pets_multi : Outcome (ImageLabeler nat) :=
  __init__ [10; 20; 30]%nat pets None true.

(** Two images checked against a detector; the second default label is not
    a [ValResult]. *)
Definition checks_single : Outcome (ImageLabeler nat) :=
  __init__ [10; 20]%nat DetectorValidation
    (Some [VNone; VStr "later"]) false.

(** The same with the labels swapped: the first label is not a
    [ValResult]. *)
Definition checks_late : Outcome (ImageLabeler nat) :=
  __init__ [10; 20]%nat DetectorValidation
    (Some [VStr "later"; VNone]) false.

(** Three images checked against a detector, all at once; the second label
    is not a [ValResult]. *)
Definition checks_multi : Outcome (ImageLabeler nat) :=
  __init__ [10; 20; 30]%nat DetectorValidation
    (Some [VNone; VStr "later"; VNone]) true.

(** The state after a list of user actions. *)
Definition steps {ndarray} (es : list Event) (s : ImageLabeler ndarray)
  : ImageLabeler ndarray :=
  fold_left (fun s e => step e s) es s.

(** ** Notions for the further properties *)

(** Whether an action on a control can call the result callback: pressing a
    class or clicking Submit can, typing into a counter cannot. *)
Definition delivers (ev : CtlEvent) : bool :=
  match ev with
  | Press _ | Submit => true
  | Enter _ _ => false
  end.

(** The progress bar and the label show the current position. *)
Definition progress_synced {ndarray} (s : ImageLabeler ndarray) : Prop :=
  pbar_widget s = idx s + 1 /\
  label_widget s = (str (idx s + 1) ++ " / " ++ str (n s))%string.

(** The image index that a closure was made for. *)
Definition closure_idx (c : Closure) : Z :=
  match c with
  | multi_cell_callback idx => idx
  | single_cell_callback idx => idx
  end.

(** Multi mode: the shown cells are, in order, the cells of the images
    displayed, and these are images of the labeler, in increasing order. *)
Definition multi_layout {ndarray} (s : ImageLabeler ndarray) : Prop :=
  cell_callback <$> img_output s = multi_cell_callback <$> displayed s /\
  displayed s `sublist_of` range (length (_images s)).

(** What an action adds to the display and to the tracebacks, one of
    three things: nothing; one image, the current one afterwards,
    for whose label the factory built a cell; or one traceback, of an
    exception with which the factory refused a label, the output area
    being left empty. *)
Definition log_step {ndarray} (s s' : ImageLabeler ndarray) : Prop :=
  (displayed s' = displayed s /\ tracebacks s' = tracebacks s /\
   _seen s' = _seen s /\
   (img_output s = [] -> img_output s' = [])) \/
  (multi_mode s = false /\
   displayed s' = displayed s ++ [idx s'] /\
   tracebacks s' = tracebacks s /\
   exists v, accepts (_cell_factory s) v = true) \/
  (multi_mode s = false /\
   displayed s' = displayed s /\ _seen s' = _seen s /\
   img_output s' = [] /\
   exists v e, refusal (_cell_factory s) v = Some e /\
               tracebacks s' = tracebacks s ++ [e]).

(** A second pets factory, whose first class is [None]. *)
Definition maybe_pets : MultiClassInputCellFactory :=
  mkMultiClass [VNone; VStr "cat"; VStr "dog"] (VStr "cat").

(** A pets factory made with a default that is none of its classes. *)
Definition bird_pets : MultiClassInputCellFactory :=
  mkMultiClass [VStr "cat"; VStr "dog"] (VStr "bird").

(** * Properties *)

(** ** List indexing *)

Lemma py_index_in_range (len : nat) (i : Z) :
  0 <= i < Z.of_nat len -> py_index len i = Some (Z.to_nat i).
Proof.
  intros [H0 H1]. unfold py_index.
  apply Z.leb_le in H0. apply Z.ltb_lt in H1. by rewrite H0, H1.
Qed.

Example getitem_python :
  getitem [VInt 1; VInt 2; VInt 3] 0 = Ret (VInt 1) /\
  getitem [VInt 1; VInt 2; VInt 3] (-1) = Ret (VInt 3) /\
  getitem [VInt 1; VInt 2; VInt 3] 3 = Raise IndexError /\
  getitem [VInt 1; VInt 2; VInt 3] (-4) = Raise IndexError /\
  setitem [VInt 1; VInt 2; VInt 3] (-3) VNone = Ret [VNone; VInt 2; VInt 3].
Proof. by repeat split. Qed.

Lemma getitem_in_range {A} (l : list A) (i : Z) :
  0 <= i < Z.of_nat (length l) ->
  exists x, l !! Z.to_nat i = Some x /\ getitem l i = Ret x.
Proof.
  intros Hi. unfold getitem. rewrite py_index_in_range by done.
  destruct (lookup_lt_is_Some_2 l (Z.to_nat i)) as [x Hx]; [lia|].
  exists x. by rewrite Hx.
Qed.

Lemma setitem_in_range {A} (l : list A) (i : Z) (x : A) :
  0 <= i < Z.of_nat (length l) -> setitem l i x = Ret (<[Z.to_nat i := x]> l).
Proof. intros Hi. unfold setitem. by rewrite py_index_in_range. Qed.

Lemma setitem_Ret {A} (l l' : list A) (i : Z) (x : A) :
  setitem l i x = Ret l' ->
  exists k, py_index (length l) i = Some k /\ l' = <[k := x]> l.
Proof.
  unfold setitem. destruct (py_index (length l) i) as [k|]; [|done].
  intros [= <-]. eauto.
Qed.

Lemma range_elem (len : nat) (i : Z) :
  i ∈ range len <-> 0 <= i < Z.of_nat len.
Proof.
  unfold range. rewrite list_elem_of_In, in_map_iff. split.
  - intros (k & <- & Hk). apply in_seq in Hk. lia.
  - intros Hi. exists (Z.to_nat i). split; [lia|]. apply in_seq. lia.
Qed.

Lemma range_Forall (len : nat) :
  Forall (fun i => 0 <= i < Z.of_nat len) (range len).
Proof. apply Forall_forall. intros i. apply range_elem. Qed.

Lemma range_lookup (len k : nat) :
  (k < len)%nat -> range len !! k = Some (Z.of_nat k).
Proof.
  intros Hk. unfold range.
  change (map Z.of_nat (seq 0 len)) with (Z.of_nat <$> seq 0 len).
  by rewrite list_lookup_fmap, lookup_seq_lt.
Qed.

Lemma range_S (k : nat) : range (S k) = range k ++ [Z.of_nat k].
Proof. unfold range. by rewrite seq_S, map_app. Qed.

Lemma filter_sublist {A} (f : A -> bool) (l : list A) :
  List.filter f l `sublist_of` l.
Proof.
  induction l as [|x l IH]; simpl; [constructor|].
  destruct (f x); by constructor.
Qed.

Lemma filter_all {A} (f : A -> bool) (l : list A) :
  Forall (fun x => f x = true) l -> List.filter f l = l.
Proof.
  induction 1 as [|x l Hx _ IH]; simpl; [done|]. by rewrite Hx, IH.
Qed.

Lemma all_replicate_true (len : nat) : all (replicate len true) = true.
Proof. induction len; [done|]. cbn. done. Qed.

Lemma all_true_lookup (l : list bool) :
  all l = true <-> forall k : nat, (k < length l)%nat -> l !! k = Some true.
Proof.
  unfold all. rewrite forallb_forall. split.
  - intros H k Hk. destruct (lookup_lt_is_Some_2 l k Hk) as [b Hb].
    rewrite Hb. f_equal. apply (H b).
    apply list_elem_of_In. by eapply list_elem_of_lookup_2.
  - intros H b [k Hk]%list_elem_of_In%list_elem_of_lookup_1.
    pose proof (H k (lookup_lt_Some _ _ _ Hk)) as Hk'. simpl. congruence.
Qed.

(** ** Python equality *)

Lemma py_eq_refl (v : PyVal) : py_eq v v = true.
Proof.
  destruct v; simpl; rewrite ?Z.eqb_refl, ?String.eqb_refl; done.
Qed.

Lemma py_eq_sym (a b : PyVal) : py_eq a b = py_eq b a.
Proof.
  destruct a, b; simpl; try done;
    rewrite ?(Z.eqb_sym tp), ?(Z.eqb_sym fp), ?(Z.eqb_sym fn);
    auto using Z.eqb_sym, String.eqb_sym.
Qed.


Lemma py_in_lookup (l : list PyVal) (k : nat) (c : PyVal) :
  l !! k = Some c -> py_in c l = true.
Proof.
  intros Hk. unfold py_in. apply existsb_exists. exists c.
  split; [|apply py_eq_refl].
  apply list_elem_of_In. by eapply list_elem_of_lookup_2.
Qed.

Lemma py_in_elem (l : list PyVal) (c : PyVal) : c ∈ l -> py_in c l = true.
Proof. intros [k Hk]%list_elem_of_lookup_1. by eapply py_in_lookup. Qed.

(** [x in l] holds exactly when the search for the first element equal to
    [x] succeeds. *)
Lemma find_py_in (x : PyVal) (l : list PyVal) :
  match List.find (fun o => py_eq o x) l with
  | Some o => py_in x l = true /\ o ∈ l /\ py_eq o x = true
  | None => py_in x l = false
  end.
Proof.
  destruct (List.find (fun o => py_eq o x) l) as [o|] eqn:Hfind.
  - apply find_some in Hfind as [Hin Heq]. split; [|split; [|done]].
    + apply existsb_exists. exists o. by rewrite py_eq_sym.
    + by apply list_elem_of_In.
  - apply not_true_is_false. intros (o & Hin & Heq)%existsb_exists.
    pose proof (find_none _ _ Hfind o Hin) as Hno. simpl in Hno.
    rewrite py_eq_sym in Hno. congruence.
Qed.

(** ** The toolkit's widgets *)

Lemma bound_within (lo hi z : Z) :
  lo <= hi -> lo <= BoundedIntText.bound lo hi z <= hi.
Proof. unfold BoundedIntText.bound. lia. Qed.

Lemma bound_fixes (lo hi z : Z) :
  lo <= hi -> (BoundedIntText.bound lo hi z = z <-> lo <= z <= hi).
Proof. unfold BoundedIntText.bound. lia. Qed.

(** What the selection widget starts at: nothing for [None], the first
    option equal to the value otherwise; a value that is no option is
    refused. *)
Lemma ToggleButtons_new_cases {M} (options : list PyVal) (value : PyVal) :
  (is_None value = true /\
   ToggleButtons.new (M := M) options value
     = Ret (ToggleButtons.mk options VNone [])) \/
  (is_None value = false /\ py_in value options = true /\
   exists o, o ∈ options /\ py_eq o value = true /\
     ToggleButtons.new (M := M) options value
       = Ret (ToggleButtons.mk options o [])) \/
  (is_None value = false /\ py_in value options = false /\
   ToggleButtons.new (M := M) options value = Raise TraitError).
Proof.
  unfold ToggleButtons.new. destruct (is_None value); [by left|right].
  pose proof (find_py_in value options) as H.
  destruct (List.find _ options) as [o|].
  - left. destruct H as (? & ? & ?). split; [done|]. split; [done|].
    by exists o.
  - by right.
Qed.

(** ** Input cell factories *)

Section FactoryFacts.
Context {M : Type}.
Implicit Types (result_callback : PyVal -> M) (ctl : Control M).

(** The value that [MultiClassInputCellFactory.new] hands to the
    selection widget. *)
Lemma MultiClass_new_run self result_callback value :
  MultiClass_new self result_callback value =
    match ToggleButtons.new (_classes self)
            (if is_None value || negb (py_in value (_classes self))
             then _default_class self else value) with
    | Raise e => Raise e
    | Ret w => Ret (SelectCtl (ToggleButtons.observe
                                 (on_change result_callback) w))
    end.
Proof. reflexivity. Qed.

Lemma MultiClass_new_Ret self result_callback value ctl :
  MultiClass_new self result_callback value = Ret ctl ->
  exists w,
    ctl = SelectCtl w /\
    wired_to result_callback ctl /\
    ToggleButtons.options w = _classes self /\
    (ToggleButtons.value w = VNone \/
     ToggleButtons.value w ∈ _classes self).
Proof.
  rewrite MultiClass_new_run.
  destruct (ToggleButtons_new_cases (M := M) (_classes self)
              (if is_None value || negb (py_in value (_classes self))
               then _default_class self else value))
    as [[_ ->] | [(_ & _ & o & Ho & _ & ->) | (_ & _ & ->)]]; [| |done].
  - intros [= <-]. eexists. split; [done|]. split; [done|]. split; [done|].
    by left.
  - intros [= <-]. eexists. split; [done|]. split; [done|]. split; [done|].
    by right.
Qed.

(** The exception is the toolkit's [TraitError]. *)
Lemma MultiClass_new_Raise self result_callback value e :
  MultiClass_new self result_callback value = Raise e -> e = TraitError.
Proof.
  rewrite MultiClass_new_run.
  destruct (ToggleButtons_new_cases (M := M) (_classes self)
              (if is_None value || negb (py_in value (_classes self))
               then _default_class self else value))
    as [[_ ->] | [(_ & _ & o & _ & _ & ->) | (_ & _ & ->)]]; [done..|].
  by intros [= <-].
Qed.

Lemma DetectorValidation_new_Ret result_callback value ctl :
  DetectorValidation_new result_callback value = Ret ctl ->
  exists tp fp fn box,
    (value = VNone /\ (tp, fp, fn) = (0, 0, 0) \/
     value = VValResult tp fp fn) /\
    ctl = CountersCtl box /\
    wired_to result_callback ctl /\
    tp_widget box = BoundedIntText.new "true (+)" tp 0 100 /\
    fp_widget box = BoundedIntText.new "false (+)" fp 0 100 /\
    fn_widget box = BoundedIntText.new "false (-)" fn 0 100.
Proof.
  unfold DetectorValidation_new.
  destruct value; simpl; try discriminate; intros [= <-].
  - exists 0, 0, 0. eexists. split; [by left|]. done.
  - exists tp, fp, fn. eexists. split; [by right|]. done.
Qed.

Lemma new_wired factory result_callback value ctl :
  new factory result_callback value = Ret ctl ->
  wired_to result_callback ctl.
Proof.
  destruct factory as [|self|]; simpl; [done| |].
  - intros H. apply MultiClass_new_Ret in H. by destruct H as (w & _ & Hw & _).
  - intros H. apply DetectorValidation_new_Ret in H.
    destruct H as (? & ? & ? & ? & _ & _ & Hw & _). done.
Qed.

(** The exceptions of the factories: the abstract one is not implemented,
    the class selector's come from the selection widget, the detector's
    from reading [value.tp]. *)
Lemma new_raise_kinds factory result_callback value e :
  new factory result_callback value = Raise e ->
  match factory with
  | AbstractInputCellFactory => e = NotImplementedError
  | MultiClass _ => e = TraitError
  | DetectorValidation => e = AttributeError
  end.
Proof.
  destruct factory as [|self|]; simpl.
  - by intros [= <-].
  - apply MultiClass_new_Raise.
  - unfold DetectorValidation_new. destruct value; simpl; try done;
      by intros [= <-].
Qed.

Lemma fire_wired result_callback ctl ev :
  wired_to result_callback ctl ->
  wired_to result_callback (fst (fire ctl ev)).
Proof.
  destruct ctl as [w|box], ev as [k|c z|]; simpl; try done.
  - unfold ToggleButtons.press. by destruct (ToggleButtons.options w !! k).
  - by destruct c.
Qed.

(** What one action on a class selector does. *)
Lemma fire_select result_callback w ev :
  wired_to result_callback (SelectCtl w) ->
  exists w',
    fst (fire (SelectCtl w) ev) = SelectCtl w' /\
    snd (fire (SelectCtl w) ev) =
      (if py_eq (ToggleButtons.value w) (ToggleButtons.value w') then []
       else [result_callback (ToggleButtons.value w')]).
Proof.
  simpl. intros Hw.
  destruct ev as [k|c z|]; simpl;
    try (exists w; by rewrite py_eq_refl).
  unfold ToggleButtons.press.
  destruct (ToggleButtons.options w !! k) as [c|]; simpl.
  - eexists. split; [reflexivity|]. simpl. rewrite Hw.
    by destruct (py_eq (ToggleButtons.value w) c).
  - exists w. by rewrite py_eq_refl.
Qed.

(** What one action on a counters box does. *)
Lemma fire_counters result_callback box ev :
  wired_to result_callback (CountersCtl box) ->
  exists box' r,
    fst (fire (CountersCtl box) ev) = CountersCtl box' /\
    counters (CountersCtl box) = Some r /\
    snd (fire (CountersCtl box) ev) =
      match ev with Submit => [result_callback r] | _ => [] end.
Proof.
  simpl. intros Hw.
  destruct ev as [k|c z|]; simpl; try by repeat eexists.
  rewrite Hw. by repeat eexists.
Qed.

(** A wired control makes at most one call per action, a call of its
    result callback. *)
Lemma fire_calls result_callback ctl ev :
  wired_to result_callback ctl ->
  snd (fire ctl ev) = [] \/
  exists v, snd (fire ctl ev) = [result_callback v].
Proof.
  intros Hw. destruct ctl as [w|box].
  - destruct (fire_select result_callback w ev Hw) as (w' & _ & ->).
    destruct (py_eq _ _); eauto.
  - destruct (fire_counters result_callback box ev Hw)
      as (box' & r & _ & _ & ->).
    destruct ev; eauto.
Qed.

Lemma fire_silent ctl ev : delivers ev = false -> snd (fire ctl ev) = [].
Proof.
  destruct ev as [k|c z|]; [done| |done]. intros _.
  destruct ctl as [w|box]; [done|]. by destruct c.
Qed.

(** A property of controls that every action keeps holds after a whole
    session, and what it says of each action's calls holds of all the
    calls of the session. *)
Lemma fire_all_invariant (P : Control M -> Prop) (Q : M -> Prop) :
  (forall ctl ev, P ctl -> P (fst (fire ctl ev))) ->
  (forall ctl ev, P ctl -> Forall Q (snd (fire ctl ev))) ->
  forall evs ctl,
    P ctl ->
    P (fst (fire_all ctl evs)) /\ Forall Q (snd (fire_all ctl evs)).
Proof.
  intros HP HQ evs. induction evs as [|ev evs IH]; intros ctl Hctl; simpl.
  - by split.
  - specialize (HP ctl ev Hctl). specialize (HQ ctl ev Hctl).
    destruct (fire ctl ev) as [ctl' calls]. simpl in HP, HQ.
    destruct (IH ctl' HP) as [IH1 IH2].
    destruct (fire_all ctl' evs) as [ctl'' calls']. simpl in *.
    split; [done|]. by apply Forall_app.
Qed.

Lemma fire_all_wired result_callback ctl evs :
  wired_to result_callback ctl ->
  wired_to result_callback (fst (fire_all ctl evs)).
Proof.
  intros Hw.
  apply (fire_all_invariant (wired_to result_callback) (fun _ => True));
    [intros; by apply fire_wired | intros; by apply Forall_true | done].
Qed.

Lemma fire_all_select ctl evs :
  is_Some (selection ctl) -> is_Some (selection (fst (fire_all ctl evs))).
Proof.
  intros Hs.
  apply (fire_all_invariant (fun c => is_Some (selection c))
                            (fun _ => True)); [| |done].
  - intros [w|box] ev [x Hx]; [|done]. simpl.
    destruct ev; simpl; eauto.
    destruct (ToggleButtons.press k w); simpl; eauto.
  - intros. by apply Forall_true.
Qed.

Lemma new_counter_ok d z : counter_ok (BoundedIntText.new d z 0 100).
Proof.
  unfold counter_ok. simpl. split; [done|]. split; [done|].
  apply bound_within. lia.
Qed.

Lemma enter_counter_ok z w :
  counter_ok w -> counter_ok (BoundedIntText.enter z w).
Proof.
  intros (Hlo & Hhi & _). unfold counter_ok. simpl.
  split; [done|]. split; [done|]. rewrite Hlo, Hhi.
  apply bound_within. lia.
Qed.

Lemma fire_counters_ok ctl ev :
  counters_ok ctl -> counters_ok (fst (fire ctl ev)).
Proof.
  destruct ctl as [w|box]; [done|]. intros (Htp & Hfp & Hfn).
  destruct ev as [k|c z|]; simpl; try done.
  destruct c; simpl; auto using enter_counter_ok.
Qed.

Lemma counters_ok_bounded ctl :
  counters_ok ctl ->
  exists r, counters ctl = Some r /\ bounded_result r.
Proof.
  destruct ctl as [w|box]; [done|].
  intros ((_ & _ & Htp) & (_ & _ & Hfp) & (_ & _ & Hfn)).
  eexists. split; [reflexivity|]. eexists _, _, _. by split.
Qed.

Lemma DetectorValidation_new_ok result_callback value ctl :
  DetectorValidation_new result_callback value = Ret ctl ->
  counters_ok ctl.
Proof.
  intros H. apply DetectorValidation_new_Ret in H.
  destruct H as (tp & fp & fn & box & _ & -> & _ & Htp & Hfp & Hfn).
  simpl. rewrite Htp, Hfp, Hfn. auto using new_counter_ok.
Qed.

(** What a counters box delivers during a session: bounded results. *)
Lemma fire_all_counters result_callback value ctl0 evs :
  DetectorValidation_new result_callback value = Ret ctl0 ->
  (wired_to result_callback (fst (fire_all ctl0 evs)) /\
   counters_ok (fst (fire_all ctl0 evs))) /\
  Forall (fun call => exists r, call = result_callback r /\ bounded_result r)
         (snd (fire_all ctl0 evs)).
Proof.
  intros Hnew.
  pose proof (new_wired DetectorValidation _ _ _ Hnew) as Hwired.
  pose proof (DetectorValidation_new_ok _ _ _ Hnew) as Hok.
  apply (fire_all_invariant
           (fun c => wired_to result_callback c /\ counters_ok c));
    [| |done].
  - intros ctl ev [? ?].
    split; [by apply fire_wired|by apply fire_counters_ok].
  - intros [w|box] ev [Hw Hc]; [done|].
    destruct (fire_counters result_callback box ev Hw)
      as (box' & r & _ & Hr & ->).
    destruct ev; try apply Forall_nil_2.
    apply Forall_singleton. exists r. split; [done|].
    destruct (counters_ok_bounded _ Hc) as (r' & Hr' & Hb). congruence.
Qed.

(** A selector of the factory during a session: wired, its options the
    classes, its selection [None] or one of them; and every class it
    delivers is one of them. *)
Lemma fire_all_selector self result_callback value ctl0 evs :
  MultiClass_new self result_callback value = Ret ctl0 ->
  exists w,
    fst (fire_all ctl0 evs) = SelectCtl w /\
    ToggleButtons.options w = _classes self /\
    (ToggleButtons.value w = VNone \/
     ToggleButtons.value w ∈ _classes self) /\
    Forall (fun call => exists c, call = result_callback c /\
                                  c ∈ _classes self)
           (snd (fire_all ctl0 evs)).
Proof.
  intros Hnew. apply MultiClass_new_Ret in Hnew as (w0 & -> & Hw0 & Ho0 & Hv0).
  set (P := fun ctl : Control M =>
              exists w, ctl = SelectCtl w /\
                wired_to result_callback ctl /\
                ToggleButtons.options w = _classes self /\
                (ToggleButtons.value w = VNone \/
                 ToggleButtons.value w ∈ _classes self)).
  destruct (fire_all_invariant P
              (fun call => exists c, call = result_callback c /\
                                     c ∈ _classes self))
    with (evs := evs) (ctl := SelectCtl w0)
    as [(w & Hw & _ & Ho & Hv) Hc].
  - intros ctl ev (w & -> & Hw & Ho & Hv).
    destruct ev as [k|c z|]; simpl; try by exists w.
    unfold ToggleButtons.press.
    destruct (ToggleButtons.options w !! k) as [c|] eqn:Hk; simpl;
      [|by exists w].
    rewrite Ho in Hk.
    eexists. split; [reflexivity|]. split; [done|]. split; [done|].
    simpl. right. by eapply list_elem_of_lookup_2.
  - intros ctl ev (w & -> & Hw & Ho & Hv).
    destruct ev as [k|c z|]; simpl; try apply Forall_nil_2.
    unfold ToggleButtons.press.
    destruct (ToggleButtons.options w !! k) as [c|] eqn:Hk; simpl;
      [|apply Forall_nil_2].
    destruct (py_eq (ToggleButtons.value w) c); [apply Forall_nil_2|].
    simpl in Hw. rewrite Hw. apply Forall_singleton. exists c.
    split; [done|]. rewrite <- Ho. by eapply list_elem_of_lookup_2.
  - by exists w0.
  - by exists w.
Qed.

(** When the default class is [None] or one of the classes, [new] builds
    a selector whatever the value. *)
Lemma MultiClass_new_total self result_callback value :
  is_None (_default_class self) = true \/
  py_in (_default_class self) (_classes self) = true ->
  exists ctl, MultiClass_new self result_callback value = Ret ctl.
Proof.
  intros Hd. rewrite MultiClass_new_run.
  destruct (ToggleButtons_new_cases (M := M) (_classes self)
              (if is_None value || negb (py_in value (_classes self))
               then _default_class self else value))
    as [[_ ->] | [(_ & _ & o & _ & _ & ->) | (Hnone & Hin & _)]];
    [by eexists..|].
  destruct (is_None value || negb (py_in value (_classes self))) eqn:Hv.
  - destruct Hd; congruence.
  - apply orb_false_elim in Hv as [_ Hv]. apply negb_false_iff in Hv.
    congruence.
Qed.

End FactoryFacts.

(** Whether [new] returns or raises, and what it raises, does not depend
    on the result callback. *)
Lemma new_outcome {M} factory (result_callback : PyVal -> M) value :
  match new factory result_callback value with
  | Ret _ => accepts factory value = true /\ refusal factory value = None
  | Raise e => accepts factory value = false /\ refusal factory value = Some e
  end.
Proof.
  unfold accepts, refusal. destruct factory as [|self|]; simpl; [done| |].
  - rewrite !MultiClass_new_run. unfold ToggleButtons.new.
    destruct (is_None _); [done|]. by destruct (List.find _ _).
  - unfold DetectorValidation_new. by destruct value.
Qed.

Lemma new_accepts {M} factory (result_callback : PyVal -> M) value :
  accepts factory value = true <->
  exists ctl, new factory result_callback value = Ret ctl.
Proof.
  pose proof (new_outcome factory result_callback value) as H.
  destruct (new factory result_callback value) as [ctl|e].
  - split; [by eauto|]. by destruct H.
  - destruct H as [-> _]. split; [done|]. by intros [? ?].
Qed.

Lemma new_refusal {M} factory (result_callback : PyVal -> M) value e :
  refusal factory value = Some e <->
  new factory result_callback value = Raise e.
Proof.
  pose proof (new_outcome factory result_callback value) as H.
  destruct (new factory result_callback value) as [ctl|e'].
  - destruct H as [_ ->]. done.
  - destruct H as [_ ->]. split; congruence.
Qed.

Lemma accepts_refusal factory value :
  accepts factory value = true <-> refusal factory value = None.
Proof.
  unfold accepts, refusal. by destruct (new factory (fun _ => tt) value).
Qed.

(** C4. Both factories wire the control to the result callback.  After any
    session [evs] on the control that [new] returned, one more action [ev]
    on the class selector calls the result callback once, with the new
    selection, when the selection changes, and makes no call when it does
    not; on the counters box it calls the result callback once, with the
    [ValResult] made of the three counters, when it is a click on Submit,
    and makes no call otherwise. *)
Theorem new_wires_result_callback {M : Type}
    (result_callback : PyVal -> M) (value : PyVal)
    (evs : list CtlEvent) (ev : CtlEvent) :
  (forall self ctl0,
     MultiClass_new self result_callback value = Ret ctl0 ->
     let ctl := fst (fire_all ctl0 evs) in
     exists old new,
       selection ctl = Some old /\
       selection (fst (fire ctl ev)) = Some new /\
       snd (fire ctl ev) =
         if py_eq old new then [] else [result_callback new]) /\
  (forall ctl0,
     DetectorValidation_new result_callback value = Ret ctl0 ->
     let ctl := fst (fire_all ctl0 evs) in
     exists tp fp fn,
       counters ctl = Some (VValResult tp fp fn) /\
       snd (fire ctl ev) =
         match ev with
         | Submit => [result_callback (VValResult tp fp fn)]
         | _ => []
         end).
Proof.
  split.
  - intros self ctl0 Hnew ctl.
    apply MultiClass_new_Ret in Hnew as (w0 & -> & Hwired & _).
    pose proof (fire_all_wired result_callback _ evs Hwired) as Hw.
    fold ctl in Hw. destruct ctl as [w|box] eqn:Hctl.
    + destruct (fire_select result_callback w ev Hw) as (w' & H1 & H2).
      exists (ToggleButtons.value w), (ToggleButtons.value w').
      rewrite H1, H2. done.
    + assert (is_Some (selection ctl)) as [x Hx].
      { apply fire_all_select. by eexists. }
      by rewrite Hctl in Hx.
  - intros ctl0 Hnew ctl.
    destruct (fire_all_counters result_callback value ctl0 evs Hnew)
      as [[Hw Hok] _].
    fold ctl in Hw, Hok. destruct ctl as [w|box]; [done|].
    destruct (fire_counters result_callback box ev Hw)
      as (box' & r & _ & Hr & Hc).
    simpl in Hr. injection Hr as <-.
    eexists _, _, _. split; [reflexivity|]. exact Hc.
Qed.

(** An instance of C4: a selector over cat/dog starting at cat, the user
    presses dog; a counters box after entering 4 and 2, the user submits. *)
Lemma new_wires_result_callback_witness :
  (exists ctl0,
     MultiClass_new (M := PyVal)
       (mkMultiClass [VStr "cat"; VStr "dog"] (VStr "cat")) id (VStr "cat")
       = Ret ctl0 /\
     let ctl := fst (fire_all ctl0 [Press 0]) in
     exists old new,
       selection ctl = Some old /\
       selection (fst (fire ctl (Press 1))) = Some new /\
       snd (fire ctl (Press 1)) = if py_eq old new then [] else [id new]) /\
  (exists ctl0,
     DetectorValidation_new (M := PyVal) id VNone = Ret ctl0 /\
     let ctl := fst (fire_all ctl0 [Enter TP 4; Enter FN 2]) in
     exists tp fp fn,
       counters ctl = Some (VValResult tp fp fn) /\
       snd (fire ctl Submit) = [id (VValResult tp fp fn)]).
Proof.
  split.
  - eexists. split; [reflexivity|].
    exact (proj1 (new_wires_result_callback (M := PyVal) id (VStr "cat")
                    [Press 0] (Press 1))
             (mkMultiClass [VStr "cat"; VStr "dog"] (VStr "cat")) _
             eq_refl).
  - eexists. split; [reflexivity|].
    exact (proj2 (new_wires_result_callback (M := PyVal) id VNone
                    [Enter TP 4; Enter FN 2] Submit) _ eq_refl).
Defined.

(** C5 (against the toolkit's bounded integer box as described by the spec).
    However the counters box was initialised and whatever the user does with
    it, its three counters hold integers in [0, 100], every call of the
    result callback delivers a [ValResult] with
    [0 <= tp, fp, fn <= 100], and a counter takes a typed integer as it is
    exactly when that integer lies in [0, 100]. *)
Theorem counters_deliver_bounded_results {M : Type}
    (result_callback : PyVal -> M) (value : PyVal) (ctl0 : Control M)
    (evs : list CtlEvent) :
  DetectorValidation_new result_callback value = Ret ctl0 ->
  (exists r, counters (fst (fire_all ctl0 evs)) = Some r /\
             bounded_result r) /\
  Forall (fun call => exists r, call = result_callback r /\ bounded_result r)
         (snd (fire_all ctl0 evs)) /\
  (forall c z v,
     counter_value c (fst (fire (fst (fire_all ctl0 evs)) (Enter c z)))
       = Some v ->
     (v = z <-> 0 <= z <= 100)).
Proof.
  intros Hnew.
  destruct (fire_all_counters result_callback value ctl0 evs Hnew)
    as [[Hw' Hok'] Hcalls].
  split; [by apply counters_ok_bounded|]. split; [done|].
  intros c z v. destruct (fst (fire_all ctl0 evs)) as [w|box]; [done|].
  destruct Hok' as ((Htl & Hth & _) & (Hpl & Hph & _) & (Hnl & Hnh & _)).
  destruct c; simpl; intros [= <-];
    rewrite ?Htl, ?Hth, ?Hpl, ?Hph, ?Hnl, ?Hnh; apply bound_fixes; lia.
Qed.

(** An instance of C5: starting from [ValResult(500, -3, 7)], the user types
    1000 and -1 and submits twice. *)
Lemma counters_deliver_bounded_results_witness :
  exists ctl0,
    DetectorValidation_new (M := PyVal) id (VValResult 500 (-3) 7)
      = Ret ctl0 /\
    Forall (fun call => exists r, call = id r /\ bounded_result r)
           (snd (fire_all ctl0
                   [Submit; Enter FP 1000; Enter FN (-1); Submit])).
Proof.
  eexists. split; [reflexivity|].
  exact (proj1 (proj2 (counters_deliver_bounded_results (M := PyVal) id
                         (VValResult 500 (-3) 7) _
                         [Submit; Enter FP 1000; Enter FN (-1); Submit]
                         eq_refl))).
Defined.




(** C10 as stated fails: built for [ValResult(500, -3, 7)], the counters
    start at 100, 0 and 7, not at 500, -3 and 7. *)
Lemma counters_initial_values_counterexample :
  exists ctl,
    DetectorValidation_new (M := PyVal) id (VValResult 500 (-3) 7)
      = Ret ctl /\
    counters ctl = Some (VValResult 100 0 7) /\
    counters ctl <> Some (VValResult 500 (-3) 7).
Proof. eexists. split; [reflexivity|]. split; [reflexivity|]. discriminate. Qed.

(** C10, amended.  With [value=None] the three counters start at 0; with a
    [ValResult] they start at its [tp], [fp] and [fn], each brought into
    [0, 100]: at the field itself when that lies in [0, 100], at 0 when it
    is negative and at 100 when it exceeds 100. *)
Theorem counters_initial_values {M : Type} (result_callback : PyVal -> M) :
  (exists ctl,
     DetectorValidation_new result_callback VNone = Ret ctl /\
     counters ctl = Some (VValResult 0 0 0)) /\
  (forall tp fp fn,
     exists ctl,
       DetectorValidation_new result_callback (VValResult tp fp fn)
         = Ret ctl /\
       counters ctl =
         Some (VValResult (Z.max 0 (Z.min 100 tp)) (Z.max 0 (Z.min 100 fp))
                          (Z.max 0 (Z.min 100 fn))) /\
       (0 <= tp <= 100 -> 0 <= fp <= 100 -> 0 <= fn <= 100 ->
        counters ctl = Some (VValResult tp fp fn))).
Proof.
  split.
  - eexists. split; reflexivity.
  - intros tp fp fn. eexists. split; [reflexivity|]. split; [reflexivity|].
    intros Htp Hfp Hfn. simpl. unfold BoundedIntText.bound.
    repeat f_equal; lia.
Qed.

(** An instance of C10 as amended, for [ValResult(3, 0, 100)]. *)
Lemma counters_initial_values_witness :
  exists ctl,
    DetectorValidation_new (M := PyVal) id (VValResult 3 0 100) = Ret ctl /\
    counters ctl = Some (VValResult 3 0 100).
Proof.
  destruct (proj2 (counters_initial_values (M := PyVal) id) 3 0 100)
    as (ctl & Hnew & _ & Hin).
  exists ctl. split; [exact Hnew|]. apply Hin; lia.
Defined.

(** ** The labeler's operations, run *)

Section LabelerRuns.
Context {ndarray : Type}.
Implicit Types (s : ImageLabeler ndarray) (cell : Cell ndarray).

(** [show_cell] returns, whether or not the factory builds the cell. *)
Lemma show_cell_run c img i s :
  sized s -> 0 <= i < Z.of_nat (length (_images s)) ->
  exists v,
    _labels s !! Z.to_nat i = Some v /\
    show_cell c img i s =
      (Ret tt,
       match new (_cell_factory s) (mkCall c) v with
       | Ret ctl => shown c ctl img i s
       | Raise e => rejected e s
       end).
Proof.
  intros [Hl Hs] Hi.
  destruct (getitem_in_range (_labels s) i) as (v & Hv & Hget); [lia|].
  exists v. split; [done|].
  unfold show_cell, with_output, bind, get, lift, modify. rewrite Hget.
  destruct (new (_cell_factory s) (mkCall c) v) as [ctl|e]; [|done].
  cbn. rewrite setitem_in_range by lia. done.
Qed.

Lemma render_img_run i s :
  sized s -> 0 <= i < Z.of_nat (length (_images s)) ->
  exists img v,
    _images s !! Z.to_nat i = Some img /\
    _labels s !! Z.to_nat i = Some v /\
    render_img i s =
      (Ret tt,
       match new (_cell_factory s) (mkCall (single_cell_callback i)) v with
       | Ret ctl =>
           shown (single_cell_callback i) ctl img i (set_img_output [] s)
       | Raise e => rejected e (set_img_output [] s)
       end).
Proof.
  intros Hsz Hi.
  destruct (getitem_in_range (_images s) i) as (img & Himg & Hget); [lia|].
  destruct (show_cell_run (single_cell_callback i) img i
              (set_img_output [] s)) as (v & Hv & Hrun); [done..|].
  exists img, v. split; [done|]. split; [done|].
  unfold render_img, _load_image, bind, get, lift, modify.
  rewrite Hget. exact Hrun.
Qed.

Lemma multi_render_img_run i s :
  sized s -> 0 <= i < Z.of_nat (length (_images s)) ->
  exists img v,
    _images s !! Z.to_nat i = Some img /\
    _labels s !! Z.to_nat i = Some v /\
    multi_render_img i s =
      (Ret tt,
       match new (_cell_factory s) (mkCall (multi_cell_callback i)) v with
       | Ret ctl => shown (multi_cell_callback i) ctl img i s
       | Raise e => rejected e s
       end).
Proof.
  intros Hsz Hi.
  destruct (getitem_in_range (_images s) i) as (img & Himg & Hget); [lia|].
  destruct (show_cell_run (multi_cell_callback i) img i s)
    as (v & Hv & Hrun); [done..|].
  exists img, v. split; [done|]. split; [done|].
  unfold multi_render_img, _load_image, bind, get, lift.
  rewrite Hget. exact Hrun.
Qed.

Lemma set_progess_run s :
  set_progess s =
    (Ret tt,
     set_progress_widgets (idx s + 1)
       (str (idx s + 1) ++ " / " ++ str (n s))%string s).
Proof. reflexivity. Qed.

Lemma next_img_run s :
  next_img tt s =
    if idx s <? n s - 1 then
      match render_img (idx s + 1) (set_idx (idx s + 1) s) with
      | (Ret _, s') => set_progess s'
      | (Raise e, s') => (Raise e, s')
      end
    else set_progess s.
Proof.
  unfold next_img, bind, get, modify, ret. cbn.
  destruct (idx s <? n s - 1); [|done]. cbn.
  by destruct (render_img (idx s + 1) (set_idx (idx s + 1) s)) as [[[]|e] s'].
Qed.

Lemma prev_img_run s :
  prev_img tt s =
    if idx s >? 0 then
      match render_img (idx s - 1) (set_idx (idx s - 1) s) with
      | (Ret _, s') => set_progess s'
      | (Raise e, s') => (Raise e, s')
      end
    else set_progess s.
Proof.
  unfold prev_img, bind, get, modify, ret. cbn.
  destruct (idx s >? 0); [|done]. cbn.
  by destruct (render_img (idx s - 1) (set_idx (idx s - 1) s)) as [[[]|e] s'].
Qed.

(** Moving to a valid position [j] and rendering it, as [next_img] and
    [prev_img] do: the index is [j], the output area is cleared, the
    factory is asked for a cell for the stored label, and the progress
    display is brought in step. *)
Lemma move_run j s :
  sized s -> 0 <= j < Z.of_nat (length (_images s)) ->
  exists img v,
    _images s !! Z.to_nat j = Some img /\
    _labels s !! Z.to_nat j = Some v /\
    match render_img j (set_idx j s) with
    | (Ret _, s') => set_progess s'
    | (Raise e, s') => (Raise e, s')
    end =
      (Ret tt,
       set_progress_widgets (j + 1)
         (str (j + 1) ++ " / " ++ str (n s))%string
         match new (_cell_factory s) (mkCall (single_cell_callback j)) v with
         | Ret ctl =>
             shown (single_cell_callback j) ctl img j
               (set_img_output [] (set_idx j s))
         | Raise e => rejected e (set_img_output [] (set_idx j s))
         end).
Proof.
  intros Hsz Hj.
  destruct (render_img_run j (set_idx j s)) as (img & v & Himg & Hv & ->);
    [done..|].
  exists img, v. split; [done|]. split; [done|].
  rewrite set_progess_run. cbn [_cell_factory set_idx].
  by destruct (new (_cell_factory s) (mkCall (single_cell_callback j)) v).
Qed.

Lemma single_cell_callback_body_run i v s :
  single_cell_callback_body i v s =
    match setitem (_labels s) i v with
    | Raise e => (Raise e, s)
    | Ret ls =>
        if (i <? n s - 1) && auto_next_box s
        then next_img tt (set__labels ls s)
        else (Ret tt, set__labels ls s)
    end.
Proof.
  unfold single_cell_callback_body, bind, get, lift, modify, ret. cbn.
  destruct (setitem (_labels s) i v); [|done]. cbn.
  by destruct ((i <? n s - 1) && auto_next_box s).
Qed.

Lemma multi_cell_callback_body_run i v s :
  multi_cell_callback_body i v s =
    match setitem (_labels s) i v with
    | Raise e => (Raise e, s)
    | Ret ls => (Ret tt, set__labels ls s)
    end.
Proof.
  unfold multi_cell_callback_body, bind, get, lift, modify. cbn.
  by destruct (setitem (_labels s) i v).
Qed.

Lemma bind_ret_snd (m : Py ndarray unit) s :
  snd (bind m (fun _ => ret tt) s) = snd (m s).
Proof. unfold bind, ret. by destruct (m s) as [[[]|e] s']. Qed.

Lemma bind_ret_fst (m : Py ndarray unit) s :
  fst (bind m (fun _ => ret tt) s) = fst (m s).
Proof. unfold bind, ret. by destruct (m s) as [[[]|e] s']. Qed.

Lemma step_next s :
  multi_mode s = false -> handle ClickNext s = next_img tt s.
Proof. intros Hm. unfold handle, bind, get. by rewrite Hm. Qed.

Lemma step_previous s :
  multi_mode s = false -> handle ClickPrevious s = prev_img tt s.
Proof. intros Hm. unfold handle, bind, get. by rewrite Hm. Qed.

Lemma steps_snoc es e s : steps (es ++ [e]) s = step e (steps es s).
Proof. unfold steps. by rewrite fold_left_app. Qed.

Lemma reachable_steps es : forall s, reachable s -> reachable (steps es s).
Proof.
  induction es as [|e es IH]; intros s Hs; [done|].
  cbn. apply IH. by constructor.
Qed.

End LabelerRuns.

(** ** Invariants of the state machine *)

Section LabelerInvariants.
Context {ndarray : Type}.
Implicit Types (s : ImageLabeler ndarray) (cell : Cell ndarray).
Implicit Types (images : list ndarray) (factory : InputCellFactory).

Lemma extends_refl s : extends s s.
Proof. by repeat split. Qed.

Lemma extends_trans s1 s2 s3 : extends s1 s2 -> extends s2 s3 -> extends s1 s3.
Proof.
  intros (A1 & A2 & A3 & A4 & A5 & A6) (B1 & B2 & B3 & B4 & B5 & B6).
  repeat split; try congruence. intros k Hk. by apply B6, A6.
Qed.

Lemma shown_sized c ctl img i s : sized s -> sized (shown c ctl img i s).
Proof. intros [Hl Hs]. split; cbn; [done|]. by rewrite length_insert. Qed.

Lemma shown_extends c ctl img i s : extends s (shown c ctl img i s).
Proof.
  repeat split; cbn; try done; [by rewrite length_insert|].
  intros k Hk. destruct (decide (k = Z.to_nat i)) as [->|Hne].
  - rewrite list_lookup_insert_eq; [done|]. by eapply lookup_lt_Some.
  - by rewrite list_lookup_insert_ne.
Qed.

Lemma shown_seen_displayed c ctl img i s :
  0 <= i < Z.of_nat (length (_seen s)) ->
  seen_displayed s -> seen_displayed (shown c ctl img i s).
Proof.
  intros Hi Hsd j. cbn. rewrite elem_of_app, list_elem_of_singleton, (Hsd j).
  destruct (decide (j = i)) as [->|Hne].
  - rewrite list_lookup_insert_eq by lia. intuition lia.
  - destruct (decide (0 <= j)) as [Hj|Hj]; [|intuition lia].
    rewrite list_lookup_insert_ne by lia. intuition.
Qed.

(** Moving to a valid position [j] and rendering it. *)
Lemma move_post j s :
  inv s -> multi_mode s = false -> 0 <= j < n s ->
  let r := match render_img j (set_idx j s) with
           | (Ret _, s') => set_progess s'
           | (Raise e, s') => (Raise e, s')
           end in
  fst r = Ret tt /\
  inv (snd r) /\ extends s (snd r) /\ idx (snd r) = j /\
  n (snd r) = n s /\ auto_next_box (snd r) = auto_next_box s /\
  _labels (snd r) = _labels s /\ progress_synced (snd r).
Proof.
  intros (Hsz & Hsd & Hmode) Hm Hj. rewrite Hm in Hmode.
  destruct Hmode as (Hn & _).
  destruct (move_run j s) as (img & v & _ & _ & ->); [done|lia|].
  cbn [fst snd]. split; [done|].
  destruct (new (_cell_factory s) (mkCall (single_cell_callback j)) v)
    as [ctl|e] eqn:Hnew.
  - set (c := single_cell_callback j).
    set (s1 := set_img_output [] (set_idx j s)).
    assert (sized s1 /\ seen_displayed s1) as [Hsz1 Hsd1] by done.
    assert (0 <= j < Z.of_nat (length (_seen s1))) as Hj1
      by (subst s1; cbn; destruct Hsz; lia).
    split; [|split; [exact (shown_extends c ctl img j s1)|done]].
    split; [exact (shown_sized c ctl img j s1 Hsz1)|].
    split; [exact (shown_seen_displayed c ctl img j s1 Hj1 Hsd1)|].
    cbn. rewrite Hm. repeat split; cbn; try done; try lia.
    apply Forall_singleton. split; [done|].
    by apply new_wired in Hnew.
  - split; [|split; [by repeat split|done]].
    split; [done|]. split; [done|]. cbn. rewrite Hm.
    repeat split; cbn; try done; try lia.
Qed.

Lemma next_img_post s :
  inv s -> multi_mode s = false ->
  let s' := snd (next_img tt s) in
  fst (next_img tt s) = Ret tt /\
  inv s' /\ extends s s' /\
  idx s' = (if idx s <? n s - 1 then idx s + 1 else idx s) /\
  n s' = n s /\ auto_next_box s' = auto_next_box s /\
  _labels s' = _labels s /\ progress_synced s'.
Proof.
  intros Hinv Hm. rewrite next_img_run.
  destruct (idx s <? n s - 1) eqn:Hlt.
  - apply Z.ltb_lt in Hlt. apply move_post; [done..|].
    destruct Hinv as (_ & _ & H). rewrite Hm in H. destruct H as (_ & ? & _).
    lia.
  - rewrite set_progess_run. cbn [fst snd]. split; [done|].
    split; [done|]. split; [by repeat split|done].
Qed.

Lemma prev_img_post s :
  inv s -> multi_mode s = false ->
  let s' := snd (prev_img tt s) in
  fst (prev_img tt s) = Ret tt /\
  inv s' /\ extends s s' /\
  idx s' = (if idx s >? 0 then idx s - 1 else idx s) /\
  n s' = n s /\ auto_next_box s' = auto_next_box s /\
  _labels s' = _labels s /\ progress_synced s'.
Proof.
  intros Hinv Hm. rewrite prev_img_run.
  destruct (idx s >? 0) eqn:Hgt.
  - apply Z.gtb_lt in Hgt. apply move_post; [done..|].
    destruct Hinv as (_ & _ & H). rewrite Hm in H. destruct H as (_ & ? & _).
    lia.
  - rewrite set_progess_run. cbn [fst snd]. split; [done|].
    split; [done|]. split; [by repeat split|done].
Qed.

Lemma set__labels_post ls s :
  length ls = length (_labels s) -> inv s ->
  inv (set__labels ls s) /\ extends s (set__labels ls s).
Proof.
  intros Hlen ((Hl & Hs) & Hsd & Hmode).
  split; [|by repeat split].
  split; [split; cbn; congruence|]. done.
Qed.

(** A call of the callback of a valid position in single mode: it
    returns, the label is stored, and the progress display, if it was in
    step, still is. *)
Lemma single_cell_callback_body_post i v s :
  inv s -> multi_mode s = false ->
  0 <= i < Z.of_nat (length (_images s)) ->
  let s' := snd (single_cell_callback_body i v s) in
  fst (single_cell_callback_body i v s) = Ret tt /\
  inv s' /\ extends s s' /\
  _labels s' = <[Z.to_nat i := v]> (_labels s) /\
  (progress_synced s -> progress_synced s').
Proof.
  intros Hinv Hm Hi. pose proof Hinv as ([Hl _] & _).
  rewrite single_cell_callback_body_run, setitem_in_range by lia.
  destruct (set__labels_post (<[Z.to_nat i:=v]> (_labels s)) s) as [I E];
    [by rewrite length_insert|done|].
  destruct ((i <? n s - 1) && auto_next_box s); [|done].
  destruct (next_img_post (set__labels (<[Z.to_nat i:=v]> (_labels s)) s))
    as (R & I' & E' & _ & _ & _ & L & P); [done..|].
  split; [done|]. split; [done|]. split; [by eapply extends_trans|].
  split; [by rewrite L|done].
Qed.

Lemma multi_cell_callback_body_post i v s :
  inv s -> 0 <= i < Z.of_nat (length (_images s)) ->
  let s' := snd (multi_cell_callback_body i v s) in
  fst (multi_cell_callback_body i v s) = Ret tt /\
  inv s' /\ extends s s' /\
  s' = set__labels (<[Z.to_nat i := v]> (_labels s)) s.
Proof.
  intros Hinv Hi. pose proof Hinv as ([Hl _] & _).
  rewrite multi_cell_callback_body_run, setitem_in_range by lia.
  destruct (set__labels_post (<[Z.to_nat i:=v]> (_labels s)) s) as [I E];
    [by rewrite length_insert|done|].
  done.
Qed.

(** What the invariant says of one shown cell. *)
Lemma inv_cell s k cell :
  inv s -> img_output s !! k = Some cell ->
  cell_wired cell /\
  0 <= closure_idx (cell_callback cell) < Z.of_nat (length (_images s)) /\
  cell_callback cell =
    if multi_mode s then multi_cell_callback (closure_idx (cell_callback cell))
    else single_cell_callback (idx s).
Proof.
  intros (_ & _ & Hmode) Hk. destruct (multi_mode s).
  - destruct (Forall_lookup_1 _ _ _ _ Hmode Hk) as [(i & Hi & ->) Hw].
    done.
  - destruct Hmode as (Hn & Hi & _ & Hall).
    destruct (Forall_lookup_1 _ _ _ _ Hall Hk) as [-> Hw]. cbn.
    split; [done|]. split; [lia|done].
Qed.

(** Replacing a shown cell's control by the control after an action. *)
Lemma touch_cell_inv s k cell ev :
  inv s -> img_output s !! k = Some cell ->
  inv (set_img_output
         (<[k := mkCell (cell_callback cell) (fst (fire (cell_ctl cell) ev))
                        (img_widget cell)]> (img_output s)) s).
Proof.
  intros Hinv Hk.
  assert (cell_wired cell) as Hw by by destruct (inv_cell s k cell Hinv Hk).
  destruct Hinv as (Hsz & Hsd & Hmode).
  split; [done|]. split; [done|]. cbn.
  destruct (multi_mode s).
  - pose proof (Forall_lookup_1 _ _ _ _ Hmode Hk) as [Hc _].
    apply Forall_insert; [done|]. split; [done|]. by apply fire_wired.
  - destruct Hmode as (Hn & Hi & Hlen & Hall).
    pose proof (Forall_lookup_1 _ _ _ _ Hall Hk) as [Hc _].
    split; [done|]. split; [done|]. cbn. rewrite length_insert.
    split; [done|]. apply Forall_insert; [done|].
    split; [done|]. by apply fire_wired.
Qed.

(** A call of a closure that a shown cell can hold. *)
Lemma run_call_post c v s :
  inv s -> 0 <= closure_idx c < Z.of_nat (length (_images s)) ->
  (c = if multi_mode s then multi_cell_callback (closure_idx c)
       else single_cell_callback (closure_idx c)) ->
  let s' := snd (run_call (mkCall c v) s) in
  fst (run_call (mkCall c v) s) = Ret tt /\
  inv s' /\ extends s s' /\
  _labels s' = <[Z.to_nat (closure_idx c) := v]> (_labels s) /\
  (progress_synced s -> progress_synced s') /\
  (multi_mode s = true ->
   s' = set__labels (<[Z.to_nat (closure_idx c) := v]> (_labels s)) s).
Proof.
  intros Hinv Hi Hc. unfold run_call. cbn [callee arg].
  destruct (multi_mode s) eqn:Hm; destruct c as [i|i]; try discriminate Hc;
    cbn [closure_idx] in *; cbv zeta.
  - destruct (multi_cell_callback_body_post i v s) as (R & I & E & Hs');
      [done..|].
    rewrite Hs' in *. done.
  - destruct (single_cell_callback_body_post i v s)
      as (R & I & E & L & P); done.
Qed.

(** What an action on the [k]-th shown cell comes to: nothing, when there
    is no such cell; else the cell's control takes the action, and the call
    that it makes, if any, is run. *)
Lemma cell_event_run k ev s :
  inv s ->
  match img_output s !! k with
  | None => handle (CellEvent k ev) s = (Ret tt, s)
  | Some cell =>
      let s1 := set_img_output
                  (<[k := mkCell (cell_callback cell)
                                 (fst (fire (cell_ctl cell) ev))
                                 (img_widget cell)]> (img_output s)) s in
      inv s1 /\
      (snd (fire (cell_ctl cell) ev) = [] /\
       handle (CellEvent k ev) s = (Ret tt, s1) \/
       exists v,
         snd (fire (cell_ctl cell) ev) = [mkCall (cell_callback cell) v] /\
         fst (handle (CellEvent k ev) s)
           = fst (run_call (mkCall (cell_callback cell) v) s1) /\
         step (CellEvent k ev) s
           = snd (run_call (mkCall (cell_callback cell) v) s1))
  end.
Proof.
  intros Hinv. unfold step, handle, bind, get. cbn.
  destruct (img_output s !! k) as [cell|] eqn:Hk; [|done].
  pose proof (touch_cell_inv s k cell ev Hinv Hk) as Hinv1.
  cbv zeta. split; [done|].
  destruct (inv_cell s k cell Hinv Hk) as [Hw _].
  destruct (fire_calls _ _ ev Hw) as [Hcalls|[v Hcalls]];
    destruct (fire (cell_ctl cell) ev) as [ctl' calls];
    cbn [fst snd] in *; subst calls; unfold modify; cbn.
  - by left.
  - right. exists v. split; [done|].
    match goal with
    | |- context [bind (run_call ?c) _ ?s1] =>
        by rewrite (bind_ret_snd (run_call c) s1),
                   (bind_ret_fst (run_call c) s1)
    end.
Qed.

(** Every user action returns, keeps the invariant and the progress
    display in step, and only extends the state. *)
Lemma step_post e s :
  inv s ->
  fst (handle e s) = Ret tt /\
  inv (step e s) /\ extends s (step e s) /\
  (progress_synced s -> progress_synced (step e s)).
Proof.
  intros Hinv. destruct e as [| |b|k ev|].
  - unfold step. destruct (multi_mode s) eqn:Hm.
    { unfold handle, bind, get. cbn. rewrite Hm.
      split; [done|]. split; [done|]. split; [apply extends_refl|done]. }
    rewrite step_next by done.
    destruct (next_img_post s) as (R & I & E & _ & _ & _ & _ & P); done.
  - unfold step. destruct (multi_mode s) eqn:Hm.
    { unfold handle, bind, get. cbn. rewrite Hm.
      split; [done|]. split; [done|]. split; [apply extends_refl|done]. }
    rewrite step_previous by done.
    destruct (prev_img_post s) as (R & I & E & _ & _ & _ & _ & P); done.
  - unfold step, handle, bind, get. cbn.
    destruct (multi_mode s) eqn:Hm;
      [split; [done|]; split; [done|]; split; [apply extends_refl|done]|].
    cbn. split; [done|]. split; [|split; [by repeat split|done]].
    destruct Hinv as (? & ? & Hmode). split; [done|]. split; [done|].
    cbn. by rewrite Hm in *.
  - pose proof (cell_event_run k ev s Hinv) as H.
    destruct (img_output s !! k) as [cell|] eqn:Hk.
    2: { unfold step. rewrite H.
         split; [done|]. split; [done|]. split; [apply extends_refl|done]. }
    destruct H as [Hinv1 [[_ H] | (v & _ & Hf & Hs)]].
    { unfold step. rewrite H. split; [done|]. split; [done|].
      split; [by repeat split|done]. }
    rewrite Hf, Hs.
    destruct (inv_cell s k cell Hinv Hk) as (_ & Hi & Hc).
    match type of Hinv1 with
    | inv ?s1 =>
        destruct (run_call_post (cell_callback cell) v s1)
          as (R & I & E & _ & P & _);
          [done|done|cbn; destruct (multi_mode s); by rewrite Hc|]
    end.
    split; [done|]. split; [done|]. split; [|exact P].
    eapply extends_trans; [|exact E]. by repeat split.
  - unfold step, handle, remove, bind, get. cbn.
    destruct (multi_mode s) eqn:Hm;
      [split; [done|]; split; [done|]; split; [apply extends_refl|done]|].
    cbn. split; [done|]. split; [|split; [by repeat split|done]].
    destruct Hinv as (? & ? & Hmode). split; [done|]. split; [done|].
    cbn. rewrite Hm in *. destruct Hmode as (? & ? & _).
    repeat split; cbn; try done; lia.
Qed.

Lemma steps_post es : forall s,
  inv s ->
  inv (steps es s) /\ extends s (steps es s) /\
  (progress_synced s -> progress_synced (steps es s)).
Proof.
  induction es as [|e es IH]; intros s Hinv;
    [split; [done|]; split; [apply extends_refl|done]|].
  destruct (step_post e s Hinv) as (_ & I & E & P).
  destruct (IH _ I) as (I' & E' & P').
  split; [done|]. split; [by eapply extends_trans|]. cbn. auto.
Qed.

(** *** Multi mode rendering *)

(** What the loop of [_render_multi] does: it returns; it displays, in
    order, one cell for each index whose label the factory builds a cell
    for, marks these images seen, and shows the factory's exception for
    each of the others. *)
Lemma for_each_multi_run xs : forall s,
  sized s ->
  Forall (fun i => 0 <= i < Z.of_nat (length (_images s))) xs ->
  exists s' cells,
    for_each xs multi_render_img s = (Ret tt, s') /\
    let shown_xs :=
      List.filter (accepted_at (_cell_factory s) (_labels s)) xs in
    img_output s' = img_output s ++ cells /\
    Forall2 (made_for multi_cell_callback s) cells shown_xs /\
    Forall (fun cell => cell_wired cell) cells /\
    displayed s' = displayed s ++ shown_xs /\
    _seen s' = mark_seen (_seen s) shown_xs /\
    tracebacks s' =
      tracebacks s ++ omap (refused_at (_cell_factory s) (_labels s)) xs /\
    _images s' = _images s /\ _labels s' = _labels s /\
    _cell_factory s' = _cell_factory s /\ multi_mode s' = multi_mode s.
Proof.
  induction xs as [|i xs IH]; intros s Hsz Hxs.
  - exists s, []. split; [done|]. cbn. rewrite !app_nil_r.
    repeat split; by constructor.
  - apply Forall_cons in Hxs as [Hi Hxs]. cbn [for_each]. unfold bind.
    destruct (multi_render_img_run i s) as (img & v & Himg & Hv & ->);
      [done..|].
    pose proof (new_outcome (_cell_factory s)
                  (mkCall (multi_cell_callback i)) v) as Hout.
    assert (accepted_at (_cell_factory s) (_labels s) i
              = accepts (_cell_factory s) v) as Hacc
      by (unfold accepted_at; by rewrite Hv).
    assert (refused_at (_cell_factory s) (_labels s) i
              = refusal (_cell_factory s) v) as Href
      by (unfold refused_at; by rewrite Hv).
    cbn [List.filter omap list_omap]. rewrite Hacc, Href.
    destruct (new (_cell_factory s) (mkCall (multi_cell_callback i)) v)
      as [ctl|e] eqn:Hnew; destruct Hout as [-> ->].
    + destruct (IH (shown (multi_cell_callback i) ctl img i s))
        as (s' & cells & Hrun & Ho & Hcells & Hw & Hd & Hseen & Htb & Hrest);
        [by apply shown_sized|done|].
      cbn [_images _labels _cell_factory shown set__seen set_displayed
           set_img_output img_output displayed _seen tracebacks multi_mode]
        in Ho, Hd, Hseen, Htb, Hrest, Hcells.
      exists s', (mkCell (multi_cell_callback i) ctl img :: cells).
      split; [done|]. cbv zeta.
      rewrite Ho, Hd, <- !app_assoc. split; [done|].
      split.
      { constructor; [|done]. split; [done|]. split; [done|]. by exists v. }
      split.
      { constructor; [|done]. by apply new_wired in Hnew. }
      done.
    + destruct (IH (rejected e s))
        as (s' & cells & Hrun & Ho & Hcells & Hw & Hd & Hseen & Htb & Hrest);
        [done|done|].
      cbn [_images _labels _cell_factory rejected set_tracebacks
           img_output displayed _seen tracebacks multi_mode]
        in Ho, Hd, Hseen, Htb, Hrest, Hcells.
      exists s', cells. split; [done|]. cbv zeta.
      rewrite Htb, <- app_assoc. done.
Qed.

Lemma mark_seen_length (seen : list bool) (xs : list Z) :
  length (mark_seen seen xs) = length seen.
Proof.
  revert seen. induction xs as [|i xs IH]; intros seen; [done|].
  cbn. unfold mark_seen in IH. by rewrite IH, length_insert.
Qed.

(** Marking sets the flags of the images marked and leaves the others
    alone. *)
Lemma mark_seen_lookup (seen : list bool) (xs : list Z) (k : nat) :
  Forall (fun i => 0 <= i) xs ->
  (k < length seen)%nat ->
  mark_seen seen xs !! k =
    if decide (Z.of_nat k ∈ xs) then Some true else seen !! k.
Proof.
  revert seen. induction xs as [|i xs IH]; intros seen Hxs Hk; [done|].
  apply Forall_cons in Hxs as [Hi Hxs]. cbn. unfold mark_seen in IH.
  rewrite IH by (by rewrite ?length_insert).
  destruct (decide (Z.of_nat k ∈ xs)) as [Hin|Hin].
  - rewrite decide_True; [done|]. by right.
  - destruct (decide (Z.of_nat k = i)) as [<-|Hne].
    + rewrite decide_True by left. rewrite Nat2Z.id.
      by apply list_lookup_insert_eq.
    + rewrite decide_False by (by intros [?|?]%elem_of_cons).
      apply list_lookup_insert_ne. lia.
Qed.

(** *** Construction *)

(** The object that [__init__] hands to the rendering. *)
Lemma init_attributes_run images factory default_labels multi :
  init_attributes images factory default_labels multi =
    if Nat.eqb (length (initial_labels images default_labels))
               (length images)
    then Ret (mkImageLabeler images factory
                (initial_labels images default_labels)
                (replicate (length images) false) multi 0 0 0 "" true
                [] [] [])
    else Raise AssertionError.
Proof. reflexivity. Qed.

Lemma _render_multi_run s :
  _render_multi s = for_each (range (length (_images s))) multi_render_img s.
Proof. reflexivity. Qed.

(** [_render_single] up to its [render_img] call: without images the
    progress bar is refused; with images the shared locals are set up. *)
Lemma _render_single_run s :
  _render_single s =
    if Z.of_nat (length (_images s)) <? 1
    then (Raise TraitError,
          set_idx 0 (set_n (Z.of_nat (length (_images s))) s))
    else with_output (render_img 0) (single_start s).
Proof.
  unfold _render_single, bind, get, modify, lift, IntProgress.new. cbn.
  destruct (Z.ltb_spec (Z.of_nat (length (_images s))) 1) as [Hlt|Hge];
    [done|].
  cbn. unfold BoundedIntText.bound.
  replace (Z.max 1 (Z.min (Z.of_nat (length (_images s))) 1)) with 1 by lia.
  reflexivity.
Qed.

(** Construction in multi mode, run. *)
Lemma __init___multi_run images factory default_labels :
  length (initial_labels images default_labels) = length images ->
  let labels := initial_labels images default_labels in
  let shown_xs := List.filter (accepted_at factory labels)
                              (range (length images)) in
  exists s,
    __init__ images factory default_labels true = Ret s /\
    Forall2 (made_for multi_cell_callback s) (img_output s) shown_xs /\
    Forall (fun cell => cell_wired cell) (img_output s) /\
    displayed s = shown_xs /\
    _seen s = mark_seen (replicate (length images) false) shown_xs /\
    tracebacks s = omap (refused_at factory labels) (range (length images)) /\
    _images s = images /\ _labels s = labels /\
    _cell_factory s = factory /\ multi_mode s = true.
Proof.
  intros Hlen labels shown_xs. unfold __init__.
  rewrite init_attributes_run, (proj2 (Nat.eqb_eq _ _) Hlen).
  rewrite _render_multi_run.
  match goal with
  | |- context [for_each _ _ ?s0] =>
      destruct (for_each_multi_run (range (length (_images s0))) s0)
        as (s & cells & Hrun & Ho & Hcells & Hw & Hd & Hseen & Htb & Hi
            & Hl & Hf & Hm)
  end.
  { split; cbn; [done|by rewrite length_replicate]. }
  { apply range_Forall. }
  rewrite Hrun. exists s. split; [done|].
  cbn in Ho, Hd, Hseen, Htb, Hi, Hl, Hf, Hm, Hcells.
  rewrite Ho, Hd, Hseen, Htb. repeat split; try done.
  eapply Forall2_impl; [exact Hcells|].
  intros cell i (Hc & Himg & lbl & Hlbl & Hnew). cbn in Himg, Hlbl, Hnew.
  unfold made_for. rewrite Hi, Hl, Hf.
  split; [done|]. split; [done|]. by exists lbl.
Qed.

(** Construction in single mode, run: everything turns on the first
    image and the first label. *)
Lemma __init___single_run images factory default_labels img v :
  length (initial_labels images default_labels) = length images ->
  images !! 0%nat = Some img ->
  initial_labels images default_labels !! 0%nat = Some v ->
  let s0 := single_start
              (mkImageLabeler images factory
                 (initial_labels images default_labels)
                 (replicate (length images) false) false
                 0 0 0 "" true [] [] []) in
  __init__ images factory default_labels false =
    Ret match new factory (mkCall (single_cell_callback 0)) v with
        | Ret ctl => shown (single_cell_callback 0) ctl img 0 s0
        | Raise e => rejected e s0
        end.
Proof.
  intros Hlen Himg Hv s0. unfold __init__.
  rewrite init_attributes_run, (proj2 (Nat.eqb_eq _ _) Hlen).
  rewrite _render_single_run. cbn [_images].
  destruct (Z.ltb_spec (Z.of_nat (length images)) 1) as [Hlt|_].
  { apply lookup_lt_Some in Himg. lia. }
  unfold with_output. fold s0.
  destruct (render_img_run 0 s0) as (img' & v' & Himg' & Hv' & ->).
  { split; cbn; [done|by rewrite length_replicate]. }
  { cbn. apply lookup_lt_Some in Himg. lia. }
  cbn in Himg', Hv'. change (Z.to_nat 0) with 0%nat in Himg', Hv'.
  rewrite Himg in Himg'. rewrite Hv in Hv'.
  injection Himg' as <-. injection Hv' as <-.
  change (_cell_factory s0) with factory.
  by destruct (new factory (mkCall (single_cell_callback 0)) v).
Qed.

(** Without images, single mode construction stops at the progress bar. *)
Lemma __init___single_empty (factory : InputCellFactory) default_labels :
  length (initial_labels ([] : list ndarray) default_labels)
    = length ([] : list ndarray) ->
  __init__ ([] : list ndarray) factory default_labels false
    = Raise TraitError.
Proof.
  intros Hlen. unfold __init__.
  rewrite init_attributes_run, (proj2 (Nat.eqb_eq _ _) Hlen).
  by rewrite _render_single_run.
Qed.

Lemma __init___length images factory default_labels multi s :
  __init__ images factory default_labels multi = Ret s ->
  length (initial_labels images default_labels) = length images.
Proof.
  unfold __init__. rewrite init_attributes_run.
  destruct (Nat.eqb_spec (length (initial_labels images default_labels))
                         (length images)); done.
Qed.

(** A single mode construction that returns has at least one image. *)
Lemma __init___single images factory default_labels s :
  __init__ images factory default_labels false = Ret s ->
  exists img v,
    length (initial_labels images default_labels) = length images /\
    images !! 0%nat = Some img /\
    initial_labels images default_labels !! 0%nat = Some v /\
    s = match new factory (mkCall (single_cell_callback 0)) v with
        | Ret ctl =>
            shown (single_cell_callback 0) ctl img 0
              (single_start
                 (mkImageLabeler images factory
                    (initial_labels images default_labels)
                    (replicate (length images) false) false
                    0 0 0 "" true [] [] []))
        | Raise e =>
            rejected e
              (single_start
                 (mkImageLabeler images factory
                    (initial_labels images default_labels)
                    (replicate (length images) false) false
                    0 0 0 "" true [] [] []))
        end.
Proof.
  intros Hinit. pose proof (__init___length _ _ _ _ _ Hinit) as Hlen.
  destruct images as [|img images].
  { rewrite __init___single_empty in Hinit by done. done. }
  destruct (initial_labels (img :: images) default_labels) as [|v ls] eqn:Hls;
    [done|].
  rewrite (__init___single_run (img :: images) factory default_labels img v)
    in Hinit; [|by rewrite Hls|done|by rewrite Hls].
  injection Hinit as <-. exists img, v. rewrite Hls. done.
Qed.

Lemma replicate_false_seen_displayed (len : nat) (k : nat) :
  replicate len false !! k <> Some true.
Proof. intros H. by apply lookup_replicate in H as [? _]. Qed.

Lemma __init___inv images factory default_labels multi s :
  __init__ images factory default_labels multi = Ret s -> inv s.
Proof.
  destruct multi.
  - intros Hinit. pose proof (__init___length _ _ _ _ _ Hinit) as Hlen.
    destruct (__init___multi_run images factory default_labels Hlen)
      as (s' & Hs' & Hcells & Hw & Hd & Hseen & _ & Hi & Hl & Hf & Hm).
    rewrite Hinit in Hs'. injection Hs' as <-.
    assert (Forall (fun i => 0 <= i < Z.of_nat (length images))
                   (displayed s)) as Hrange.
    { rewrite Hd. apply Forall_forall. intros i Hin.
      apply range_elem. eapply elem_of_sublist; [exact Hin|].
      apply filter_sublist. }
    split; [|split].
    + split; [by rewrite Hl, Hi|].
      by rewrite Hseen, mark_seen_length, length_replicate, Hi.
    + intros i. rewrite Hseen, <- Hd. split.
      * intros Hin. pose proof (proj1 (Forall_forall _ _) Hrange i Hin) as Hi'.
        simpl in Hi'. split; [lia|].
        rewrite mark_seen_lookup;
          [|eapply Forall_impl; [exact Hrange|]; cbn; intros; lia
           |rewrite length_replicate; lia].
        rewrite decide_True; [done|]. by rewrite Z2Nat.id by lia.
      * intros [Hi0 Hseen'].
        rewrite mark_seen_lookup in Hseen';
          [|eapply Forall_impl; [exact Hrange|]; cbn; intros; lia
           |apply lookup_lt_Some in Hseen';
            by rewrite mark_seen_length in Hseen'].
        rewrite Z2Nat.id in Hseen' by lia.
        destruct (decide (i ∈ displayed s)); [done|].
        by apply replicate_false_seen_displayed in Hseen'.
    + rewrite Hm. unfold multi_inv.
      apply Forall_forall. intros cell [k Hk]%list_elem_of_lookup_1.
      split; [|exact (Forall_lookup_1 _ _ _ _ Hw Hk)].
      destruct (Forall2_lookup_l _ _ _ _ _ Hcells Hk) as (i & Hik & Hc & _).
      exists i. split; [|done]. rewrite Hi.
      apply (proj1 (Forall_forall _ _) Hrange). rewrite Hd.
      by eapply list_elem_of_lookup_2.
  - intros H.
    apply __init___single in H as (img & v & Hlen & Himg & Hv & ->).
    apply lookup_lt_Some in Himg.
    destruct (new factory (mkCall (single_cell_callback 0)) v)
      as [ctl|e] eqn:Hnew.
    + split; [split; cbn; [done|by rewrite length_insert, length_replicate]|].
      split.
      * apply shown_seen_displayed; [cbn; rewrite length_replicate; lia|].
        intros i. cbn. split; [by intros ?%elem_of_nil|].
        intros [_ H]. by apply replicate_false_seen_displayed in H.
      * cbn. unfold single_inv. cbn.
        split; [done|]. split; [lia|]. split; [done|].
        apply Forall_singleton. split; [done|]. by apply new_wired in Hnew.
    + split; [split; cbn; [done|by rewrite length_replicate]|].
      split.
      * intros i. cbn. split; [by intros ?%elem_of_nil|].
        intros [_ H]. by apply replicate_false_seen_displayed in H.
      * cbn. unfold single_inv. cbn.
        split; [done|]. split; [lia|]. split; [lia|]. constructor.
Qed.

(** Every reachable state satisfies the invariant. *)
Lemma reachable_inv s : reachable s -> inv s.
Proof.
  induction 1 as [images factory default_labels multi s Hinit|e s _ IH].
  - by eapply __init___inv.
  - by apply step_post.
Qed.

End LabelerInvariants.

(** ** The claims about the labeler *)

(** C1. In every reachable state of a single mode labeler over [len]
    images the current index lies in [0, len - 1]; Next adds exactly 1 to
    it when it is below [len - 1] and leaves it alone otherwise; Previous
    subtracts exactly 1 when it is above 0 and leaves it alone otherwise. *)
Theorem single_mode_index_in_range {ndarray} (s : ImageLabeler ndarray) :
  reachable s -> multi_mode s = false ->
  let len := Z.of_nat (length (_images s)) in
  0 <= idx s <= len - 1 /\
  (idx s < len - 1 -> idx (step ClickNext s) = idx s + 1) /\
  (~ idx s < len - 1 -> idx (step ClickNext s) = idx s) /\
  (idx s > 0 -> idx (step ClickPrevious s) = idx s - 1) /\
  (~ idx s > 0 -> idx (step ClickPrevious s) = idx s).
Proof.
  intros Hr Hm len. pose proof (reachable_inv s Hr) as Hinv.
  destruct (next_img_post s Hinv Hm) as (_ & _ & _ & Hnext & _).
  destruct (prev_img_post s Hinv Hm) as (_ & _ & _ & Hprev & _).
  unfold step. rewrite step_next, step_previous by done.
  rewrite Hnext, Hprev.
  destruct Hinv as (_ & _ & Hmode). rewrite Hm in Hmode.
  destruct Hmode as (Hn & Hi & _). fold len in Hn. rewrite Hn in *.
  split; [lia|].
  destruct (Z.ltb_spec (idx s) (len - 1)), (Z.gtb_spec (idx s) 0);
    repeat split; intros; lia.
Qed.

(** An instance of C1: the pets labeler after Next, Next, Next, Previous
    stands at index 1 of 3; from there Next leads to 2 and Previous to 0. *)
Lemma single_mode_index_in_range_witness :
  exists s0,
    pets_single = Ret s0 /\
    let s := steps [ClickNext; ClickNext; ClickNext; ClickPrevious] s0 in
    idx s = 1 /\ 0 <= idx s <= 3 - 1 /\
    idx (step ClickNext s) = idx s + 1 /\
    idx (step ClickPrevious s) = idx s - 1.
Proof.
  eexists. split; [vm_compute; reflexivity|]. intros s.
  assert (reachable s) as Hr.
  { apply reachable_steps.
    apply (reachable_init [10; 20; 30]%nat pets None false).
    vm_compute; reflexivity. }
  destruct (single_mode_index_in_range s Hr eq_refl)
    as (Hrange & Hnext & _ & Hprev & _).
  split; [vm_compute; reflexivity|]. split; [exact Hrange|].
  split; [apply Hnext|apply Hprev]; vm_compute; reflexivity.
Defined.

(** C2. In every reachable state, in either mode, a call of the
    [cell_callback] made for image [i] with label [v] leaves [labels[i]]
    equal to [v] and every other entry, the images and the length of the
    labels as they were; and the callbacks that the shown cells hold are
    such closures, made for valid positions. *)
Theorem cell_callback_sets_label {ndarray} (s : ImageLabeler ndarray)
    (i : Z) (v : PyVal) :
  reachable s -> 0 <= i < Z.of_nat (length (_images s)) ->
  let closure i :=
    if multi_mode s then multi_cell_callback i else single_cell_callback i in
  let s' := snd (run_call (mkCall (closure i) v) s) in
  (_labels s' !! Z.to_nat i = Some v /\
   (forall j : nat, j <> Z.to_nat i -> _labels s' !! j = _labels s !! j) /\
   _images s' = _images s /\
   length (_labels s') = length (_labels s)) /\
  (forall cell, cell ∈ img_output s ->
     cell_wired cell /\
     exists j, 0 <= j < Z.of_nat (length (_images s)) /\
               cell_callback cell = closure j).
Proof.
  intros Hr Hi closure s'. pose proof (reachable_inv s Hr) as Hinv.
  pose proof Hinv as ((Hl & Hs) & _ & Hmode).
  assert (closure_idx (closure i) = i) as Hci
    by (subst closure; cbn; by destruct (multi_mode s)).
  destruct (run_call_post (closure i) v s Hinv) as (_ & _ & E & Hls & _).
  { by rewrite Hci. }
  { rewrite Hci. subst closure. cbn. by destruct (multi_mode s). }
  fold s' in E, Hls. rewrite Hci in Hls.
  split.
  - rewrite Hls, length_insert. destruct E as (Himgs & _).
    repeat split; try done.
    + apply list_lookup_insert_eq. lia.
    + intros j Hj. by apply list_lookup_insert_ne.
  - intros cell [k Hk]%list_elem_of_lookup_1.
    destruct (inv_cell s k cell Hinv Hk) as (Hw & Hc & Hcl). split; [done|].
    subst closure. cbn. destruct (multi_mode s); [by eexists|].
    destruct Hmode as (Hn & Hidx & _). exists (idx s). split; [lia|done].
Qed.

(** An instance of C2: in the pets labeler at index 1, the callback of image
    1 called with dog. *)
Lemma cell_callback_sets_label_witness :
  exists s0,
    pets_single = Ret s0 /\
    let s := step ClickNext s0 in
    let s' := snd (run_call (mkCall (single_cell_callback 1) (VStr "dog")) s)
    in _labels s' = [VNone; VStr "dog"; VNone] /\
       _labels s' !! 1%nat = Some (VStr "dog").
Proof.
  eexists. split; [vm_compute; reflexivity|]. intros s s'.
  split; [vm_compute; reflexivity|].
  assert (reachable s) as Hr.
  { apply reachable_step.
    apply (reachable_init [10; 20; 30]%nat pets None false).
    vm_compute; reflexivity. }
  assert (0 <= 1 < Z.of_nat (length (_images s))) as Hi
    by (vm_compute; split; [discriminate|reflexivity]).
  exact (proj1 (proj1 (cell_callback_sets_label s 1 (VStr "dog") Hr Hi))).
Defined.

(** C3 as stated fails.  In the checks labeler as constructed, the
    callback of image 0 fires with auto advance ticked and 0 < 2 - 1: the
    index becomes 1, but image 1 is not rendered and not marked seen.  The
    factory raises [AttributeError] on the label stored for image 1; the
    output area shows the traceback, and the callback returns. *)
Lemma auto_advance_counterexample :
  exists s cell,
    checks_single = Ret s /\ multi_mode s = false /\
    img_output s = [cell] /\
    cell_callback cell = single_cell_callback 0 /\
    idx s = 0 /\ auto_next_box s = true /\
    idx s < Z.of_nat (length (_images s)) - 1 /\
    let r := run_call (mkCall (cell_callback cell) (VValResult 1 0 0)) s in
    fst r = Ret tt /\ idx (snd r) = 1 /\
    labels (snd r) = [VValResult 1 0 0; VStr "later"] /\
    _seen (snd r) !! 1%nat = Some false /\
    displayed (snd r) = [0] /\ img_output (snd r) = [] /\
    tracebacks (snd r) = [AttributeError].
Proof.
  eexists _, _. split; [vm_compute; reflexivity|]. vm_compute.
  repeat split.
Qed.

(** C3, amended.  In a reachable single mode state, the callback of a
    shown cell is the callback of the current image [i], and a call of it
    returns.  When it is called while the auto advance box is ticked and
    [i < len - 1], the current index becomes [i + 1]; image [i + 1] is
    displayed in a fresh cell and marked seen if the factory builds a cell
    for the label stored for it; if the factory raises instead, the
    exception is shown, the output area is left empty, and no image is
    displayed or marked seen.  When the box is unticked or [i = len - 1],
    the current index, the flags and the display are unchanged. *)
Theorem auto_advance {ndarray} (s : ImageLabeler ndarray)
    (cell : Cell ndarray) (v : PyVal) :
  reachable s -> multi_mode s = false -> cell ∈ img_output s ->
  let len := Z.of_nat (length (_images s)) in
  let i := idx s in
  let r := run_call (mkCall (cell_callback cell) v) s in
  let s' := snd r in
  cell_callback cell = single_cell_callback i /\
  fst r = Ret tt /\
  (auto_next_box s = true -> i < len - 1 ->
     idx s' = i + 1 /\
     exists next_label,
       _labels s !! Z.to_nat (i + 1) = Some next_label /\
       (accepts (_cell_factory s) next_label = true ->
          _seen s' !! Z.to_nat (i + 1) = Some true /\
          displayed s' = displayed s ++ [i + 1] /\
          tracebacks s' = tracebacks s /\
          exists cell', img_output s' = [cell'] /\
                        made_for single_cell_callback s' cell' (i + 1)) /\
       (forall e,
          refusal (_cell_factory s) next_label = Some e ->
          _seen s' = _seen s /\ displayed s' = displayed s /\
          img_output s' = [] /\ tracebacks s' = tracebacks s ++ [e])) /\
  (auto_next_box s = false \/ i = len - 1 ->
     idx s' = i /\ _seen s' = _seen s /\ displayed s' = displayed s /\
     img_output s' = img_output s).
Proof.
  intros Hr Hm [k Hk]%list_elem_of_lookup_1 len i r s'.
  pose proof (reachable_inv s Hr) as Hinv.
  destruct (inv_cell s k cell Hinv Hk) as (_ & _ & Hc). rewrite Hm in Hc.
  split; [done|].
  pose proof Hinv as ([Hl Hs] & _ & Hmode). rewrite Hm in Hmode.
  destruct Hmode as (Hn & Hi & _). fold len in Hn. fold i in Hi.
  split.
  { subst r. unfold run_call. rewrite Hc. cbn [callee arg].
    by destruct (single_cell_callback_body_post (idx s) v s) as (R & _);
      [done|done|lia|]. }
  subst s' r. unfold run_call. rewrite Hc. cbn [callee arg]. fold i.
  rewrite single_cell_callback_body_run, setitem_in_range by lia.
  set (s1 := set__labels (<[Z.to_nat i := v]> (_labels s)) s).
  split.
  - intros Hauto Hlt. rewrite Hauto, Hn.
    destruct (Z.ltb_spec i (len - 1)) as [_|?]; [|lia]. cbn [andb].
    rewrite next_img_run. change (idx s1) with i. change (n s1) with (n s).
    rewrite Hn. destruct (Z.ltb_spec i (len - 1)) as [_|?]; [|lia].
    destruct (move_run (i + 1) s1) as (img & v' & Himg & Hv' & ->).
    { split; cbn; [by rewrite length_insert|done]. }
    { cbn. fold len. lia. }
    cbn [fst snd]. cbn in Hv'. rewrite list_lookup_insert_ne in Hv' by lia.
    change (_cell_factory s1) with (_cell_factory s).
    pose proof (new_outcome (_cell_factory s)
                  (mkCall (single_cell_callback (i + 1))) v') as Hout.
    destruct (new (_cell_factory s) (mkCall (single_cell_callback (i + 1))) v')
      as [ctl|e] eqn:Hnew; destruct Hout as [Hacc Href].
    + split; [reflexivity|]. exists v'. split; [done|]. split.
      * intros _. cbn. split; [apply list_lookup_insert_eq; lia|].
        split; [done|]. split; [done|].
        eexists. split; [reflexivity|].
        split; [done|]. split; [exact Himg|]. exists v'. cbn.
        split; [|done]. by rewrite list_lookup_insert_ne by lia.
      * intros e He. congruence.
    + split; [reflexivity|]. exists v'. split; [done|]. split.
      * intros Hacc'. congruence.
      * intros e' He'. assert (e' = e) as -> by congruence. done.
  - intros Hor.
    assert ((i <? n s - 1) && auto_next_box s = false) as ->.
    { destruct Hor as [-> | Hlast]; [apply andb_false_r|].
      rewrite Hn. destruct (Z.ltb_spec i (len - 1)); [lia|done]. }
    done.
Qed.

(** Instances of C3 as amended: in the pets labeler as constructed, the
    shown cell's callback, called with dog, leads from image 0 to image 1,
    which is shown; in the checks labeler it leads to image 1, for which
    the traceback of [AttributeError] is shown instead. *)
Lemma auto_advance_witness :
  (exists s cell,
     pets_single = Ret s /\ img_output s = [cell] /\
     let r := run_call (mkCall (cell_callback cell) (VStr "dog")) s in
     fst r = Ret tt /\ idx (snd r) = idx s + 1 /\
     _seen (snd r) !! Z.to_nat (idx s + 1) = Some true) /\
  (exists s cell,
     checks_single = Ret s /\ img_output s = [cell] /\
     let r := run_call (mkCall (cell_callback cell) (VValResult 1 0 0)) s in
     fst r = Ret tt /\ idx (snd r) = idx s + 1 /\
     _seen (snd r) = _seen s /\
     tracebacks (snd r) = tracebacks s ++ [AttributeError]).
Proof.
  split.
  - eexists _, _. split; [vm_compute; reflexivity|]. split; [reflexivity|].
    match goal with
    | |- let r := run_call (mkCall (cell_callback ?c) _) ?s in _ =>
        intros r;
        assert (reachable s) as Hr
          by (apply (reachable_init [10; 20; 30]%nat pets None false);
              vm_compute; reflexivity);
        assert (c ∈ img_output s) as Hc by apply list_elem_of_here;
        destruct (auto_advance s c (VStr "dog") Hr eq_refl Hc)
          as (_ & Hret & Hadv & _)
    end.
    split; [exact Hret|].
    destruct Hadv as (Hidx & next_label & Hnext & Hshown & _);
      [reflexivity | vm_compute; reflexivity |].
    split; [exact Hidx|].
    injection Hnext as <-. exact (proj1 (Hshown eq_refl)).
  - eexists _, _. split; [vm_compute; reflexivity|]. split; [reflexivity|].
    match goal with
    | |- let r := run_call (mkCall (cell_callback ?c) _) ?s in _ =>
        intros r;
        assert (reachable s) as Hr
          by (apply (reachable_init [10; 20]%nat DetectorValidation
                       (Some [VNone; VStr "later"]) false);
              vm_compute; reflexivity);
        assert (c ∈ img_output s) as Hc by apply list_elem_of_here;
        destruct (auto_advance s c (VValResult 1 0 0) Hr eq_refl Hc)
          as (_ & Hret & Hadv & _)
    end.
    split; [exact Hret|].
    destruct Hadv as (Hidx & next_label & Hnext & _ & Hrej);
      [reflexivity | vm_compute; reflexivity |].
    split; [exact Hidx|].
    injection Hnext as <-.
    destruct (Hrej AttributeError eq_refl) as (Hseen & _ & _ & Htb).
    split; [exact Hseen | exact Htb].
Defined.

(** Auto advance at the level of the user's actions: pressing dog on the
    shown cell of the pets labeler labels image 0 and moves on to image 1. *)
Example press_dog_advances :
  exists s,
    pets_single = Ret s /\
    let r := handle (CellEvent 0 (Press 1)) s in
    fst r = Ret tt /\ idx (snd r) = 1 /\
    labels (snd r) = [VStr "dog"; VNone; VNone] /\
    _seen (snd r) = [true; true; false] /\
    displayed (snd r) = [0; 1].
Proof. eexists. split; [vm_compute; reflexivity|]. vm_compute. done. Qed.

(** And where the label stored for the next image is one the factory
    refuses: submitting the counts of image 0 in the checks labeler stores
    them and moves to image 1; the handler returns with the index at 1,
    the output area empty but for the traceback, and image 1 unseen. *)
Example submit_advances_onto_refused_label :
  exists s,
    checks_single = Ret s /\
    let r := handle (CellEvent 0 Submit) s in
    fst r = Ret tt /\ idx (snd r) = 1 /\
    labels (snd r) = [VValResult 0 0 0; VStr "later"] /\
    _seen (snd r) = [true; false] /\
    img_output (snd r) = [] /\
    tracebacks (snd r) = [AttributeError].
Proof. eexists. split; [vm_compute; reflexivity|]. vm_compute. done. Qed.

(** *** Construction in multi mode *)

Lemma accepted_at_Forall factory (labels : list PyVal) :
  Forall (fun v => accepts factory v = true) labels <->
  Forall (fun i => accepted_at factory labels i = true)
         (range (length labels)).
Proof.
  rewrite !Forall_forall. split.
  - intros H i [Hi0 Hi]%range_elem. unfold accepted_at.
    destruct (lookup_lt_is_Some_2 labels (Z.to_nat i)) as [v Hv]; [lia|].
    rewrite Hv. apply H. by eapply list_elem_of_lookup_2.
  - intros H v [k Hk]%list_elem_of_lookup_1.
    pose proof (lookup_lt_Some _ _ _ Hk) as Hlt.
    specialize (H (Z.of_nat k)). unfold accepted_at in H.
    rewrite Nat2Z.id, Hk in H. apply H. apply range_elem. lia.
Qed.

Lemma filter_elem {A} (f : A -> bool) (l : list A) (x : A) :
  x ∈ List.filter f l <-> x ∈ l /\ f x = true.
Proof. rewrite !list_elem_of_In. apply filter_In. Qed.

(** The flags after a multi mode construction. *)
Lemma multi_seen_lookup factory (labels : list PyVal) (len k : nat) :
  (k < len)%nat ->
  mark_seen (replicate len false)
    (List.filter (accepted_at factory labels) (range len)) !! k
  = Some (accepted_at factory labels (Z.of_nat k)).
Proof.
  intros Hk. rewrite mark_seen_lookup.
  - destruct (accepted_at factory labels (Z.of_nat k)) eqn:Hacc.
    + rewrite decide_True; [done|]. apply filter_elem. split; [|done].
      apply range_elem. lia.
    + rewrite decide_False by (intros [_ ?]%filter_elem; congruence).
      by apply lookup_replicate_2.
  - apply Forall_forall. intros i [[? _]%range_elem _]%filter_elem. lia.
  - by rewrite length_replicate.
Qed.

(** C6 as stated fails.  The checks labeler in multi mode is constructed:
    the constructor returns, but of its three images only images 0 and 2
    are rendered and marked seen.  For the label of image 1 the factory
    raises [AttributeError], which is shown in the image's output area,
    and [all_seen] is [False]. *)
Lemma multi_mode_construction_counterexample :
  exists s,
    checks_multi = Ret s /\ multi_mode s = true /\
    length (_images s) = 3%nat /\
    displayed s = [0; 2] /\ length (img_output s) = 2%nat /\
    _seen s = [true; false; true] /\ all_seen s = false /\
    tracebacks s = [AttributeError].
Proof. eexists. split; [vm_compute; reflexivity|]. by vm_compute. Qed.

(** C6, amended.  With labels as many as the images, the multi mode
    construction returns.  It has gone through the images in the order
    0, 1, ..., len - 1 and displayed, once each and in this order, the
    images for whose label the factory builds a cell; the shown cells are,
    in the same order, one per displayed image: each holds the callback
    made for its image, the control that the factory built for that
    image's label, and that image.  The flag of an image is set exactly
    when the factory builds a cell for its label, so [all_seen] is [True]
    exactly when it does so for every label; and then every image has been
    displayed and every flag is set. *)
Theorem multi_mode_construction {ndarray} (images : list ndarray)
    (cell_factory : InputCellFactory)
    (default_labels : option (list PyVal)) :
  length (initial_labels images default_labels) = length images ->
  let labels := initial_labels images default_labels in
  exists s,
    __init__ images cell_factory default_labels true = Ret s /\
    displayed s =
      List.filter (accepted_at cell_factory labels) (range (length images)) /\
    Forall2 (made_for multi_cell_callback s) (img_output s) (displayed s) /\
    (forall k : nat,
       (k < length images)%nat ->
       _seen s !! k = Some (accepted_at cell_factory labels (Z.of_nat k))) /\
    (all_seen s = true <->
     Forall (fun v => accepts cell_factory v = true) labels) /\
    (Forall (fun v => accepts cell_factory v = true) labels ->
     displayed s = range (length images) /\
     _seen s = replicate (length images) true).
Proof.
  intros Hlen labels.
  destruct (__init___multi_run images cell_factory default_labels Hlen)
    as (s & Hs & Hcells & _ & Hd & Hseen & _ & Hi & _).
  fold labels in Hcells, Hd, Hseen.
  exists s. split; [done|]. split; [done|].
  split; [by rewrite Hd|].
  assert (forall k : nat,
            (k < length images)%nat ->
            _seen s !! k = Some (accepted_at cell_factory labels (Z.of_nat k)))
    as Hlookup.
  { intros k Hk. rewrite Hseen. by apply multi_seen_lookup. }
  assert (length (_seen s) = length images) as Hslen
    by by rewrite Hseen, mark_seen_length, length_replicate.
  assert (all_seen s = true <->
          Forall (fun v => accepts cell_factory v = true) labels) as Hall.
  { unfold all_seen. rewrite all_true_lookup, accepted_at_Forall.
    subst labels. rewrite Hlen, Hslen, Forall_forall. split.
    - intros H i [Hi0 Hi']%range_elem.
      specialize (H (Z.to_nat i)). rewrite Hlookup in H by lia.
      rewrite Z2Nat.id in H by lia. assert (Z.to_nat i < length images)%nat
        as Hlt by lia. specialize (H Hlt). congruence.
    - intros H k Hk. rewrite Hlookup by done. f_equal. apply H.
      apply range_elem. lia. }
  split; [done|]. split; [done|].
  intros Hacc. split.
  - rewrite Hd. apply filter_all.
    apply accepted_at_Forall in Hacc. subst labels. by rewrite Hlen in Hacc.
  - apply list_eq. intros k.
    destruct (decide (k < length images)%nat) as [Hk|Hk].
    + rewrite lookup_replicate_2 by done.
      apply (proj1 (all_true_lookup _) (proj2 Hall Hacc)). lia.
    + rewrite !lookup_ge_None_2; [done|rewrite length_replicate; lia|lia].
Qed.

(** Instances of C6 as amended: the pets labeler in multi mode shows all
    three images; the checks labeler in multi mode shows images 0 and 2. *)
Lemma multi_mode_construction_witness :
  (exists s,
     pets_multi = Ret s /\
     displayed s = [0; 1; 2] /\ all_seen s = true /\
     length (img_output s) = 3%nat) /\
  (exists s,
     checks_multi = Ret s /\
     displayed s = [0; 2] /\ _seen s !! 1%nat = Some false).
Proof.
  split.
  - destruct (multi_mode_construction [10; 20; 30]%nat pets None eq_refl)
      as (s & Hs & Hd & Hcells & _ & Hall & _).
    exists s. split; [exact Hs|]. split; [exact Hd|].
    split; [apply Hall; repeat constructor|].
    rewrite (Forall2_length _ _ _ Hcells), Hd. reflexivity.
  - destruct (multi_mode_construction [10; 20; 30]%nat DetectorValidation
                (Some [VNone; VStr "later"; VNone]) eq_refl)
      as (s & Hs & Hd & _ & Hseen & _).
    exists s. split; [exact Hs|]. split; [exact Hd|].
    apply (Hseen 1%nat). simpl. lia.
Defined.

(** *** What single mode displays, action by action *)

Section SingleModeDisplay.
Context {ndarray : Type}.
Implicit Types s : ImageLabeler ndarray.

Lemma move_displayed j s :
  sized s -> 0 <= j < Z.of_nat (length (_images s)) ->
  let s' := snd (match render_img j (set_idx j s) with
                 | (Ret _, s') => set_progess s'
                 | (Raise e, s') => (Raise e, s')
                 end) in
  idx s' = j /\
  (displayed s' = displayed s \/ displayed s' = displayed s ++ [j]).
Proof.
  intros Hsz Hj.
  destruct (move_run j s) as (img & v & _ & _ & ->); [done..|].
  destruct (new _ _ v) as [ctl|e]; cbn; auto.
Qed.

Lemma next_img_displayed s :
  inv s -> multi_mode s = false ->
  let s' := snd (next_img tt s) in
  displayed s' = displayed s \/ displayed s' = displayed s ++ [idx s'].
Proof.
  intros (Hsz & _ & Hmode) Hm. rewrite Hm in Hmode.
  destruct Hmode as (Hn & Hi & _). rewrite next_img_run.
  destruct (idx s <? n s - 1) eqn:Hlt; [|by left]. apply Z.ltb_lt in Hlt.
  destruct (move_displayed (idx s + 1) s) as [Hidx H']; [done|lia|].
  cbv zeta in *. by rewrite Hidx.
Qed.

Lemma prev_img_displayed s :
  inv s -> multi_mode s = false ->
  let s' := snd (prev_img tt s) in
  displayed s' = displayed s \/ displayed s' = displayed s ++ [idx s'].
Proof.
  intros (Hsz & _ & Hmode) Hm. rewrite Hm in Hmode.
  destruct Hmode as (Hn & Hi & _). rewrite prev_img_run.
  destruct (idx s >? 0) eqn:Hgt; [|by left]. apply Z.gtb_lt in Hgt.
  destruct (move_displayed (idx s - 1) s) as [Hidx H']; [done|lia|].
  cbv zeta in *. by rewrite Hidx.
Qed.

Lemma single_cell_callback_body_displayed i v s :
  inv s -> multi_mode s = false ->
  let s' := snd (single_cell_callback_body i v s) in
  displayed s' = displayed s \/ displayed s' = displayed s ++ [idx s'].
Proof.
  intros Hinv Hm. rewrite single_cell_callback_body_run.
  destruct (setitem (_labels s) i v) as [ls|e] eqn:Hset; [|by left].
  apply setitem_Ret in Hset as (k & _ & ->).
  destruct ((i <? n s - 1) && auto_next_box s); [|by left].
  apply (next_img_displayed (set__labels (<[k:=v]> (_labels s)) s));
    [|done].
  apply set__labels_post; [by rewrite length_insert|done].
Qed.

(** In single mode an action displays at most one image, the one that
    is current when the action is over. *)
Lemma step_displayed e s :
  inv s -> multi_mode s = false ->
  displayed (step e s) = displayed s \/
  displayed (step e s) = displayed s ++ [idx (step e s)].
Proof.
  intros Hinv Hm. destruct e as [| |b|k ev|].
  5: { unfold step, handle, remove, bind, get. cbn. rewrite Hm. by left. }
  - unfold step. rewrite step_next by done. by apply next_img_displayed.
  - unfold step. rewrite step_previous by done. by apply prev_img_displayed.
  - unfold step, handle, bind, get. rewrite Hm. by left.
  - pose proof (cell_event_run k ev s Hinv) as H.
    destruct (img_output s !! k) as [cell|] eqn:Hk;
      [|unfold step; rewrite H; by left].
    destruct H as [Hinv1 [[_ H] | (v & _ & _ & ->)]];
      [unfold step; rewrite H; by left|].
    destruct (inv_cell s k cell Hinv Hk) as (_ & _ & Hc). rewrite Hm in Hc.
    unfold run_call. cbn [callee arg].
    match type of Hinv1 with inv ?s1 => set (s1' := s1) in * end.
    rewrite Hc.
    exact (single_cell_callback_body_displayed (idx s) v s1' Hinv1 Hm).
Qed.

End SingleModeDisplay.

(** C7 as stated fails.  In single mode index 0 is not always rendered at
    construction: the labeler over two images whose first label the
    detector factory refuses is constructed, at index 0, with nothing
    displayed and [seen[0]] [False]. *)
Lemma seen_grows_and_is_exact_counterexample :
  exists s,
    checks_late = Ret s /\ multi_mode s = false /\ idx s = 0 /\
    _seen s = [false; false] /\ _seen s !! 0%nat <> Some true /\
    displayed s = [] /\ img_output s = [] /\
    tracebacks s = [AttributeError].
Proof.
  eexists. split; [vm_compute; reflexivity|]. vm_compute.
  repeat split. discriminate.
Qed.

(** C7, amended.  The seen flags only grow and say exactly which images
    have been displayed.  In every reachable state, a flag is [True] if and
    only if its image is in the display log; a flag that is [True] is still
    [True] after any user action, and after any call of a cell callback;
    and a single mode action displays at most one image, the one that is
    current afterwards.  A single mode construction over at least one
    image returns at index 0; it has displayed image 0 and nothing else,
    so that exactly flag 0 is set, if the factory builds a cell for the
    first label, and it has displayed nothing, with every flag [False],
    if the factory refuses the first label. *)
Theorem seen_grows_and_is_exact {ndarray : Type} :
  (forall s : ImageLabeler ndarray,
     reachable s ->
     (forall k : nat,
        _seen s !! k = Some true <-> Z.of_nat k ∈ displayed s) /\
     (forall e (k : nat),
        _seen s !! k = Some true -> _seen (step e s) !! k = Some true) /\
     (forall i v (k : nat),
        let closure :=
          if multi_mode s then multi_cell_callback i
          else single_cell_callback i in
        _seen s !! k = Some true ->
        _seen (snd (run_call (mkCall closure v) s)) !! k = Some true) /\
     (forall e,
        multi_mode s = false ->
        displayed (step e s) = displayed s \/
        displayed (step e s) = displayed s ++ [idx (step e s)])) /\
  (forall (images : list ndarray) cell_factory default_labels first_label,
     length (initial_labels images default_labels) = length images ->
     initial_labels images default_labels !! 0%nat = Some first_label ->
     exists s,
       __init__ images cell_factory default_labels false = Ret s /\
       idx s = 0 /\
       if accepts cell_factory first_label
       then displayed s = [0] /\
            _seen s = <[0%nat := true]> (replicate (length images) false)
       else displayed s = [] /\
            _seen s = replicate (length images) false).
Proof.
  split.
  - intros s Hr. pose proof (reachable_inv s Hr) as Hinv.
    split; [|split; [|split]].
    + intros k. destruct Hinv as (_ & Hsd & _).
      rewrite (Hsd (Z.of_nat k)), Nat2Z.id. intuition lia.
    + intros e k. destruct (step_post e s Hinv) as (_ & _ & E & _).
      destruct E as (_ & _ & _ & _ & _ & E). apply E.
    + intros i v k closure.
      unfold run_call. subst closure.
      destruct (multi_mode s) eqn:Hm; cbn [callee arg].
      * rewrite multi_cell_callback_body_run.
        by destruct (setitem (_labels s) i v).
      * rewrite single_cell_callback_body_run.
        destruct (setitem (_labels s) i v) as [ls|e] eqn:Hset; [|done].
        apply setitem_Ret in Hset as (j & _ & ->).
        destruct ((i <? n s - 1) && auto_next_box s); [|done].
        destruct (set__labels_post (<[j:=v]> (_labels s)) s) as [I _];
          [by rewrite length_insert|done|].
        destruct (next_img_post _ I Hm) as (_ & _ & E & _).
        destruct E as (_ & _ & _ & _ & _ & E). apply E.
    + intros e Hm. by apply step_displayed.
  - intros images cell_factory default_labels v Hlen Hv.
    assert (exists img, images !! 0%nat = Some img) as [img Himg].
    { apply lookup_lt_is_Some_2. apply lookup_lt_Some in Hv. lia. }
    rewrite (__init___single_run images cell_factory default_labels img v)
      by done.
    eexists. split; [reflexivity|].
    pose proof (new_outcome cell_factory (mkCall (single_cell_callback 0)) v)
      as Hout.
    destruct (new cell_factory (mkCall (single_cell_callback 0)) v);
      destruct Hout as [-> _]; done.
Qed.

(** Instances of C7 as amended: in the pets labeler after Next, images 0
    and 1 are seen, and after a further Previous they still are; the
    construction of the pets labeler displays image 0. *)
Lemma seen_grows_and_is_exact_witness :
  (exists s0,
     pets_single = Ret s0 /\
     let s := step ClickNext s0 in
     _seen s = [true; true; false] /\ displayed s = [0; 1] /\
     _seen (step ClickPrevious s) !! 1%nat = Some true) /\
  (exists s, pets_single = Ret s /\ idx s = 0 /\ displayed s = [0]).
Proof.
  split.
  - eexists. split; [vm_compute; reflexivity|]. intros s.
    split; [vm_compute; reflexivity|]. split; [vm_compute; reflexivity|].
    assert (reachable s) as Hr.
    { apply reachable_step.
      apply (reachable_init [10; 20; 30]%nat pets None false).
      vm_compute; reflexivity. }
    destruct (proj1 seen_grows_and_is_exact s Hr) as (_ & Hgrow & _).
    apply Hgrow. vm_compute; reflexivity.
  - destruct (proj2 seen_grows_and_is_exact [10; 20; 30]%nat pets None VNone
                eq_refl eq_refl) as (s & Hs & Hidx & Hd & _).
    exists s. split; [exact Hs|]. split; [exact Hidx | exact Hd].
Defined.

(** C8.  Construction starts from [len] labels [None] when
    [default_labels] is [None], and from the given list when that has as
    many entries as there are images; the flags start all [False].  So
    the labeler that the constructor returns has these labels, and its
    flags are the all-[False] flags with just the images displayed during
    construction marked.  (The constructor does return, in multi mode
    always and in single mode when there is an image; with no image the
    progress bar of single mode is refused with [TraitError].)  With a
    list of another length than the images the constructor raises
    [AssertionError].  In every case that passes the assertion, the object
    that the constructor goes on to render has the labels it started from
    and all flags [False]. *)
Theorem construction_initial_arrays {ndarray} (images : list ndarray)
    (cell_factory : InputCellFactory) (multi : bool) :
  ((multi = false -> images <> []) ->
   exists s,
     __init__ images cell_factory None multi = Ret s /\
     labels s = replicate (length images) VNone /\
     _seen s = mark_seen (replicate (length images) false) (displayed s)) /\
  (forall l,
     length l <> length images ->
     __init__ images cell_factory (Some l) multi = Raise AssertionError) /\
  (forall l,
     length l = length images -> (multi = false -> images <> []) ->
     exists s,
       __init__ images cell_factory (Some l) multi = Ret s /\
       labels s = l /\
       _seen s = mark_seen (replicate (length images) false) (displayed s)) /\
  (forall default_labels,
     length (initial_labels images default_labels) = length images ->
     multi = false -> images = [] ->
     __init__ images cell_factory default_labels multi = Raise TraitError) /\
  (forall default_labels,
     length (initial_labels images default_labels) = length images ->
     exists self,
       init_attributes images cell_factory default_labels multi = Ret self /\
       _labels self = initial_labels images default_labels /\
       _seen self = replicate (length images) false /\
       __init__ images cell_factory default_labels multi =
         match (if multi then _render_multi else _render_single) self with
         | (Ret _, s) => Ret s
         | (Raise e, _) => Raise e
         end).
Proof.
  assert (forall default_labels,
            length (initial_labels images default_labels) = length images ->
            (multi = false -> images <> []) ->
            exists s,
              __init__ images cell_factory default_labels multi = Ret s /\
              labels s = initial_labels images default_labels /\
              _seen s = mark_seen (replicate (length images) false)
                                  (displayed s)) as Hret.
  { intros default_labels Hlen Hne. destruct multi.
    - destruct (__init___multi_run images cell_factory default_labels Hlen)
        as (s & Hs & _ & _ & Hd & Hseen & _ & _ & Hl & _).
      exists s. split; [done|]. split; [done|]. by rewrite Hd.
    - destruct images as [|img images]; [by destruct Hne|].
      destruct (initial_labels (img :: images) default_labels)
        as [|v ls] eqn:Hls; [done|].
      rewrite (__init___single_run (img :: images) cell_factory
                 default_labels img v); [|by rewrite Hls|done|by rewrite Hls].
      eexists. split; [reflexivity|]. rewrite Hls.
      by destruct (new cell_factory (mkCall (single_cell_callback 0)) v). }
  split; [|split; [|split; [|split]]].
  - intros Hne. apply (Hret None); [|done]. cbn. apply length_replicate.
  - intros l Hl. unfold __init__. rewrite init_attributes_run. cbn.
    by rewrite (proj2 (Nat.eqb_neq _ _) Hl).
  - intros l Hl Hne. by apply (Hret (Some l)).
  - intros default_labels Hlen -> ->. by apply __init___single_empty.
  - intros default_labels Hlen. unfold __init__.
    rewrite init_attributes_run, (proj2 (Nat.eqb_eq _ _) Hlen).
    eexists. split; [reflexivity|]. done.
Qed.

(** Instances of C8: one label for three images is refused; without
    default labels the pets labeler starts from three labels [None];
    three labels are taken as they are, in either mode. *)
Lemma construction_initial_arrays_witness :
  __init__ [10; 20; 30]%nat pets (Some [VStr "dog"]) false
    = Raise AssertionError /\
  (exists s, pets_single = Ret s /\ labels s = [VNone; VNone; VNone]) /\
  (exists s,
     __init__ [10; 20; 30]%nat pets
       (Some [VStr "dog"; VNone; VStr "cat"]) false = Ret s /\
     labels s = [VStr "dog"; VNone; VStr "cat"] /\
     _seen s = mark_seen [false; false; false] (displayed s)) /\
  (exists s,
     __init__ [10; 20; 30]%nat pets
       (Some [VStr "dog"; VNone; VStr "cat"]) true = Ret s /\
     labels s = [VStr "dog"; VNone; VStr "cat"] /\
     _seen s = mark_seen [false; false; false] (displayed s)).
Proof.
  destruct (construction_initial_arrays [10; 20; 30]%nat pets false)
    as (Hnone & Hbad & Hgood & _).
  destruct (construction_initial_arrays [10; 20; 30]%nat pets true)
    as (_ & _ & Hmulti & _).
  split; [apply Hbad; discriminate|].
  split; [|split].
  - destruct Hnone as (s & Hs & Hl & _); [discriminate|].
    exists s. split; [exact Hs | exact Hl].
  - apply (Hgood [VStr "dog"; VNone; VStr "cat"] eq_refl). discriminate.
  - apply (Hmulti [VStr "dog"; VNone; VStr "cat"] eq_refl). discriminate.
Defined.

(** * Further properties of the code *)

(** ** The factories' controls *)

(** X1. Whatever a control delivers can be shown again.  Every class that
    a class selector delivers is one of the factory's classes, and, unless
    it is [None], a selector built for it starts at a class equal to it.
    Every result that a counters box delivers is one for which a new box
    starts at exactly its three counts. *)
Theorem delivered_values_round_trip {M : Type}
    (result_callback : PyVal -> M) (value : PyVal) (evs : list CtlEvent) :
  (forall self ctl0,
     MultiClass_new self result_callback value = Ret ctl0 ->
     Forall (fun call =>
               exists c,
                 call = result_callback c /\
                 c ∈ _classes self /\
                 (is_None c = false ->
                  exists ctl o,
                    MultiClass_new self result_callback c = Ret ctl /\
                    selection ctl = Some o /\
                    o ∈ _classes self /\ py_eq o c = true))
            (snd (fire_all ctl0 evs))) /\
  (forall ctl0,
     DetectorValidation_new result_callback value = Ret ctl0 ->
     Forall (fun call =>
               exists r ctl,
                 call = result_callback r /\
                 DetectorValidation_new result_callback r = Ret ctl /\
                 counters ctl = Some r)
            (snd (fire_all ctl0 evs))).
Proof.
  split.
  - intros self ctl0 Hnew.
    destruct (fire_all_selector self result_callback value ctl0 evs Hnew)
      as (w & _ & _ & _ & Hcalls).
    eapply Forall_impl; [exact Hcalls|].
    intros call (c & -> & Hin).
    exists c. split; [done|]. split; [done|]. intros Hnone.
    rewrite MultiClass_new_run, Hnone, (py_in_elem _ _ Hin). cbn.
    destruct (ToggleButtons_new_cases (M := M) (_classes self) c)
      as [[? _] | [(_ & _ & o & Ho & Heq & ->) | (_ & ? & _)]];
      [congruence| |rewrite (py_in_elem _ _ Hin) in *; congruence].
    by eexists _, o.
  - intros ctl0 Hnew.
    destruct (fire_all_counters result_callback value ctl0 evs Hnew)
      as [_ Hcalls].
    eapply Forall_impl; [exact Hcalls|].
    intros call (r & -> & tp & fp & fn & -> & Htp & Hfp & Hfn).
    eexists _, _. split; [reflexivity|]. split; [reflexivity|].
    simpl. unfold BoundedIntText.bound. repeat f_equal; lia.
Qed.

(** An instance of X1: on the selector over [None], cat and dog, the user
    presses dog, then [None]. *)
Lemma delivered_values_round_trip_witness :
  exists ctl0,
    MultiClass_new (M := PyVal) maybe_pets id VNone = Ret ctl0 /\
    snd (fire_all ctl0 [Press 2; Press 0]) = [VStr "dog"; VNone] /\
    Forall (fun call =>
              exists c,
                call = id c /\
                c ∈ _classes maybe_pets /\
                (is_None c = false ->
                 exists ctl o,
                   MultiClass_new maybe_pets id c = Ret ctl /\
                   selection ctl = Some o /\
                   o ∈ _classes maybe_pets /\ py_eq o c = true))
           (snd (fire_all ctl0 [Press 2; Press 0])).
Proof.
  eexists. split; [reflexivity|]. split; [reflexivity|].
  exact (proj1 (delivered_values_round_trip (M := PyVal) id VNone
                  [Press 2; Press 0]) maybe_pets _ eq_refl).
Defined.

(** X2. When the constructor's [default] is falsy or one of the classes,
    [new] builds a selector whatever [value] it is given, and from the
    start and after any session the selection is [None] or one of the
    classes.  When [default] is truthy and not among the classes, [new]
    raises [TraitError] for every [value] that is [None] or not among the
    classes. *)
Theorem selection_among_classes {M : Type}
    (classes : list PyVal) (default value : PyVal)
    (self : MultiClassInputCellFactory)
    (result_callback : PyVal -> M) (evs : list CtlEvent) :
  MultiClass__init__ classes default = Ret self ->
  (truthy default = false \/ py_in default classes = true ->
   exists ctl0 c,
     MultiClass_new self result_callback value = Ret ctl0 /\
     selection (fst (fire_all ctl0 evs)) = Some c /\
     (c = VNone \/ c ∈ classes)) /\
  (truthy default = true -> py_in default classes = false ->
   is_None value = true \/ py_in value classes = false ->
   MultiClass_new self result_callback value = Raise TraitError).
Proof.
  intros Hinit.
  assert (_classes self = classes /\
          (truthy default = true -> _default_class self = default) /\
          (truthy default = false ->
           py_in (_default_class self) classes = true))
    as (Hcl & Hdt & Hdf).
  { unfold MultiClass__init__ in Hinit.
    destruct (truthy default).
    - injection Hinit as <-. by repeat split.
    - destruct classes as [|c classes]; [done|]. simpl in Hinit.
      injection Hinit as <-. repeat split; [done|]. intros _. simpl.
      by rewrite py_eq_refl. }
  split.
  - intros Hdef.
    destruct (MultiClass_new_total self result_callback value)
      as [ctl0 Hnew].
    { right. rewrite Hcl. destruct (truthy default) eqn:Ht.
      - rewrite Hdt by done. by destruct Hdef.
      - by apply Hdf. }
    destruct (fire_all_selector self result_callback value ctl0 evs Hnew)
      as (w & Hw & _ & Hv & _).
    exists ctl0, (ToggleButtons.value w). split; [done|].
    rewrite Hw. split; [done|]. by rewrite <- Hcl.
  - intros Ht Hout Hval. rewrite MultiClass_new_run, Hcl, Hdt by done.
    assert (is_None value || negb (py_in value classes) = true) as ->.
    { destruct Hval as [-> | ->]; [done|]. by rewrite orb_true_r. }
    destruct (ToggleButtons_new_cases (M := M) classes default)
      as [[Hnone _] | [(_ & ? & _) | (_ & _ & ->)]]; [|congruence|done].
    by destruct default.
Qed.

(** Instances of X2: the pets factory made with the falsy default [0], and
    the pets factory made with the default bird. *)
Lemma selection_among_classes_witness :
  (exists self ctl0 c,
     MultiClass__init__ [VStr "cat"; VStr "dog"] (VInt 0) = Ret self /\
     MultiClass_new (M := PyVal) self id (VStr "bird") = Ret ctl0 /\
     selection (fst (fire_all ctl0 [Press 1; Press 5])) = Some c /\
     (c = VNone \/ c ∈ [VStr "cat"; VStr "dog"])) /\
  MultiClass_new (M := PyVal) bird_pets id VNone = Raise TraitError.
Proof.
  split.
  - eexists _.
    destruct (proj1 (selection_among_classes (M := PyVal)
                       [VStr "cat"; VStr "dog"] (VInt 0) (VStr "bird") _ id
                       [Press 1; Press 5] eq_refl)
                (or_introl eq_refl)) as (ctl0 & c & Hnew & Hc & Hin).
    exists ctl0, c. split; [reflexivity|]. split; [exact Hnew|].
    split; [exact Hc | exact Hin].
  - exact (proj2 (selection_among_classes (M := PyVal)
                    [VStr "cat"; VStr "dog"] (VStr "bird") VNone bird_pets id
                    [] eq_refl)
             eq_refl eq_refl (or_introl eq_refl)).
Defined.

(** ** Construction, outcome by outcome *)

(** X3. Single mode construction looks at the first image and the first
    label only.  With labels as many as the images: without any image it
    raises [TraitError] (the progress bar cannot run from 1 to 0); with an
    image it returns, whatever the labels are, at index 0 with the
    progress bar at ["1 / n"], auto advance ticked and the labels as
    given.  If the factory builds a cell for the first label, that cell is
    the one shown and image 0 is displayed; if the factory raises, the
    exception is shown and nothing is displayed. *)
Theorem single_mode_construction_outcome {ndarray}
    (images : list ndarray) (cell_factory : InputCellFactory)
    (default_labels : option (list PyVal)) :
  length (initial_labels images default_labels) = length images ->
  (images = [] ->
   __init__ images cell_factory default_labels false = Raise TraitError) /\
  (forall v,
     initial_labels images default_labels !! 0%nat = Some v ->
     exists s,
       __init__ images cell_factory default_labels false = Ret s /\
       idx s = 0 /\ pbar_widget s = 1 /\ progress_synced s /\
       auto_next_box s = true /\
       n s = Z.of_nat (length images) /\
       labels s = initial_labels images default_labels /\
       (accepts cell_factory v = true ->
        displayed s = [0] /\ tracebacks s = [] /\
        exists cell,
          img_output s = [cell] /\
          made_for single_cell_callback s cell 0) /\
       (forall e,
          refusal cell_factory v = Some e ->
          displayed s = [] /\ img_output s = [] /\ tracebacks s = [e] /\
          _seen s = replicate (length images) false)).
Proof.
  intros Hlen. split.
  - intros ->. by apply __init___single_empty.
  - intros v Hv.
    assert (exists img, images !! 0%nat = Some img) as [img Himg].
    { apply lookup_lt_is_Some_2. apply lookup_lt_Some in Hv. lia. }
    rewrite (__init___single_run images cell_factory default_labels img v)
      by done.
    eexists. split; [reflexivity|].
    pose proof (new_outcome cell_factory (mkCall (single_cell_callback 0)) v)
      as Hout.
    destruct (new cell_factory (mkCall (single_cell_callback 0)) v)
      as [ctl|e] eqn:Hnew; destruct Hout as [-> ->].
    + do 6 (split; [done|]). split; [|by intros e [=]].
      intros _. split; [done|]. split; [done|].
      eexists. split; [reflexivity|].
      split; [done|]. split; [done|]. by exists v.
    + do 6 (split; [done|]). split; [by intros [=]|].
      by intros e' [= <-].
Qed.

(** Instances of X3: the checks labeler, whose first label the factory
    builds a cell for, and the same with the labels swapped. *)
Lemma single_mode_construction_outcome_witness :
  (exists s, checks_single = Ret s /\ idx s = 0 /\ displayed s = [0]) /\
  (exists s,
     checks_late = Ret s /\ idx s = 0 /\ displayed s = [] /\
     tracebacks s = [AttributeError]).
Proof.
  destruct (single_mode_construction_outcome [10; 20]%nat
              DetectorValidation (Some [VNone; VStr "later"]) eq_refl)
    as [_ Hfirst].
  destruct (single_mode_construction_outcome [10; 20]%nat
              DetectorValidation (Some [VStr "later"; VNone]) eq_refl)
    as [_ Hbad].
  split.
  - destruct (Hfirst VNone eq_refl)
      as (s & Hs & Hidx & _ & _ & _ & _ & _ & Hacc & _).
    exists s. split; [exact Hs|]. split; [exact Hidx|].
    exact (proj1 (Hacc eq_refl)).
  - destruct (Hbad (VStr "later") eq_refl)
      as (s & Hs & Hidx & _ & _ & _ & _ & _ & _ & Hrej).
    exists s. split; [exact Hs|]. split; [exact Hidx|].
    destruct (Hrej AttributeError eq_refl) as (Hd & _ & Htb & _).
    split; [exact Hd | exact Htb].
Defined.

Lemma refused_at_range factory (labels : list PyVal) :
  omap (refused_at factory labels) (range (length labels))
  = omap (refusal factory) labels.
Proof.
  apply list_omap_ext. apply Forall2_same_length_lookup_2.
  - unfold range. by rewrite length_map, length_seq.
  - intros k i v Hi Hv. pose proof (lookup_lt_Some _ _ _ Hv) as Hlt.
    rewrite range_lookup in Hi by done. injection Hi as <-.
    unfold refused_at. by rewrite Nat2Z.id, Hv.
Qed.

(** Each index is either one the factory builds a cell for or one it
    refuses. *)
Lemma accepted_or_refused factory (labels : list PyVal) (xs : list Z) :
  (length (List.filter (accepted_at factory labels) xs)
   + length (omap (refused_at factory labels) xs)
   <= length xs)%nat /\
  (Forall (fun i => 0 <= i < Z.of_nat (length labels)) xs ->
   (length (List.filter (accepted_at factory labels) xs)
    + length (omap (refused_at factory labels) xs)
    = length xs)%nat).
Proof.
  induction xs as [|i xs [IH1 IH2]]; [done|].
  assert (accepted_at factory labels i = true /\
          refused_at factory labels i = None \/
          accepted_at factory labels i = false /\
          (0 <= i < Z.of_nat (length labels) ->
           is_Some (refused_at factory labels i))) as Hi.
  { unfold accepted_at, refused_at.
    destruct (labels !! Z.to_nat i) as [v|] eqn:Hv; cbn.
    - unfold accepts, refusal. destruct (new factory (fun _ => tt) v);
        [by left|right]. split; [done|]. by eexists.
    - right. split; [done|]. intros Hr.
      apply lookup_ge_None_1 in Hv. lia. }
  cbn [List.filter omap list_omap].
  destruct Hi as [[-> ->] | [-> Href]]; cbn [length].
  - split; [lia|]. intros [_ Hxs]%Forall_cons. specialize (IH2 Hxs). lia.
  - destruct (refused_at factory labels i) as [e|] eqn:He; cbn [length].
    + split; [lia|]. intros [_ Hxs]%Forall_cons. specialize (IH2 Hxs). lia.
    + split; [lia|]. intros [Hi _]%Forall_cons.
      by destruct (Href Hi).
Qed.

(** X4. Multi mode construction goes through every label, in order, and
    returns.  With labels as many as the images, the labeler it returns
    has the labels as given; the tracebacks shown are the exceptions with
    which the factory refuses labels, one per refused label and in the
    order of the labels; every image has either a cell or a traceback; and
    without images nothing is shown and [all_seen] is [True]. *)
Theorem multi_mode_construction_outcome {ndarray}
    (images : list ndarray) (cell_factory : InputCellFactory)
    (default_labels : option (list PyVal)) :
  length (initial_labels images default_labels) = length images ->
  exists s,
    __init__ images cell_factory default_labels true = Ret s /\
    labels s = initial_labels images default_labels /\
    tracebacks s =
      omap (refusal cell_factory) (initial_labels images default_labels) /\
    (length (img_output s) + length (tracebacks s) = length images)%nat /\
    (images = [] -> img_output s = [] /\ all_seen s = true).
Proof.
  intros Hlen.
  destruct (__init___multi_run images cell_factory default_labels Hlen)
    as (s & Hs & Hcells & _ & Hd & Hseen & Htb & _ & Hl & _).
  exists s. split; [done|]. split; [done|].
  split; [by rewrite Htb, <- Hlen, refused_at_range|].
  split.
  - rewrite (Forall2_length _ _ _ Hcells), Htb.
    destruct (accepted_or_refused cell_factory
                (initial_labels images default_labels)
                (range (length images))) as [_ ->].
    + unfold range. by rewrite length_map, length_seq.
    + rewrite Hlen. apply range_Forall.
  - intros ->. cbn in Hcells, Hseen. apply Forall2_nil_inv_r in Hcells.
    split; [done|]. unfold all_seen. by rewrite Hseen.
Qed.

(** Instances of X4: the checks labeler in multi mode, and a labeler
    without images. *)
Lemma multi_mode_construction_outcome_witness :
  (exists s,
     checks_multi = Ret s /\ tracebacks s = [AttributeError] /\
     (length (img_output s) + 1 = 3)%nat) /\
  (exists s,
     __init__ ([] : list nat) AbstractInputCellFactory None true = Ret s /\
     all_seen s = true).
Proof.
  split.
  - destruct (multi_mode_construction_outcome [10; 20; 30]%nat
                DetectorValidation (Some [VNone; VStr "later"; VNone])
                eq_refl) as (s & Hs & _ & Htb & Hlen & _).
    exists s. split; [exact Hs|]. split; [exact Htb|].
    rewrite Htb in Hlen. exact Hlen.
  - destruct (multi_mode_construction_outcome ([] : list nat)
                AbstractInputCellFactory None eq_refl)
      as (s & Hs & _ & _ & _ & Hempty).
    exists s. split; [exact Hs|]. exact (proj2 (Hempty eq_refl)).
Defined.

(** ** The state machine, action by action *)

Section MoreSteps.
Context {ndarray : Type}.
Implicit Types (s : ImageLabeler ndarray) (cell : Cell ndarray).
Implicit Types (images : list ndarray) (factory : InputCellFactory).

(** *** What an action adds to the display and to the tracebacks *)

Lemma move_log j s :
  sized s -> multi_mode s = false ->
  0 <= j < Z.of_nat (length (_images s)) ->
  log_step s (snd (match render_img j (set_idx j s) with
                   | (Ret _, s') => set_progess s'
                   | (Raise e, s') => (Raise e, s')
                   end)).
Proof.
  intros Hsz Hm Hj.
  destruct (move_run j s) as (img & v & _ & _ & ->); [done..|].
  pose proof (new_outcome (_cell_factory s)
                (mkCall (single_cell_callback j)) v) as Hout.
  destruct (new _ _ v) as [ctl|e]; destruct Hout as [Hacc Href]; cbn.
  - right. left. split; [done|]. split; [done|]. split; [done|]. by exists v.
  - right. right. repeat split; try done. by exists v, e.
Qed.

Lemma next_img_log s :
  inv s -> multi_mode s = false -> log_step s (snd (next_img tt s)).
Proof.
  intros (Hsz & _ & Hmode) Hm. rewrite Hm in Hmode.
  destruct Hmode as (Hn & Hi & _). rewrite next_img_run.
  destruct (idx s <? n s - 1) eqn:Hlt; [|by left]. apply Z.ltb_lt in Hlt.
  apply move_log; [done..|lia].
Qed.

Lemma prev_img_log s :
  inv s -> multi_mode s = false -> log_step s (snd (prev_img tt s)).
Proof.
  intros (Hsz & _ & Hmode) Hm. rewrite Hm in Hmode.
  destruct Hmode as (Hn & Hi & _). rewrite prev_img_run.
  destruct (idx s >? 0) eqn:Hgt; [|by left]. apply Z.gtb_lt in Hgt.
  apply move_log; [done..|lia].
Qed.

(** Changes that the log does not see. *)
Lemma log_step_frame s0 s s' :
  displayed s = displayed s0 -> tracebacks s = tracebacks s0 ->
  _seen s = _seen s0 -> multi_mode s = multi_mode s0 ->
  _cell_factory s = _cell_factory s0 ->
  (img_output s0 = [] -> img_output s = []) ->
  log_step s s' -> log_step s0 s'.
Proof.
  intros Hd Ht Hs Hm Hf Ho. unfold log_step.
  rewrite Hd, Ht, Hs, Hm, Hf. intuition.
Qed.

Lemma run_call_log c v s :
  inv s -> 0 <= closure_idx c < Z.of_nat (length (_images s)) ->
  (c = if multi_mode s then multi_cell_callback (closure_idx c)
       else single_cell_callback (closure_idx c)) ->
  log_step s (snd (run_call (mkCall c v) s)).
Proof.
  intros Hinv Hi Hc. pose proof Hinv as ([Hl _] & _).
  unfold run_call. cbn [callee arg].
  destruct (multi_mode s) eqn:Hm; destruct c as [i|i]; try discriminate Hc;
    cbn [closure_idx] in *.
  - rewrite multi_cell_callback_body_run, setitem_in_range by lia. by left.
  - rewrite single_cell_callback_body_run, setitem_in_range by lia.
    destruct ((i <? n s - 1) && auto_next_box s); [|by left].
    destruct (set__labels_post (<[Z.to_nat i := v]> (_labels s)) s) as [I _];
      [by rewrite length_insert|done|].
    apply (log_step_frame s (set__labels (<[Z.to_nat i := v]> (_labels s)) s));
      try done.
    by apply next_img_log.
Qed.

Lemma step_log e s : inv s -> log_step s (step e s).
Proof.
  intros Hinv. destruct e as [| |b|k ev|].
  - unfold step. destruct (multi_mode s) eqn:Hm.
    { unfold handle, bind, get. cbn. rewrite Hm. by left. }
    rewrite step_next by done. by apply next_img_log.
  - unfold step. destruct (multi_mode s) eqn:Hm.
    { unfold handle, bind, get. cbn. rewrite Hm. by left. }
    rewrite step_previous by done. by apply prev_img_log.
  - unfold step, handle, bind, get. cbn. left. by destruct (multi_mode s).
  - pose proof (cell_event_run k ev s Hinv) as H.
    destruct (img_output s !! k) as [cell|] eqn:Hk;
      [|unfold step; rewrite H; by left].
    destruct H as [Hinv1 [[_ H] | (v & _ & _ & ->)]].
    { unfold step. rewrite H. left. cbn. repeat split; try done.
      intros Ho. by rewrite Ho in Hk. }
    destruct (inv_cell s k cell Hinv Hk) as (_ & Hi & Hc).
    match type of Hinv1 with
    | inv ?s1 => apply (log_step_frame s s1); try done
    end.
    { cbn. intros Ho. by rewrite Ho in Hk. }
    apply run_call_log; [done|done|].
    cbn. destruct (multi_mode s); by rewrite Hc.
  - unfold step, handle, remove, bind, get. cbn. left.
    by destruct (multi_mode s).
Qed.

(** In every reachable state: the output area is empty as long as nothing
    has been displayed; if something has been displayed, the factory builds
    cells for some label; and every traceback shown is an exception with
    which the factory refuses some label. *)
Lemma reachable_log s :
  reachable s ->
  (displayed s = [] -> img_output s = []) /\
  (displayed s <> [] -> exists v, accepts (_cell_factory s) v = true) /\
  Forall (fun e => exists v, refusal (_cell_factory s) v = Some e)
         (tracebacks s).
Proof.
  induction 1 as [images factory default_labels multi s Hinit|e s Hr IH].
  - destruct multi.
    + pose proof (__init___length _ _ _ _ _ Hinit) as Hlen.
      destruct (__init___multi_run images factory default_labels Hlen)
        as (s' & Hs' & Hcells & _ & Hd & _ & Htb & _ & _ & Hf & _).
      rewrite Hinit in Hs'. injection Hs' as <-.
      rewrite <- Hd in Hcells. rewrite Hf. split; [|split].
      * intros Hnil. rewrite Hnil in Hcells.
        by apply Forall2_nil_inv_r in Hcells.
      * intros Hne. destruct (displayed s) as [|i js] eqn:Hdisp; [done|].
        assert (i ∈ List.filter
                      (accepted_at factory
                         (initial_labels images default_labels))
                      (range (length images))) as Hin
          by (rewrite <- Hd; left).
        apply filter_elem in Hin as [_ Hacc]. unfold accepted_at in Hacc.
        destruct (_ !! Z.to_nat i) as [v|]; [by exists v|done].
      * rewrite Htb. apply Forall_forall.
        intros e (i & _ & He)%list_elem_of_omap. unfold refused_at in He.
        destruct (_ !! Z.to_nat i) as [v|]; [by exists v|done].
    + apply __init___single in Hinit as (img & v & _ & _ & _ & ->).
      pose proof (new_outcome factory (mkCall (single_cell_callback 0)) v)
        as Hout.
      destruct (new factory (mkCall (single_cell_callback 0)) v)
        as [ctl|e]; destruct Hout as [Hacc Href]; cbn.
      * split; [done|]. split; [by exists v|constructor].
      * split; [done|]. split; [done|].
        apply Forall_singleton. by exists v.
  - destruct IH as (IH1 & IH2 & IH3).
    pose proof (reachable_inv s Hr) as Hinv.
    destruct (step_post e s Hinv) as (_ & _ & (_ & -> & _) & _).
    destruct (step_log e s Hinv)
      as [(-> & -> & _ & Ho) | [(_ & -> & -> & v & Hv)
                               | (_ & -> & _ & Ho & v & e' & He & ->)]].
    + split; [by auto|done].
    + split; [by intros [_ [=]]%app_eq_nil|]. split; [by exists v|done].
    + split; [done|]. split; [done|].
      apply Forall_app. split; [done|]. apply Forall_singleton. by exists v.
Qed.

(** *** Moving to an image for whose label the factory builds a cell *)

Lemma move_shows j s v :
  sized s -> 0 <= j < Z.of_nat (length (_images s)) ->
  _labels s !! Z.to_nat j = Some v ->
  accepts (_cell_factory s) v = true ->
  let r := match render_img j (set_idx j s) with
           | (Ret _, s') => set_progess s'
           | (Raise e, s') => (Raise e, s')
           end in
  fst r = Ret tt /\ idx (snd r) = j /\
  displayed (snd r) = displayed s ++ [j] /\
  _seen (snd r) = <[Z.to_nat j := true]> (_seen s) /\
  _labels (snd r) = _labels s /\
  exists cell,
    img_output (snd r) = [cell] /\
    made_for single_cell_callback (snd r) cell j.
Proof.
  intros Hsz Hj Hv Hacc.
  destruct (move_run j s) as (img & v' & Himg & Hv' & ->); [done..|].
  rewrite Hv in Hv'. injection Hv' as <-.
  apply (new_accepts _ (mkCall (single_cell_callback j))) in Hacc
    as [ctl Hctl].
  rewrite Hctl. cbn. repeat split. eexists. split; [reflexivity|].
  split; [done|]. split; [done|]. by exists v.
Qed.

(** Next below the last image, on a label for which the factory builds a
    cell. *)
Lemma next_shows s v :
  inv s -> multi_mode s = false -> idx s < n s - 1 ->
  _labels s !! Z.to_nat (idx s + 1) = Some v ->
  accepts (_cell_factory s) v = true ->
  fst (handle ClickNext s) = Ret tt /\
  idx (step ClickNext s) = idx s + 1 /\
  displayed (step ClickNext s) = displayed s ++ [idx s + 1] /\
  _seen (step ClickNext s) = <[Z.to_nat (idx s + 1) := true]> (_seen s) /\
  _labels (step ClickNext s) = _labels s /\
  exists cell,
    img_output (step ClickNext s) = [cell] /\
    made_for single_cell_callback (step ClickNext s) cell (idx s + 1).
Proof.
  intros Hinv Hm Hlt Hv Hacc. pose proof Hinv as (Hsz & _ & Hmode).
  rewrite Hm in Hmode. destruct Hmode as (Hn & Hi & _).
  unfold step. rewrite step_next by done.
  rewrite next_img_run. destruct (Z.ltb_spec (idx s) (n s - 1)); [|lia].
  apply (move_shows (idx s + 1) s v); [done|lia|done..].
Qed.

Lemma previous_shows s v :
  inv s -> multi_mode s = false -> idx s > 0 ->
  _labels s !! Z.to_nat (idx s - 1) = Some v ->
  accepts (_cell_factory s) v = true ->
  fst (handle ClickPrevious s) = Ret tt /\
  idx (step ClickPrevious s) = idx s - 1 /\
  displayed (step ClickPrevious s) = displayed s ++ [idx s - 1] /\
  _seen (step ClickPrevious s) = <[Z.to_nat (idx s - 1) := true]> (_seen s) /\
  _labels (step ClickPrevious s) = _labels s /\
  exists cell,
    img_output (step ClickPrevious s) = [cell] /\
    made_for single_cell_callback (step ClickPrevious s) cell (idx s - 1).
Proof.
  intros Hinv Hm Hgt Hv Hacc. pose proof Hinv as (Hsz & _ & Hmode).
  rewrite Hm in Hmode. destruct Hmode as (Hn & Hi & _).
  unfold step. rewrite step_previous by done.
  rewrite prev_img_run. destruct (Z.gtb_spec (idx s) 0); [|lia].
  apply (move_shows (idx s - 1) s v); [done|lia|done..].
Qed.

(** *** What an action does to the labels *)

Lemma step_labels e s :
  inv s ->
  _labels (step e s) = _labels s \/
  exists k ev cell v,
    e = CellEvent k ev /\ delivers ev = true /\
    img_output s !! k = Some cell /\
    _labels (step e s) =
      <[Z.to_nat (closure_idx (cell_callback cell)) := v]> (_labels s).
Proof.
  intros Hinv. destruct e as [| |b|k ev|].
  - left. unfold step. destruct (multi_mode s) eqn:Hm.
    { unfold handle, bind, get. cbn. by rewrite Hm. }
    rewrite step_next by done.
    by destruct (next_img_post s Hinv Hm) as (_ & _ & _ & _ & _ & _ & -> & _).
  - left. unfold step. destruct (multi_mode s) eqn:Hm.
    { unfold handle, bind, get. cbn. by rewrite Hm. }
    rewrite step_previous by done.
    by destruct (prev_img_post s Hinv Hm) as (_ & _ & _ & _ & _ & _ & -> & _).
  - left. unfold step, handle, bind, get. cbn. by destruct (multi_mode s).
  - pose proof (cell_event_run k ev s Hinv) as H.
    destruct (img_output s !! k) as [cell|] eqn:Hk;
      [|unfold step; rewrite H; by left].
    destruct H as [Hinv1 [[_ H] | (v & Hcalls & _ & ->)]];
      [unfold step; rewrite H; by left|].
    right. exists k, ev, cell, v. split; [done|]. split.
    { destruct (delivers ev) eqn:Hd; [done|].
      by rewrite (fire_silent _ ev Hd) in Hcalls. }
    split; [done|].
    destruct (inv_cell s k cell Hinv Hk) as (_ & Hi & Hc).
    match type of Hinv1 with
    | inv ?s1 =>
        destruct (run_call_post (cell_callback cell) v s1)
          as (_ & _ & _ & L & _);
          [done|done|cbn; destruct (multi_mode s); by rewrite Hc|]
    end.
    exact L.
  - left. unfold step, handle, remove, bind, get. cbn.
    by destruct (multi_mode s).
Qed.

(** *** Multi mode *)

Lemma step_multi e s :
  inv s -> multi_mode s = true ->
  _seen (step e s) = _seen s /\ displayed (step e s) = displayed s /\
  tracebacks (step e s) = tracebacks s /\
  cell_callback <$> img_output (step e s) = cell_callback <$> img_output s.
Proof.
  intros Hinv Hm. destruct e as [| |b|k ev|];
    try (unfold step, handle, remove, bind, get; cbn; by rewrite Hm).
  pose proof (cell_event_run k ev s Hinv) as H.
  destruct (img_output s !! k) as [cell|] eqn:Hk;
    [|unfold step; by rewrite H].
  assert (cell_callback <$>
            <[k := mkCell (cell_callback cell) (fst (fire (cell_ctl cell) ev))
                          (img_widget cell)]> (img_output s)
          = cell_callback <$> img_output s) as Hmap.
  { rewrite list_fmap_insert. cbn. apply list_insert_id.
    by rewrite list_lookup_fmap, Hk. }
  destruct H as [Hinv1 [[_ H] | (v & _ & _ & ->)]];
    [unfold step; by rewrite H|].
  destruct (inv_cell s k cell Hinv Hk) as (_ & Hi & Hc).
  match type of Hinv1 with
  | inv ?s1 =>
      destruct (run_call_post (cell_callback cell) v s1)
        as (_ & _ & _ & _ & _ & ->);
        [done|done|cbn; destruct (multi_mode s); by rewrite Hc|done|]
  end.
  done.
Qed.

Lemma reachable_multi_layout s :
  reachable s -> multi_mode s = true -> multi_layout s.
Proof.
  induction 1 as [images factory default_labels multi s Hinit|e s Hr IH].
  - intros Hm. destruct multi.
    + pose proof (__init___length _ _ _ _ _ Hinit) as Hlen.
      destruct (__init___multi_run images factory default_labels Hlen)
        as (s' & Hs' & Hcells & _ & Hd & _ & _ & Hi & _).
      rewrite Hinit in Hs'. injection Hs' as <-.
      split; [|rewrite Hd, Hi; apply filter_sublist].
      rewrite <- Hd in Hcells. clear Hd.
      induction Hcells as [|cell i cells js Hc _ IH]; [done|].
      cbn. f_equal; [by destruct Hc|done].
    + apply __init___single in Hinit as (? & v & _ & _ & _ & ->).
      by destruct (new factory (mkCall (single_cell_callback 0)) v).
  - intros Hm. pose proof (reachable_inv s Hr) as Hinv.
    destruct (step_post e s Hinv) as (_ & _ & (Hi & _ & Hmm & _) & _).
    rewrite Hmm in Hm.
    destruct (step_multi e s Hinv Hm) as (_ & Hd & _ & Hc).
    destruct (IH Hm) as [L D]. split; rewrite ?Hi, Hd; congruence.
Qed.

End MoreSteps.

(** ** Further properties of the state machine *)

(** X5. The abstract base factory builds no cell, and a labeler made with
    it shows none: in every state that can be reached with it, no cell is
    shown, no image has been displayed, every flag is [False] (so
    [all_seen] is [False] if there is an image), and the tracebacks shown
    are all of [NotImplementedError]; every action returns. *)
Theorem abstract_factory_shows_nothing {ndarray}
    (s : ImageLabeler ndarray) (e : Event) :
  reachable s -> _cell_factory s = AbstractInputCellFactory ->
  img_output s = [] /\ displayed s = [] /\
  _seen s = replicate (length (_images s)) false /\
  (_images s <> [] -> all_seen s = false) /\
  Forall (fun err => err = NotImplementedError) (tracebacks s) /\
  fst (handle e s) = Ret tt.
Proof.
  intros Hr Hf. pose proof (reachable_inv s Hr) as Hinv.
  destruct (reachable_log s Hr) as (Ho & Hd & Htb). rewrite Hf in Hd, Htb.
  assert (displayed s = []) as Hnil.
  { destruct (displayed s) as [|i js]; [done|].
    by destruct Hd as [v Hv]. }
  assert (_seen s = replicate (length (_images s)) false) as Hseen.
  { destruct Hinv as ([_ Hlen] & Hsd & _). rewrite <- Hlen.
    apply list_eq. intros k.
    destruct (_seen s !! k) as [b|] eqn:Hk.
    - rewrite lookup_replicate_2 by by eapply lookup_lt_Some.
      destruct b; [|done].
      pose proof (proj2 (Hsd (Z.of_nat k))) as Hin.
      rewrite Nat2Z.id, Hnil in Hin.
      assert (Z.of_nat k ∈ @nil Z) as Hin' by (apply Hin; split; [lia|done]).
      by apply elem_of_nil in Hin'.
    - symmetry. apply lookup_ge_None_2. rewrite length_replicate.
      by apply lookup_ge_None_1. }
  split; [by apply Ho|]. split; [done|]. split; [done|]. split; [|split].
  - intros Hne. unfold all_seen. rewrite Hseen.
    by destruct (_images s).
  - eapply Forall_impl; [exact Htb|]. by intros err [v [= <-]].
  - by destruct (step_post e s Hinv) as (R & _).
Qed.

(** An instance of X5: a labeler over two images made with the abstract
    factory, after Next. *)
Lemma abstract_factory_shows_nothing_witness :
  exists s0,
    __init__ [10; 20]%nat AbstractInputCellFactory None false = Ret s0 /\
    let s := step ClickNext s0 in
    img_output s = [] /\ all_seen s = false /\
    tracebacks s = [NotImplementedError; NotImplementedError] /\
    fst (handle ClickNext s) = Ret tt.
Proof.
  eexists. split; [vm_compute; reflexivity|]. intros s.
  assert (reachable s) as Hr.
  { apply reachable_step.
    apply (reachable_init [10; 20]%nat AbstractInputCellFactory None false).
    vm_compute; reflexivity. }
  destruct (abstract_factory_shows_nothing s ClickNext Hr eq_refl)
    as (Ho & _ & _ & Hall & _ & Hret).
  split; [exact Ho|]. split; [apply Hall; discriminate|].
  split; [vm_compute; reflexivity | exact Hret].
Defined.

(** X6. From a single mode construction on labels that the factory
    accepts, after any actions the progress bar stands at [idx + 1], the
    label reads ["idx + 1 / n"], [n] is the number of images, and the bar
    is between 1 and [n]. *)
Theorem progress_display_in_step {ndarray} (images : list ndarray)
    (cell_factory : InputCellFactory)
    (default_labels : option (list PyVal))
    (s0 : ImageLabeler ndarray) (es : list Event) :
  __init__ images cell_factory default_labels false = Ret s0 ->
  Forall (fun v => accepts cell_factory v = true)
         (initial_labels images default_labels) ->
  let s := steps es s0 in
  progress_synced s /\
  n s = Z.of_nat (length images) /\
  1 <= pbar_widget s <= Z.of_nat (length images).
Proof.
  intros Hinit Hacc s.
  pose proof (__init___inv _ _ _ _ _ Hinit) as Hinv.
  apply __init___single in Hinit as (img & v & _ & _ & _ & Hs0).
  assert (progress_synced s0 /\ multi_mode s0 = false /\ _images s0 = images)
    as (Hsync & Hm & Hi).
  { subst s0.
    by destruct (new cell_factory (mkCall (single_cell_callback 0)) v). }
  destruct (steps_post es s0 Hinv)
    as ((_ & _ & Hmode) & (Hi' & _ & Hm' & _) & P).
  destruct (P Hsync) as [Hbar Hlabel].
  fold s in Hmode, Hi', Hm', Hbar, Hlabel. rewrite Hm', Hm in Hmode.
  destruct Hmode as (Hn & Hidx & _). rewrite Hi', Hi in Hn.
  split; [done|]. split; [done|]. lia.
Qed.

(** An instance of X6: the pets labeler after Next, a press on dog (which
    advances) and Previous shows "2 / 3". *)
Lemma progress_display_in_step_witness :
  exists s0,
    pets_single = Ret s0 /\
    let s := steps [ClickNext; CellEvent 0 (Press 1); ClickPrevious] s0 in
    idx s = 1 /\ pbar_widget s = 2 /\ label_widget s = "2 / 3"%string /\
    progress_synced s.
Proof.
  eexists. split; [vm_compute; reflexivity|]. intros s.
  split; [vm_compute; reflexivity|]. split; [vm_compute; reflexivity|].
  split; [vm_compute; reflexivity|].
  refine (proj1 (progress_display_in_step [10; 20; 30]%nat pets None _
                   [ClickNext; CellEvent 0 (Press 1); ClickPrevious]
                   _ _)).
  - vm_compute; reflexivity.
  - repeat constructor.
Defined.

(** X7. Navigation composes as expected.  In a reachable single mode
    state, Next followed by Previous (below the last image) and Previous
    followed by Next (above the first) lead back to the same index with
    the labels untouched; Next at the last image and Previous at the first
    return and leave index, labels, flags, display log and shown cells as
    they are. *)
Theorem navigation_round_trip {ndarray} (s : ImageLabeler ndarray) :
  reachable s -> multi_mode s = false ->
  let len := Z.of_nat (length (_images s)) in
  (idx s < len - 1 ->
   idx (step ClickPrevious (step ClickNext s)) = idx s /\
   labels (step ClickPrevious (step ClickNext s)) = labels s) /\
  (idx s > 0 ->
   idx (step ClickNext (step ClickPrevious s)) = idx s /\
   labels (step ClickNext (step ClickPrevious s)) = labels s) /\
  (forall e,
     e = ClickNext /\ idx s = len - 1 \/ e = ClickPrevious /\ idx s = 0 ->
     fst (handle e s) = Ret tt /\
     idx (step e s) = idx s /\ labels (step e s) = labels s /\
     _seen (step e s) = _seen s /\ displayed (step e s) = displayed s /\
     img_output (step e s) = img_output s).
Proof.
  intros Hr Hm len. pose proof (reachable_inv s Hr) as Hinv.
  pose proof Hinv as (_ & _ & Hmode). rewrite Hm in Hmode.
  destruct Hmode as (Hn & Hi & _). fold len in Hn.
  destruct (next_img_post s Hinv Hm) as (_ & In & En & Hin & Hnn & _ & Hln & _).
  destruct (prev_img_post s Hinv Hm) as (_ & Ip & Ep & Hip & Hnp & _ & Hlp & _).
  assert (multi_mode (snd (next_img tt s)) = false) as Hmn
    by (destruct En as (_ & _ & -> & _); done).
  assert (multi_mode (snd (prev_img tt s)) = false) as Hmp
    by (destruct Ep as (_ & _ & -> & _); done).
  destruct (prev_img_post _ In Hmn) as (_ & _ & _ & Hipn & _ & _ & Hlpn & _).
  destruct (next_img_post _ Ip Hmp) as (_ & _ & _ & Hinp & _ & _ & Hlnp & _).
  unfold labels, step.
  split; [|split].
  - intros Hlt. rewrite (step_next s), step_previous by done.
    rewrite Hipn, Hlpn, Hin, Hln.
    destruct (Z.ltb_spec (idx s) (n s - 1)); [|lia].
    destruct (Z.gtb_spec (idx s + 1) 0); [|lia]. split; [lia|done].
  - intros Hgt. rewrite (step_previous s), step_next by done.
    rewrite Hinp, Hlnp, Hip, Hlp, Hnp.
    destruct (Z.gtb_spec (idx s) 0); [|lia].
    destruct (Z.ltb_spec (idx s - 1) (n s - 1)); [|lia]. split; [lia|done].
  - intros e [[-> Hlast] | [-> Hfirst]].
    + rewrite step_next by done. rewrite next_img_run.
      destruct (Z.ltb_spec (idx s) (n s - 1)); [lia|].
      by rewrite set_progess_run.
    + rewrite step_previous by done. rewrite prev_img_run.
      destruct (Z.gtb_spec (idx s) 0); [lia|].
      by rewrite set_progess_run.
Qed.

(** An instance of X7: the pets labeler as constructed stands at image 0:
    Next then Previous leads back there, and Previous changes nothing. *)
Lemma navigation_round_trip_witness :
  exists s,
    pets_single = Ret s /\
    idx (step ClickPrevious (step ClickNext s)) = idx s /\
    img_output (step ClickPrevious s) = img_output s.
Proof.
  eexists. split; [vm_compute; reflexivity|].
  match goal with
  | |- idx (step _ (step _ ?s)) = _ /\ _ =>
      assert (reachable s) as Hr
        by (apply (reachable_init [10; 20; 30]%nat pets None false);
            vm_compute; reflexivity);
      destruct (navigation_round_trip s Hr eq_refl) as (Hnp & _ & Hends)
  end.
  split.
  - apply Hnp. vm_compute; reflexivity.
  - apply (Hends ClickPrevious). right. split; reflexivity.
Defined.

(** X8. Labels change only when a control delivers.  In every reachable
    state an action keeps the length of the labels; Next, Previous, the
    auto advance box, [remove()] and typing into a counter leave the
    labels as they are; and an action on a shown cell leaves every label
    alone except that of the image the cell was made for.  That image is
    the current image in single mode, and in multi mode, for the [k]-th
    shown cell, the [k]-th of the images displayed. *)
Theorem labels_change_only_by_delivery {ndarray}
    (s : ImageLabeler ndarray) (e : Event) :
  reachable s ->
  length (_labels (step e s)) = length (_labels s) /\
  (match e with CellEvent _ ev => delivers ev = false | _ => True end ->
   _labels (step e s) = _labels s) /\
  (forall k ev (j : nat),
     e = CellEvent k ev ->
     (forall cell,
        img_output s !! k = Some cell ->
        Z.of_nat j <> closure_idx (cell_callback cell)) ->
     _labels (step e s) !! j = _labels s !! j) /\
  (forall k cell,
     img_output s !! k = Some cell ->
     if multi_mode s
     then displayed s !! k = Some (closure_idx (cell_callback cell))
     else closure_idx (cell_callback cell) = idx s).
Proof.
  intros Hr. pose proof (reachable_inv s Hr) as Hinv.
  assert (forall k cell,
            img_output s !! k = Some cell ->
            if multi_mode s
            then displayed s !! k = Some (closure_idx (cell_callback cell))
            else closure_idx (cell_callback cell) = idx s) as Hcells.
  { intros k cell Hk. destruct (inv_cell s k cell Hinv Hk) as (_ & _ & Hc).
    destruct (multi_mode s) eqn:Hm; [|by rewrite Hc].
    destruct (reachable_multi_layout s Hr Hm) as [Hlay _].
    assert ((cell_callback <$> img_output s) !! k
            = Some (cell_callback cell)) as Hck
      by by rewrite list_lookup_fmap, Hk.
    rewrite Hlay, list_lookup_fmap in Hck.
    destruct (displayed s !! k) as [i|]; [|done].
    cbn in Hck. injection Hck as <-. done. }
  destruct (step_labels e s Hinv)
    as [Hsame|(k & ev & cell & v & -> & Hd & Hk & Hls)].
  { rewrite Hsame. by repeat split. }
  split; [by rewrite Hls, length_insert|]. split; [by rewrite Hd|].
  split; [|done].
  intros k' ev' j [= <- <-] Hj. rewrite Hls.
  apply list_lookup_insert_ne. specialize (Hj cell Hk).
  destruct (inv_cell s k cell Hinv Hk) as (_ & Hi & _). lia.
Qed.

(** An instance of X8: in the multi mode checks labeler, which shows
    images 0 and 2, submitting on the second shown cell changes the label
    of image 2 and no other. *)
Lemma labels_change_only_by_delivery_witness :
  exists s,
    checks_multi = Ret s /\
    let s' := step (CellEvent 1 Submit) s in
    labels s' = [VNone; VStr "later"; VValResult 0 0 0] /\
    _labels s' !! 1%nat = _labels s !! 1%nat.
Proof.
  eexists. split; [vm_compute; reflexivity|]. intros s'.
  split; [vm_compute; reflexivity|].
  match goal with
  | |- _ = _labels ?s !! _ =>
      assert (reachable s) as Hr
        by (apply (reachable_init [10; 20; 30]%nat DetectorValidation
                     (Some [VNone; VStr "later"; VNone]) true);
            vm_compute; reflexivity);
      destruct (labels_change_only_by_delivery s (CellEvent 1 Submit) Hr)
        as (_ & _ & Hothers & _)
  end.
  apply (Hothers 1%nat Submit 1%nat eq_refl).
  intros cell [= <-]. vm_compute. discriminate.
Defined.

(** X9. Multi mode shows what it shows once and for all.  In every
    reachable multi mode state every action returns and leaves the flags,
    the display log, the tracebacks and hence [all_seen] as they are; the
    shown cells are, in order, the cells of the images displayed, and these
    are images of the labeler in increasing order, each displayed once. *)
Theorem multi_mode_actions {ndarray} (s : ImageLabeler ndarray) (e : Event) :
  reachable s -> multi_mode s = true ->
  fst (handle e s) = Ret tt /\
  _seen (step e s) = _seen s /\
  displayed (step e s) = displayed s /\
  tracebacks (step e s) = tracebacks s /\
  all_seen (step e s) = all_seen s /\
  cell_callback <$> img_output s = multi_cell_callback <$> displayed s /\
  displayed s `sublist_of` range (length (_images s)).
Proof.
  intros Hr Hm. pose proof (reachable_inv s Hr) as Hinv.
  destruct (reachable_multi_layout s Hr Hm) as [Hlay Hdisp].
  destruct (step_multi e s Hinv Hm) as (Hseen & Hd & Htb & _).
  destruct (step_post e s Hinv) as (Hret & _).
  unfold all_seen. by rewrite Hseen.
Qed.

(** An instance of X9: the multi mode checks labeler after a submit and a
    stray click. *)
Lemma multi_mode_actions_witness :
  exists s0,
    checks_multi = Ret s0 /\
    let s := steps [CellEvent 1 Submit; ClickNext] s0 in
    fst (handle (CellEvent 0 Submit) s) = Ret tt /\
    displayed (step (CellEvent 0 Submit) s) = displayed s /\
    cell_callback <$> img_output s = multi_cell_callback <$> [0; 2].
Proof.
  eexists. split; [vm_compute; reflexivity|]. intros s.
  assert (reachable s) as Hr.
  { apply reachable_steps.
    apply (reachable_init [10; 20; 30]%nat DetectorValidation
             (Some [VNone; VStr "later"; VNone]) true).
    vm_compute; reflexivity. }
  destruct (multi_mode_actions s (CellEvent 0 Submit) Hr eq_refl)
    as (Hret & _ & Hd & _ & _ & Hlay & _).
  split; [exact Hret|]. split; [exact Hd|]. exact Hlay.
Defined.

(** X10. [all_seen] is [True] exactly when every image has been displayed
    at least once, and once [True] it stays [True] under every action. *)
Theorem all_seen_iff_all_displayed {ndarray} (s : ImageLabeler ndarray) :
  reachable s ->
  (all_seen s = true <->
   forall i, 0 <= i < Z.of_nat (length (_images s)) -> i ∈ displayed s) /\
  (all_seen s = true -> forall e, all_seen (step e s) = true).
Proof.
  intros Hr. pose proof (reachable_inv s Hr) as Hinv.
  pose proof Hinv as ([_ Hs] & Hsd & _). unfold all_seen. split.
  - rewrite all_true_lookup. split.
    + intros H i Hi. apply Hsd. split; [lia|]. apply H. lia.
    + intros H k Hk.
      destruct (proj1 (Hsd (Z.of_nat k))) as [_ Hseen]; [apply H; lia|].
      by rewrite Nat2Z.id in Hseen.
  - intros Hall e. destruct (step_post e s Hinv) as (_ & _ & E & _).
    destruct E as (_ & _ & _ & _ & Hlen & Hgrow).
    apply all_true_lookup. intros k Hk. apply Hgrow.
    apply (proj1 (all_true_lookup _) Hall). lia.
Qed.

(** An instance of X10: the pets labeler after two presses of Next has
    shown all three images, and stays so after Previous. *)
Lemma all_seen_iff_all_displayed_witness :
  exists s0,
    pets_single = Ret s0 /\ all_seen s0 = false /\
    let s := steps [ClickNext; ClickNext] s0 in
    all_seen s = true /\ all_seen (step ClickPrevious s) = true.
Proof.
  eexists. split; [vm_compute; reflexivity|].
  split; [vm_compute; reflexivity|]. intros s.
  assert (reachable s) as Hr.
  { apply reachable_steps.
    apply (reachable_init [10; 20; 30]%nat pets None false).
    vm_compute; reflexivity. }
  assert (all_seen s = true) as Hall by (vm_compute; reflexivity).
  split; [exact Hall|].
  exact (proj2 (all_seen_iff_all_displayed s Hr) Hall ClickPrevious).
Defined.

(** Once every image has been displayed, every flag is set. *)
Lemma seen_all {ndarray} (s : ImageLabeler ndarray) :
  inv s -> displayed s = range (length (_images s)) ->
  _seen s = replicate (length (_images s)) true.
Proof.
  intros ([_ Hs] & Hsd & _) Hd. apply list_eq. intros k.
  destruct (decide (k < length (_images s))%nat) as [Hk|Hk].
  - rewrite lookup_replicate_2 by done.
    pose proof (Hsd (Z.of_nat k)) as [H _]. rewrite Nat2Z.id in H.
    apply H. rewrite Hd. apply range_elem. lia.
  - rewrite !lookup_ge_None_2; [done|rewrite length_replicate; lia|lia].
Qed.

(** The labeler after [k] presses of Next, on labels that the factory
    accepts. *)
Lemma walk {ndarray} (images : list ndarray) factory default_labels s0 :
  __init__ images factory default_labels false = Ret s0 ->
  Forall (fun v => accepts factory v = true)
         (initial_labels images default_labels) ->
  forall k : nat,
    (k < length images)%nat ->
    let s := steps (replicate k ClickNext) s0 in
    inv s /\ multi_mode s = false /\
    _images s = images /\ _cell_factory s = factory /\
    _labels s = initial_labels images default_labels /\
    idx s = Z.of_nat k /\ displayed s = range (S k).
Proof.
  intros Hinit Hacc.
  pose proof (__init___inv _ _ _ _ _ Hinit) as Hinv0.
  apply __init___single in Hinit as (img & v & Hlen & _ & Hv & Hs0).
  pose proof (Forall_lookup_1 _ _ _ _ Hacc Hv) as Hv'.
  apply (new_accepts _ (mkCall (single_cell_callback 0))) in Hv'
    as [ctl Hctl].
  rewrite Hctl in Hs0.
  induction k as [|k IH]; intros Hk s.
  - subst s. cbn. split; [done|]. by subst s0.
  - destruct IH as (Hinv & Hm & Hi & Hf & Hl & Hidx & Hdisp); [lia|].
    subst s. rewrite replicate_S_end, steps_snoc.
    set (s := steps (replicate k ClickNext) s0) in *.
    pose proof Hinv as (_ & _ & Hmode). rewrite Hm in Hmode.
    destruct Hmode as (Hn & _). rewrite Hi in Hn.
    destruct (lookup_lt_is_Some_2 (_labels s) (Z.to_nat (idx s + 1)))
      as [u Hu]; [rewrite Hl, Hlen; lia|].
    destruct (next_shows s u Hinv Hm) as (_ & Hidx' & Hdisp' & _ & Hl' & _);
      [lia|done| |].
    { rewrite Hf. rewrite Hl in Hu. exact (Forall_lookup_1 _ _ _ _ Hacc Hu). }
    destruct (step_post ClickNext s Hinv) as (_ & I & (Ei & Ef & Em & _) & _).
    split; [done|]. split; [congruence|]. split; [congruence|].
    split; [congruence|]. split; [congruence|]. split; [lia|].
    rewrite Hdisp', Hdisp, (range_S (S k)), Hidx. do 2 f_equal. lia.
Qed.

(** X11. Pressing Next walks through the images.  From a single mode
    construction on labels that the factory accepts, [k] presses of Next
    (for [k] below the number of images) lead to index [k] with images
    0, ..., [k] displayed in this order; after [len - 1] presses every
    image has been shown and [all_seen] is [True]. *)
Theorem next_walks_through {ndarray} (images : list ndarray)
    (cell_factory : InputCellFactory)
    (default_labels : option (list PyVal))
    (s0 : ImageLabeler ndarray) (k : nat) :
  __init__ images cell_factory default_labels false = Ret s0 ->
  Forall (fun v => accepts cell_factory v = true)
         (initial_labels images default_labels) ->
  (k < length images)%nat ->
  let s := steps (replicate k ClickNext) s0 in
  idx s = Z.of_nat k /\ displayed s = range (S k) /\
  (S k = length images -> all_seen s = true).
Proof.
  intros Hinit Hacc Hk s.
  destruct (walk images cell_factory default_labels s0 Hinit Hacc k Hk)
    as (Hinv & _ & Hi & _ & _ & Hidx & Hdisp).
  fold s in Hinv, Hi, Hidx, Hdisp.
  split; [done|]. split; [done|]. intros Hlast.
  unfold all_seen. rewrite (seen_all s Hinv).
  - apply all_replicate_true.
  - by rewrite Hdisp, Hi, Hlast.
Qed.

(** An instance of X11: two presses of Next in the pets labeler. *)
Lemma next_walks_through_witness :
  exists s0,
    pets_single = Ret s0 /\
    let s := steps (replicate 2 ClickNext) s0 in
    idx s = 2 /\ displayed s = [0; 1; 2] /\ all_seen s = true.
Proof.
  eexists. split; [vm_compute; reflexivity|].
  match goal with
  | |- let s := steps _ ?s0 in _ =>
      intros s;
      assert (__init__ [10; 20; 30]%nat pets None false = Ret s0) as Hinit
        by (vm_compute; reflexivity);
      destruct (next_walks_through [10; 20; 30]%nat pets None s0 2 Hinit)
        as (Hidx & Hdisp & Hall); [repeat constructor | simpl; lia |]
  end.
  split; [exact Hidx|]. split; [exact Hdisp|]. exact (Hall eq_refl).
Defined.

(** X12. No handler ever raises, and the only exceptions shown are the
    factory's.  In every reachable state every action returns; it shows at
    most one more traceback, and none in multi mode; and every traceback
    shown is an exception with which the factory refuses some label,
    [NotImplementedError], [TraitError] or [AttributeError] according to
    the factory: no list access of the labeler ever raised [IndexError],
    and nothing raised [AssertionError]. *)
Theorem handler_exceptions_come_from_factory {ndarray}
    (s : ImageLabeler ndarray) (e : Event) :
  reachable s ->
  fst (handle e s) = Ret tt /\
  (tracebacks (step e s) = tracebacks s \/
   multi_mode s = false /\
   exists v err,
     refusal (_cell_factory s) v = Some err /\
     tracebacks (step e s) = tracebacks s ++ [err]) /\
  Forall (fun err =>
            (exists v, refusal (_cell_factory s) v = Some err) /\
            err = match _cell_factory s with
                  | AbstractInputCellFactory => NotImplementedError
                  | MultiClass _ => TraitError
                  | DetectorValidation => AttributeError
                  end /\
            err <> IndexError /\ err <> AssertionError)
         (tracebacks s).
Proof.
  intros Hr. pose proof (reachable_inv s Hr) as Hinv.
  split; [by destruct (step_post e s Hinv) as (R & _)|]. split.
  - destruct (step_log e s Hinv)
      as [(_ & -> & _) | [(_ & _ & -> & _)
                         | (Hm & _ & _ & _ & v & err & He & ->)]];
      [by left..|].
    right. split; [done|]. by exists v, err.
  - destruct (reachable_log s Hr) as (_ & _ & Htb).
    eapply Forall_impl; [exact Htb|]. intros err [v Hv].
    split; [by exists v|].
    apply (new_refusal _ (fun _ : PyVal => tt)) in Hv.
    apply new_raise_kinds in Hv.
    destruct (_cell_factory s); subst err; done.
Qed.

(** An instance of X12: the checks labeler, whose second label the factory
    refuses, on Submit. *)
Lemma handler_exceptions_come_from_factory_witness :
  exists s,
    checks_single = Ret s /\
    fst (handle (CellEvent 0 Submit) s) = Ret tt /\
    tracebacks (step (CellEvent 0 Submit) s) = [AttributeError] /\
    Forall (fun err => err <> IndexError)
           (tracebacks (step (CellEvent 0 Submit) s)).
Proof.
  eexists. split; [vm_compute; reflexivity|].
  match goal with
  | |- fst (handle _ ?s) = _ /\ _ =>
      assert (reachable s) as Hr
        by (apply (reachable_init [10; 20]%nat DetectorValidation
                     (Some [VNone; VStr "later"]) false);
            vm_compute; reflexivity);
      pose proof (handler_exceptions_come_from_factory s
                    (CellEvent 0 Submit) Hr) as (Hret & _ & _);
      pose proof (handler_exceptions_come_from_factory
                    (step (CellEvent 0 Submit) s) ClickNext
                    (reachable_step _ _ Hr)) as (_ & _ & Hkinds)
  end.
  split; [exact Hret|]. split; [vm_compute; reflexivity|].
  eapply Forall_impl; [exact Hkinds|].
  intros err (_ & _ & Hne & _). exact Hne.
Defined.

(** X13. Next and Previous show the stored label.  In a reachable single
    mode state, when the label stored for the image that Next (below the
    last image) or Previous (above the first) moves to is one the factory
    accepts, the handler returns, the index is that image's, the image is
    displayed and marked seen, the labels are untouched, and the output
    area holds exactly one cell: the control that the factory builds for
    the stored label, around the callback of that image. *)
Theorem navigation_shows_stored_label {ndarray}
    (s : ImageLabeler ndarray) (e : Event) (j : Z) (v : PyVal) :
  reachable s -> multi_mode s = false ->
  e = ClickNext /\ j = idx s + 1 /\ j <= Z.of_nat (length (_images s)) - 1 \/
  e = ClickPrevious /\ j = idx s - 1 /\ 0 <= j ->
  _labels s !! Z.to_nat j = Some v ->
  accepts (_cell_factory s) v = true ->
  fst (handle e s) = Ret tt /\
  idx (step e s) = j /\
  displayed (step e s) = displayed s ++ [j] /\
  _seen (step e s) !! Z.to_nat j = Some true /\
  labels (step e s) = labels s /\
  exists cell,
    img_output (step e s) = [cell] /\
    made_for single_cell_callback (step e s) cell j.
Proof.
  intros Hr Hm He Hv Hacc. pose proof (reachable_inv s Hr) as Hinv.
  pose proof Hinv as ([_ Hs] & _ & Hmode). rewrite Hm in Hmode.
  destruct Hmode as (Hn & Hi & _). unfold labels.
  destruct He as [(-> & -> & Hj) | (-> & -> & Hj)].
  - destruct (next_shows s v Hinv Hm) as (H1 & H2 & H3 & H4 & H5 & H6);
      [lia|done..|].
    rewrite H4. repeat split; try done.
    apply list_lookup_insert_eq. lia.
  - destruct (previous_shows s v Hinv Hm) as (H1 & H2 & H3 & H4 & H5 & H6);
      [lia|done..|].
    rewrite H4. repeat split; try done.
    apply list_lookup_insert_eq. lia.
Qed.

(** An instance of X13: in the pets labeler with image 1 labelled dog,
    Next from image 0 shows a selector that starts at dog. *)
Lemma navigation_shows_stored_label_witness :
  exists s cell,
    __init__ [10; 20; 30]%nat pets (Some [VNone; VStr "dog"; VNone]) false
      = Ret s /\
    img_output (step ClickNext s) = [cell] /\
    selection (cell_ctl cell) = Some (VStr "dog") /\
    idx (step ClickNext s) = 1.
Proof.
  eexists _, _. split; [vm_compute; reflexivity|].
  split; [vm_compute; reflexivity|]. split; [vm_compute; reflexivity|].
  match goal with
  | |- idx (step _ ?s) = _ =>
      assert (reachable s) as Hr
        by (apply (reachable_init [10; 20; 30]%nat pets
                     (Some [VNone; VStr "dog"; VNone]) false);
            vm_compute; reflexivity);
      refine (proj1 (proj2 (navigation_shows_stored_label s ClickNext 1
                              (VStr "dog") Hr eq_refl _ eq_refl eq_refl)))
  end.
  left. split; [reflexivity|]. split; [reflexivity|]. vm_compute. discriminate.
Defined.
